(** * Assistant Manager: the phase sequencer of [main.py]

    A shallow embedding of the Streamlit script [main.py]: the session
    state, the calls to the OpenAI client, the run-completion poll, the
    tabbed chat section with its phase buttons, the conversation reset, the
    document upload and the sidebar selection of an assistant.

    The script is a sequence of effects on [st.session_state] and on the
    remote service, so it is written in a small state-and-exception monad
    [M].  The remote service is an oracle [client] that answers a call from
    the calls made so far; the four workflow tables of [messages.py], the
    table of [assistant_instructions.py], [str.format], the local disk and
    the widgets of the page are parameters. *)

From Stdlib Require Import String Ascii List Bool Arith ZArith Lia.
From stdpp Require Import base option list strings gmap.
Import ListNotations.

Local Open Scope string_scope.
Local Open Scope list_scope.

(** ** Python values *)

Module Py.

(** [bool(s)] of a string. *)
Definition truthy (s : string) : bool := negb (String.eqb s "").

(** [bool(x)] of an [Optional[str]]. *)
Definition truthy_opt (o : option string) : bool :=
  match o with
  | Some s => truthy s
  | None => false
  end.

Fixpoint ends_with_slash (s : string) : bool :=
  match s with
  | EmptyString => false
  | String c EmptyString => Ascii.eqb c "/"
  | String _ s' => ends_with_slash s'
  end.

Definition starts_with_slash (s : string) : bool :=
  match s with
  | String c _ => Ascii.eqb c "/"
  | EmptyString => false
  end.

(** [os.path.join(a, b)] of [posixpath], two components. *)
Definition path_join (a b : string) : string :=
  if starts_with_slash b then b
  else if negb (truthy a) || ends_with_slash a then a +:+ b
  else a +:+ "/" +:+ b.

(** [os.path.basename(p)]: what follows the last slash. *)
Fixpoint basename_from (acc p : string) : string :=
  match p with
  | EmptyString => acc
  | String c p' =>
      if Ascii.eqb c "/" then basename_from "" p'
      else basename_from (acc +:+ String c "") p'
  end.

Definition basename (p : string) : string := basename_from "" p.

(** [s] without its prefix [p], when it has it. *)
Fixpoint strip_prefix (p s : string) : option string :=
  match p, s with
  | EmptyString, _ => Some s
  | String a p', String b s' =>
      if Ascii.eqb a b then strip_prefix p' s' else None
  | String _ _, EmptyString => None
  end.

(** [s.split(sep, 1)]: the text before and after the leftmost [sep];
    [None] when [sep] does not occur (the list then has one element). *)
Fixpoint split_once (sep s : string) : option (string * string) :=
  match strip_prefix sep s with
  | Some rest => Some ("", rest)
  | None =>
      match s with
      | EmptyString => None
      | String c s' =>
          match split_once sep s' with
          | Some (before, after) => Some (String c before, after)
          | None => None
          end
      end
  end.

Fixpoint has_char (c : ascii) (s : string) : bool :=
  match s with
  | EmptyString => false
  | String d s' => Ascii.eqb c d || has_char c s'
  end.

End Py.

(** ** Session state *)

(** An assistant object of the client: [id], [name], [metadata.get('type')]
    and [tool_resources.file_search.vector_store_ids]. *)
Record Assistant := mkAssistant {
  a_id : string;
  a_name : string;
  a_type : option string;
  a_vector_store_ids : list string
}.

(** One value of [st.session_state['assistant_chat_histories']].  The two
    keys ['company_name'] and ['selected_slides'] can be absent: the
    dictionary written by [reset_chat] does not have them. *)
Record Chat := mkChat {
  chat_history : list (string * string);
  conversation_history : list (string * string);
  message_index : nat;
  company_name : option string;
  selected_slides : option string
}.

(** The dictionary of lines 240-246. *)
Definition fresh_chat : Chat :=
  mkChat [] [] 0 (Some "") (Some "").

(** The dictionary of lines 444-448 (and 430-434). *)
Definition reset_chat_value : Chat :=
  mkChat [] [] 0 None None.

(** [st.session_state]: the keys the modelled functions read or write.
    ['thread_id'] is one key of the session, absent until the first chat. *)
Record Session := mkSession {
  assistants : list Assistant;
  assistant : option Assistant;
  thread_id : option string;
  assistant_chat_histories : gmap string Chat;
  vector_store : option string
}.

(** ** The remote service *)

Record Run := mkRun { run_id : string; run_status : string }.

(** A content block of a thread message; [.text] exists on text blocks. *)
Inductive content_block :=
  | TextBlock (value : string)
  | ImageBlock.

(** The uploads of [upload_files_to_vector_store]: a required file is the
    tuple [("file", (filename, content))], an uploaded file an object with
    [name] and [getbuffer()]. *)
Inductive upload :=
  | RequiredFile (tag : string) (filename : string) (content : string)
  | UploadedFile (name : string) (buffer : string).

Inductive call :=
  | VectorStoresCreate (name : string)
  | FileBatchesUploadAndPoll (vector_store_id file_path content : string)
  | AssistantsCreate (name instructions assistant_type : string)
  | AssistantsUpdate (assistant_id vector_store_id : string)
  | ThreadsCreate
  | ThreadsMessagesCreate (thread content : string)
  | ThreadsRunsCreate (thread assistant_id : string)
  | ThreadsRunsRetrieve (thread run : string)
  | ThreadsMessagesList (thread : string).

Inductive reply :=
  | RaisesException (msg : string)
  | RVectorStore (id : string)
  | RFileBatch (status file_counts : string)
  | RAssistant (a : Assistant)
  | RThread (id : string)
  | RMessage
  | RRun (r : Run)
  | RMessageList (data : list (list content_block)).

(** The client answers a call from the calls made before it. *)
Definition Client := list call -> call -> reply.

(** ** Effects *)

Inductive exn :=
  | IndexError
  | KeyError
  | ValueError
  | AttributeError
  | StreamlitAPIException
  | ClientException (msg : string).

(** [str(e)]. *)
Definition str_exn (e : exn) : string :=
  match e with
  | IndexError => "list index out of range"
  | KeyError => "key"
  | ValueError => "value"
  | AttributeError => "attribute"
  | StreamlitAPIException => "streamlit"
  | ClientException msg => msg
  end.

Inductive level := Error | Warning | Success | Info.

Record Env := mkEnv {
  session : Session;
  calls : list call;
  notices : list (level * string)
}.

(** How a piece of the script ends: with a value, with [st.rerun()], with
    an exception, or still polling when the fuel of the model is spent. *)
Inductive outcome (A : Type) :=
  | Val (a : A)
  | Rerun
  | Raise (e : exn)
  | OutOfFuel.

Arguments Val {A} a.
Arguments Rerun {A}.
Arguments Raise {A} e.
Arguments OutOfFuel {A}.

Definition M (A : Type) : Type := Env -> outcome A * Env.

Definition ret {A} (a : A) : M A := fun e => (Val a, e).

Definition bind {A B} (m : M A) (k : A -> M B) : M B :=
  fun e =>
    match m e with
    | (Val a, e') => k a e'
    | (Rerun, e') => (Rerun, e')
    | (Raise x, e') => (Raise x, e')
    | (OutOfFuel, e') => (OutOfFuel, e')
    end.

Notation "'let*' x ':=' m 'in' k" := (bind m (fun x => k))
  (at level 10, x pattern, m at level 100, k at level 200).

Definition raise {A} (x : exn) : M A := fun e => (Raise x, e).

Definition st_rerun {A} : M A := fun e => (Rerun, e).

Definition out_of_fuel {A} : M A := fun e => (OutOfFuel, e).

(** [try: m  except Exception as e: handler e]; [st.rerun()] is not an
    [Exception] and passes through. *)
Definition try_except {A} (m : M A) (handler : exn -> M A) : M A :=
  fun e =>
    match m e with
    | (Raise x, e') => handler x e'
    | r => r
    end.

Definition get_session : M Session := fun e => (Val (session e), e).

Definition modify_session (f : Session -> Session) : M unit :=
  fun e => (Val tt, mkEnv (f (session e)) (calls e) (notices e)).

Definition st_notice (l : level) (msg : string) : M unit :=
  fun e => (Val tt, mkEnv (session e) (calls e) (notices e ++ [(l, msg)])).

Definition st_error := st_notice Error.
Definition st_warning := st_notice Warning.
Definition st_success := st_notice Success.
Definition st_info := st_notice Info.

(** [xs[i]] of a Python list, [i] not negative. *)
Definition getitem {A} (xs : list A) (i : nat) : M A :=
  match xs !! i with
  | Some x => ret x
  | None => raise IndexError
  end.

Definition set_thread_id (t : option string) (s : Session) : Session :=
  mkSession (assistants s) (assistant s) t (assistant_chat_histories s)
            (vector_store s).

Definition set_assistant (a : option Assistant) (s : Session) : Session :=
  mkSession (assistants s) a (thread_id s) (assistant_chat_histories s)
            (vector_store s).

Definition set_assistants (l : list Assistant) (s : Session) : Session :=
  mkSession l (assistant s) (thread_id s) (assistant_chat_histories s)
            (vector_store s).

Definition set_histories (h : gmap string Chat) (s : Session) : Session :=
  mkSession (assistants s) (assistant s) (thread_id s) h (vector_store s).

Definition set_vector_store (v : option string) (s : Session) : Session :=
  mkSession (assistants s) (assistant s) (thread_id s)
            (assistant_chat_histories s) v.

(** [st.session_state['assistant_chat_histories'][assistant_id]]. *)
Definition current_chat (assistant_id : string) : M Chat :=
  let* s := get_session in
  match assistant_chat_histories s !! assistant_id with
  | Some c => ret c
  | None => raise KeyError
  end.

(** A write through the alias [current_chat]: the dictionary stored under
    [assistant_id] is changed in place. *)
Definition update_chat (assistant_id : string) (f : Chat -> Chat) : M unit :=
  let* c := current_chat assistant_id in
  modify_session (fun s =>
    set_histories (<[assistant_id := f c]> (assistant_chat_histories s)) s).

Definition set_company_name (v : string) (c : Chat) : Chat :=
  mkChat (chat_history c) (conversation_history c) (message_index c)
         (Some v) (selected_slides c).

Definition set_selected_slides (v : string) (c : Chat) : Chat :=
  mkChat (chat_history c) (conversation_history c) (message_index c)
         (company_name c) (Some v).

Definition set_message_index (n : nat) (c : Chat) : Chat :=
  mkChat (chat_history c) (conversation_history c) n
         (company_name c) (selected_slides c).

Definition set_conversation_history (h : list (string * string)) (c : Chat)
  : Chat :=
  mkChat (chat_history c) h (message_index c)
         (company_name c) (selected_slides c).

Definition set_chat_history (h : list (string * string)) (c : Chat) : Chat :=
  mkChat h (conversation_history c) (message_index c)
         (company_name c) (selected_slides c).

(** [current_chat['conversation_history'].append(entry)]. *)
Definition append_conversation (entry : string * string) (c : Chat) : Chat :=
  set_conversation_history (conversation_history c ++ [entry]) c.

(** [current_chat['message_index'] += 1]. *)
Definition increment_message_index (c : Chat) : Chat :=
  set_message_index (message_index c + 1) c.

(** [current_chat['conversation_history'][i] = entry]; the index is in
    range where the script does it, out of range Python raises. *)
Definition setitem_conversation (assistant_id : string) (i : nat)
    (entry : string * string) : M unit :=
  let* c := current_chat assistant_id in
  if decide (i < length (conversation_history c)) then
    update_chat assistant_id
      (set_conversation_history (<[i := entry]> (conversation_history c)))
  else raise IndexError.

(** ** The widgets of the page

    One run of the script reads each widget once; [UI] is what the widgets
    return in that run.  Buttons and inputs are named after their label or
    [key]; [next_phase_{i}] and [upload_info_{i}] carry the tab index, the
    others are the same widget in every tab.  The clash of two widgets with
    one identity, display calls ([st.header], [st.markdown], [st.write])
    and the spinner are not modelled. *)

Inductive button_id :=
  | BtnSubmitCompanyName
  | BtnNextPhase (i : nat)
  | BtnSelectAllSlides
  | BtnSubmitAdditionalSlides
  | BtnProceedWithSelectedSlides
  | BtnUploadInfo (i : nat)
  | BtnSubmitAnswers
  | BtnDraftSlides
  | BtnSubmitAdditionalInformation
  | BtnAnalyzeNewFiles
  | BtnCreateAssistant
  | BtnResetConversation.

Inductive text_id :=
  | TxtCompanyName
  | TxtSlideNumbers
  | TxtAdditionalSlides
  | TxtUserAnswers
  | TxtAdditionalInfo
  | TxtAssistantName.

Record UI := mkUI {
  st_button : button_id -> bool;
  st_text : text_id -> string;
  st_chat_input : option string;
  st_file_uploader : list upload;
  assistant_type_select : option string;
  assistant_select : nat;
  modal_is_open : bool
}.

(** ** The script *)

Definition GRANT_ASSISTANT_REQUIRED_FILES : list string :=
  [ "required_files/COMPLETED IN PHASE 1 - SOLINTEGRA AS.pdf";
    "required_files/COMPLETED IN PHASE 1 - ERKE TEKNOLOGI AS.pdf" ].

Definition PITCH_DECK_CREATOR_REQUIRED_FILES : list string :=
  [ "required_files/Pitchdeck Questions.pdf";
    "required_files/The Overall Pitch Deck Guide.pdf";
    "required_files/VB AI pitchdeck.pdf" ].

(** [response] when [if response:] holds. *)
Definition if_truthy (response : option string) : option string :=
  match response with
  | Some r => if Py.truthy r then Some r else None
  | None => None
  end.

(** [d[key]] of a key that can be absent. *)
Definition getkey (v : option string) : M string :=
  match v with
  | Some x => ret x
  | None => raise KeyError
  end.

(** [xs[z]] of a Python list with a possibly negative index. *)
Definition getitem_int {A} (xs : list A) (z : Z) : M A :=
  let k := if (z <? 0)%Z then (z + Z.of_nat (length xs))%Z else z in
  if (k <? 0)%Z then raise IndexError else getitem xs (Z.to_nat k).

(** [for i, (phase, content) in enumerate(entries): body]. *)
Fixpoint for_enumerate (body : nat -> string -> string -> M unit) (i : nat)
    (entries : list (string * string)) : M unit :=
  match entries with
  | [] => ret tt
  | (phase, content) :: rest =>
      let* _ := body i phase content in
      for_enumerate body (S i) rest
  end.

Section Script.

(** The client of line 18. *)
Variable client : Client.

(** [messages.py], which the repository does not include here. *)
Variables MESSAGES PHASE_NAMES : list string.
Variables PITCH_DECK_MESSAGES PITCH_DECK_PHASE_NAMES : list string.

(** [get_assistant_instructions(assistant_type)] of
    [assistant_instructions.py]. *)
Variable get_assistant_instructions : string -> exn + string.

(** [template.format(key=value)] with one keyword argument. *)
Variable str_format : string -> string -> string -> exn + string.

(** [os.getcwd()], [os.path.exists], the bytes of a file, and the
    directory of [tempfile.TemporaryDirectory()], taken as writable. *)
Variable getcwd : string.
Variable path_exists : string -> bool.
Variable read_file : string -> string.
Variable temp_dir : string.

(** *** Calls of the client *)

Definition request (c : call) : M reply :=
  fun e =>
    let e' := mkEnv (session e) (calls e ++ [c]) (notices e) in
    match client (calls e) c with
    | RaisesException msg => (Raise (ClientException msg), e')
    | r => (Val r, e')
    end.

Definition vector_stores_create (name : string) : M string :=
  let* r := request (VectorStoresCreate name) in
  match r with RVectorStore id => ret id | _ => raise AttributeError end.

Definition upload_and_poll (vector_store_id file_path content : string)
  : M (string * string) :=
  let* r := request
              (FileBatchesUploadAndPoll vector_store_id file_path content) in
  match r with
  | RFileBatch status counts => ret (status, counts)
  | _ => raise AttributeError
  end.

Definition assistants_create (name instructions ty : string)
  : M Assistant :=
  let* r := request (AssistantsCreate name instructions ty) in
  match r with RAssistant a => ret a | _ => raise AttributeError end.

Definition assistants_update (assistant_id vector_store_id : string)
  : M Assistant :=
  let* r := request (AssistantsUpdate assistant_id vector_store_id) in
  match r with RAssistant a => ret a | _ => raise AttributeError end.

Definition threads_create : M string :=
  let* r := request ThreadsCreate in
  match r with RThread id => ret id | _ => raise AttributeError end.

Definition messages_create (thread content : string) : M unit :=
  let* _ := request (ThreadsMessagesCreate thread content) in ret tt.

Definition runs_create (thread assistant_id : string) : M Run :=
  let* r := request (ThreadsRunsCreate thread assistant_id) in
  match r with RRun run => ret run | _ => raise AttributeError end.

Definition runs_retrieve (thread run : string) : M Run :=
  let* r := request (ThreadsRunsRetrieve thread run) in
  match r with RRun run' => ret run' | _ => raise AttributeError end.

Definition messages_list (thread : string)
  : M (list (list content_block)) :=
  let* r := request (ThreadsMessagesList thread) in
  match r with RMessageList data => ret data | _ => raise AttributeError end.

(** *** [chat_with_assistant] (lines 117-144) *)

(** [st.session_state['thread_id']]. *)
Definition session_thread_id : M string :=
  let* s := get_session in
  match thread_id s with
  | Some t => ret t
  | None => raise KeyError
  end.

(** Lines 135-136: [while run.status != "completed": run = retrieve(...)].
    One unit of fuel per turn of the loop. *)
Fixpoint wait_for_run (fuel : nat) (run : Run) : M Run :=
  if negb (String.eqb (run_status run) "completed") then
    match fuel with
    | 0 => out_of_fuel
    | S fuel' =>
        let* thread := session_thread_id in
        let* run' := runs_retrieve thread (run_id run) in
        wait_for_run fuel' run'
    end
  else ret run.

Definition chat_with_assistant (fuel : nat)
    (assistant_id user_message : string) : M (option string) :=
  try_except
    (let* s := get_session in
     let* _ := match thread_id s with
               | None =>
                   let* thread := threads_create in
                   modify_session (set_thread_id (Some thread))
               | Some _ => ret tt
               end in
     let* thread := session_thread_id in
     let* _ := messages_create thread user_message in
     let* thread := session_thread_id in
     let* run := runs_create thread assistant_id in
     let* _ := wait_for_run fuel run in
     let* thread := session_thread_id in
     let* data := messages_list thread in
     let* message := getitem data 0 in
     let* block := getitem message 0 in
     match block with
     | TextBlock value => ret (Some value)
     | ImageBlock => raise AttributeError
     end)
    (fun e =>
       let* _ := st_error ("Error chatting with assistant: " +:+ str_exn e) in
       ret None).

(** *** [create_vector_store], [upload_files_to_vector_store],
    [create_assistant] (lines 54-115) *)

Definition create_vector_store (name : string) : M (option string) :=
  try_except
    (let* vs := vector_stores_create name in ret (Some vs))
    (fun e =>
       let* _ := st_error ("Error creating vector store: " +:+ str_exn e) in
       ret None).

(** The body of the [for file in files] loop, lines 71-85: the file is
    written under the temporary directory and uploaded from there. *)
Definition upload_one (vector_store_id : string) (file : upload)
  : M (string * string) :=
  match file with
  | RequiredFile _ filename content =>
      upload_and_poll vector_store_id (Py.path_join temp_dir filename)
                      content
  | UploadedFile name buffer =>
      upload_and_poll vector_store_id (Py.path_join temp_dir name) buffer
  end.

Fixpoint upload_loop (vector_store_id : string) (files : list upload)
    (uploaded_files : list (string * string)) : M (list (string * string)) :=
  match files with
  | [] => ret uploaded_files
  | file :: rest =>
      let* file_batch := upload_one vector_store_id file in
      upload_loop vector_store_id rest (uploaded_files ++ [file_batch])
  end.

Definition upload_files_to_vector_store (vector_store_id : string)
    (files : list upload) : M (option (list (string * string))) :=
  try_except
    (let* uploaded_files := upload_loop vector_store_id files [] in
     ret (Some uploaded_files))
    (fun e =>
       let* _ := st_error ("Error uploading files: " +:+ str_exn e) in
       ret None).

Definition create_assistant (name assistant_type vector_store_id : string)
  : M (option Assistant) :=
  try_except
    (let* instructions :=
       match get_assistant_instructions assistant_type with
       | inr i => ret i
       | inl e => raise e
       end in
     let* a := assistants_create name instructions assistant_type in
     let* a := assistants_update (a_id a) vector_store_id in
     let* _ := modify_session (fun s =>
                 set_assistants (assistants s ++ [a]) s) in
     ret (Some a))
    (fun e =>
       let* _ := st_error ("Error creating assistant: " +:+ str_exn e) in
       ret None).

(** *** [chat_section] (lines 229-425) *)

Definition is_type (a : Assistant) (ty : string) : bool :=
  bool_decide (a_type a = Some ty).

(** Lines 262-276, under [if st.button("Submit Company Name")]. *)
Definition submit_company_name (fuel : nat) (ui : UI) (a : Assistant)
    (messages phase_names : list string) : M unit :=
  let company_name := st_text ui TxtCompanyName in
  if Py.truthy company_name then
    let* _ := update_chat (a_id a) (set_company_name company_name) in
    let* _ := st_success ("Company name set to: " +:+ company_name) in
    let* template := getitem messages 0 in
    let* initial_message :=
      match str_format template "company_name" company_name with
      | inr m => ret m
      | inl e => raise e
      end in
    let* response := chat_with_assistant fuel (a_id a) initial_message in
    match if_truthy response with
    | Some r =>
        let* phase_name := getitem phase_names 0 in
        let* _ := update_chat (a_id a) (append_conversation (phase_name, r)) in
        let* _ := update_chat (a_id a) (set_message_index 1) in
        st_rerun
    | None => ret tt
    end
  else st_warning "Please enter a company name.".

(** Lines 290-300, under [if st.button("Next Phase", ...)]. *)
Definition next_phase (fuel : nat) (a : Assistant)
    (messages phase_names : list string) : M unit :=
  let* c := current_chat (a_id a) in
  if (message_index c <? length messages)%nat then
    let* message := getitem messages (message_index c) in
    let* response := chat_with_assistant fuel (a_id a) message in
    match if_truthy response with
    | Some r =>
        let* c := current_chat (a_id a) in
        let* phase_name := getitem phase_names (message_index c) in
        let* _ := update_chat (a_id a) (append_conversation (phase_name, r)) in
        let* _ := update_chat (a_id a) increment_message_index in
        st_rerun
    | None => ret tt
    end
  else st_error "All phases have been completed.".

(** Lines 328-334, under [if st.button("Proceed with Selected Slides")]. *)
Definition proceed_with_selected_slides (fuel : nat) (a : Assistant)
    (messages phase_names : list string) : M unit :=
  let* c := current_chat (a_id a) in
  let* template := getitem messages (message_index c) in
  let* slides := getkey (selected_slides c) in
  let* message :=
    match str_format template "selected_slides" slides with
    | inr m => ret m
    | inl e => raise e
    end in
  let* response := chat_with_assistant fuel (a_id a) message in
  match if_truthy response with
  | Some r =>
      let* c := current_chat (a_id a) in
      let* phase_name := getitem phase_names (message_index c) in
      let* _ := update_chat (a_id a) (append_conversation (phase_name, r)) in
      let* _ := update_chat (a_id a) increment_message_index in
      st_rerun
  | None => ret tt
  end.

(** Lines 362-374, under [if st.button("Draft Pitchdeck Slides", ...)]. *)
Definition draft_pitchdeck_slides (fuel : nat) (a : Assistant)
    (messages phase_names : list string) : M unit :=
  let* c := current_chat (a_id a) in
  if (message_index c <? length messages)%nat then
    let* message := getitem messages (message_index c) in
    let* response := chat_with_assistant fuel (a_id a) message in
    match if_truthy response with
    | Some r =>
        let* c := current_chat (a_id a) in
        let* phase_name :=
          getitem_int phase_names
            (Z.min (Z.of_nat (message_index c))
                   (Z.of_nat (length phase_names) - 1)) in
        let* _ := update_chat (a_id a) (append_conversation (phase_name, r)) in
        let* _ := update_chat (a_id a) increment_message_index in
        st_rerun
    | None =>
        st_error
          "Failed to get a response from the assistant. Please try again."
    end
  else st_error "All phases have been completed. No more messages to send.".

(** The regeneration pattern of lines 317-321, 341-345, 352-356, 383-387
    and 395-399: send [message], and on a reply overwrite entry [i]. *)
Definition regenerate (fuel : nat) (a : Assistant) (i : nat)
    (phase message : string) : M unit :=
  let* response := chat_with_assistant fuel (a_id a) message in
  match if_truthy response with
  | Some r =>
      let* _ := setitem_conversation (a_id a) i (phase, r) in
      st_rerun
  | None => ret tt
  end.

(** Lines 315-323, under [if st.button("Submit Additional Slides")]. *)
Definition submit_additional_slides (fuel : nat) (ui : UI) (a : Assistant)
    (i : nat) (phase : string) : M unit :=
  let additional_slides := st_text ui TxtAdditionalSlides in
  if Py.truthy additional_slides then
    regenerate fuel a i phase
      ("Please regenerate your list of suggested slides now including these additional slide ideas: "
       +:+ additional_slides)
  else
    st_warning "Please enter additional slide suggestions before submitting.".

(** Lines 340-345, under
    [if st.button("I have uploaded additional information", ...)]. *)
Definition uploaded_additional_information (fuel : nat) (a : Assistant)
    (i : nat) (phase : string) : M unit :=
  regenerate fuel a i phase
    "I have just uploaded additional files, please analyze these files and regenerate your formal information gap analysis report, now reflecting the additional information you've extracted from the uploaded files.".

(** Lines 350-358, under [if st.button("Submit Answers")]. *)
Definition submit_answers (fuel : nat) (ui : UI) (a : Assistant)
    (i : nat) (phase : string) : M unit :=
  let user_answers := st_text ui TxtUserAnswers in
  if Py.truthy user_answers then
    regenerate fuel a i phase
      ("Here are the answers to the questions you've asked: "
       +:+ user_answers
       +:+ ". Please regenerate your formal information gap analysis report, now reflecting the additional information you've extracted from the answers I've provided.")
  else st_warning "Please provide answers before submitting.".

(** Lines 381-389, under [if st.button("Submit Additional Information")]. *)
Definition submit_additional_information (fuel : nat) (ui : UI)
    (a : Assistant) (i : nat) (phase : string) : M unit :=
  let additional_info := st_text ui TxtAdditionalInfo in
  if Py.truthy additional_info then
    regenerate fuel a i phase
      ("Here is the additional information you've required, please extract and absorb this information and regenerate the entire content for the pitchdeck, as before, reflecting this new information: "
       +:+ additional_info)
  else st_warning "Please provide additional information before submitting.".

(** Lines 394-399, under
    [if st.button("Analyze New Files and Regenerate Pitch Deck")]. *)
Definition analyze_new_files (fuel : nat) (a : Assistant)
    (i : nat) (phase : string) : M unit :=
  regenerate fuel a i phase
    "I have just uploaded additional files, please analyze these files and regenerate your Pitch Deck Content, now reflecting the additional information you've extracted from the uploaded files.".

(** Lines 303-334: the tab of "2. Slide Suggestion". *)
Definition slide_suggestion_tab (fuel : nat) (ui : UI) (a : Assistant)
    (messages phase_names : list string) (i : nat) (phase : string)
  : M unit :=
  let* _ := if st_button ui BtnSelectAllSlides
            then update_chat (a_id a) (set_selected_slides "All slides")
            else ret tt in
  let slide_numbers := st_text ui TxtSlideNumbers in
  let* _ := if Py.truthy slide_numbers
            then update_chat (a_id a) (set_selected_slides slide_numbers)
            else ret tt in
  let* _ := if st_button ui BtnSubmitAdditionalSlides
            then submit_additional_slides fuel ui a i phase
            else ret tt in
  let* c := current_chat (a_id a) in
  if Py.truthy_opt (selected_slides c) then
    let* slides := getkey (selected_slides c) in
    let* _ := st_success ("Selected slides: " +:+ slides) in
    if st_button ui BtnProceedWithSelectedSlides
    then proceed_with_selected_slides fuel a messages phase_names
    else ret tt
  else ret tt.

(** Lines 337-374: the tab of "3. Information Evaluation". *)
Definition information_evaluation_tab (fuel : nat) (ui : UI)
    (a : Assistant) (messages phase_names : list string) (i : nat)
    (phase : string) : M unit :=
  let* _ := if st_button ui (BtnUploadInfo i)
            then uploaded_additional_information fuel a i phase
            else ret tt in
  let* _ := if st_button ui BtnSubmitAnswers
            then submit_answers fuel ui a i phase
            else ret tt in
  if st_button ui BtnDraftSlides
  then draft_pitchdeck_slides fuel a messages phase_names
  else ret tt.

(** Lines 377-399: the tab of "4. Draft Slide Generation". *)
Definition draft_slide_generation_tab (fuel : nat) (ui : UI)
    (a : Assistant) (i : nat) (phase : string) : M unit :=
  let* _ := if st_button ui BtnSubmitAdditionalInformation
            then submit_additional_information fuel ui a i phase
            else ret tt in
  let* _ := st_info
    "If you have additional files to upload, please use the 'Upload Additional Files' section in the sidebar." in
  if st_button ui BtnAnalyzeNewFiles
  then analyze_new_files fuel a i phase
  else ret tt.

(** Lines 283-399: the body of the loop over the conversation history.
    [n_tabs] is the number of tabs made at line 280; [tabs[i]] raises
    out of range. *)
Definition tab_body (fuel : nat) (ui : UI) (a : Assistant)
    (messages phase_names : list string) (n_tabs : nat)
    (i : nat) (phase content : string) : M unit :=
  if decide (i < n_tabs) then
    let pitch := is_type a "Pitch Deck Creator" in
    if String.eqb phase "1. Business Report Generation" && pitch then
      let* c := current_chat (a_id a) in
      if (Z.of_nat i =? Z.of_nat (length (conversation_history c)) - 1)%Z
      then
        if st_button ui (BtnNextPhase i)
        then next_phase fuel a messages phase_names
        else ret tt
      else ret tt
    else if String.eqb phase "2. Slide Suggestion" && pitch then
      slide_suggestion_tab fuel ui a messages phase_names i phase
    else if String.eqb phase "3. Information Evaluation" && pitch then
      information_evaluation_tab fuel ui a messages phase_names i phase
    else if String.eqb phase "4. Draft Slide Generation" && pitch then
      draft_slide_generation_tab fuel ui a i phase
    else ret tt
  else raise IndexError.

(** Lines 280-399.  [st.tabs] refuses an empty list of labels.  Every
    write to the history in the loop is followed by [st.rerun()], so the
    loop runs over the history as it was when the loop began. *)
Definition workflow_tabs (fuel : nat) (ui : UI) (a : Assistant)
    (messages phase_names : list string) : M unit :=
  let* c := current_chat (a_id a) in
  let tab_titles := take (message_index c + 1) phase_names in
  match tab_titles with
  | [] => raise StreamlitAPIException
  | _ :: _ =>
      for_enumerate
        (tab_body fuel ui a messages phase_names (length tab_titles))
        0 (conversation_history c)
  end.

(** Lines 406-421: the chat of the other assistant types. *)
Definition plain_chat (fuel : nat) (ui : UI) (a : Assistant) : M unit :=
  match st_chat_input ui with
  | Some user_message =>
      if Py.truthy user_message then
        let* c := current_chat (a_id a) in
        let* _ := update_chat (a_id a)
                    (set_chat_history
                       (chat_history c ++ [("user", user_message)])) in
        let* response := chat_with_assistant fuel (a_id a) user_message in
        match if_truthy response with
        | Some r =>
            let* c := current_chat (a_id a) in
            update_chat (a_id a)
              (set_chat_history (chat_history c ++ [("assistant", r)]))
        | None => ret tt
        end
      else ret tt
  | None => ret tt
  end.

Definition chat_section (fuel : nat) (ui : UI) : M unit :=
  let* s := get_session in
  match assistants s with
  | _ :: _ =>
      match assistant s with
      | Some a =>
          let* _ :=
            match assistant_chat_histories s !! a_id a with
            | None =>
                modify_session (fun s =>
                  set_histories
                    (<[a_id a := fresh_chat]> (assistant_chat_histories s))
                    s)
            | Some _ => ret tt
            end in
          if is_type a "Grant Assistant" then
            workflow_tabs fuel ui a MESSAGES PHASE_NAMES
          else if is_type a "Pitch Deck Creator" then
            let* c := current_chat (a_id a) in
            if negb (Py.truthy_opt (company_name c)) then
              if st_button ui BtnSubmitCompanyName
              then submit_company_name fuel ui a PITCH_DECK_MESSAGES
                                       PITCH_DECK_PHASE_NAMES
              else ret tt
            else
              workflow_tabs fuel ui a PITCH_DECK_MESSAGES
                            PITCH_DECK_PHASE_NAMES
          else plain_chat fuel ui a
      | None => st_warning "Please select an Assistant to chat with."
      end
  | [] => st_info "Please create an Assistant first."
  end.

(** *** [reset_chat] (lines 439-451) *)

Definition reset_chat : M unit :=
  let* s := get_session in
  let* _ :=
    match assistant s with
    | Some a =>
        match assistant_chat_histories s !! a_id a with
        | Some _ =>
            modify_session (fun s =>
              set_histories
                (<[a_id a := reset_chat_value]> (assistant_chat_histories s))
                s)
        | None => ret tt
        end
    | None => ret tt
    end in
  let* _ := modify_session (set_thread_id None) in
  st_success
    "Chat history and thread have been reset for the current assistant.".

(** *** [create_assistant_popup] (lines 486-577) *)

(** Lines 524-528. *)
Definition required_files_for (assistant_type : string) : list string :=
  if String.eqb assistant_type "Grant Assistant"
  then GRANT_ASSISTANT_REQUIRED_FILES
  else if String.eqb assistant_type "Pitch Deck Creator"
  then PITCH_DECK_CREATOR_REQUIRED_FILES
  else [].

(** Lines 530-541: the loop over the required files. *)
Fixpoint check_required_files (required_files : list string)
    (files_to_upload : list upload) (required_files_found : bool)
  : M (list upload * bool) :=
  match required_files with
  | [] => ret (files_to_upload, required_files_found)
  | required_file :: rest =>
      let full_path := Py.path_join getcwd required_file in
      if path_exists full_path then
        let file_content := read_file full_path in
        let* _ := st_success
                    ("Required file '" +:+ Py.basename full_path
                     +:+ "' found and added for upload.") in
        check_required_files rest
          (files_to_upload
           ++ [RequiredFile "file" (Py.basename full_path) file_content])
          required_files_found
      else
        let* _ := st_error
                    ("Required file '" +:+ full_path +:+ "' not found.") in
        check_required_files rest files_to_upload false
  end.

(** Lines 518-566: the documents are gathered, the required ones
    checked, the batch uploaded and the assistant created. *)
Definition attach_documents (ui : UI)
    (assistant_name assistant_type vs : string) : M unit :=
  let* (files_to_upload, required_files_found) :=
    check_required_files (required_files_for assistant_type)
                         (st_file_uploader ui) true in
  if negb required_files_found then
    st_error
      "Some required files are missing. Please ensure all required files are in the correct directory."
  else
    match files_to_upload with
    | _ :: _ =>
        let* file_batches :=
          upload_files_to_vector_store vs files_to_upload in
        match file_batches with
        | Some (_ :: _) =>
            let* _ := st_success "Files uploaded successfully!" in
            let* created :=
              create_assistant assistant_name assistant_type vs in
            match created with
            | Some a =>
                let* _ := modify_session (set_assistant (Some a)) in
                let* _ := st_success
                            ("Assistant '" +:+ assistant_name
                             +:+ "' created successfully!") in
                st_rerun
            | None => ret tt
            end
        | _ => st_error "Failed to upload files. Assistant creation aborted."
        end
    | [] => st_error "No files to upload. Assistant creation aborted."
    end.

(** Lines 510-573, under [if st.button("Create Assistant", ...)]. *)
Definition create_assistant_clicked (ui : UI) : M unit :=
  let assistant_name := st_text ui TxtAssistantName in
  match assistant_type_select ui with
  | Some assistant_type =>
      if Py.truthy assistant_name && Py.truthy assistant_type then
        let* vector_store := create_vector_store assistant_name in
        match vector_store with
        | Some vs =>
            let* _ := modify_session (set_vector_store (Some vs)) in
            let* _ := st_success
                        ("Vector Store '" +:+ assistant_name
                         +:+ "' created successfully!") in
            attach_documents ui assistant_name assistant_type vs
        | None =>
            st_error "Failed to create Vector Store. Assistant creation aborted."
        end
      else
        let* _ := if negb (Py.truthy assistant_name)
                  then st_warning "Please enter a name for the Assistant."
                  else ret tt in
        if negb (Py.truthy assistant_type)
        then st_warning "Please select a type for the Assistant."
        else ret tt
  | None =>
      let* _ := if negb (Py.truthy assistant_name)
                then st_warning "Please enter a name for the Assistant."
                else ret tt in
      st_warning "Please select a type for the Assistant."
  end.

Definition create_assistant_popup (ui : UI) : M unit :=
  if modal_is_open ui then
    if st_button ui BtnCreateAssistant
    then create_assistant_clicked ui
    else ret tt
  else ret tt.

(** *** [main] (lines 587-654) *)

(** Line 607: the label of an assistant in the select box. *)
Definition option_label (a : Assistant) : string :=
  default "Unknown" (a_type a) +:+ " - " +:+ a_name a.

(** Line 610: [selected_assistant_option.split(" - ", 1)[1]]. *)
Definition selected_assistant_name (selected_assistant_option : string)
  : M string :=
  match Py.split_once " - " selected_assistant_option with
  | Some (_, name) => ret name
  | None => raise IndexError
  end.

(** Line 611: [next((a for a in assistants if a.name == name), None)]. *)
Definition selected_assistant (registry : list Assistant) (name : string)
  : option Assistant :=
  List.find (fun a => String.eqb (a_name a) name) registry.

(** Lines 605-646; the select box returns one of its options.  The file
    list, upload and delete widgets of the sidebar are not modelled. *)
Definition select_assistant (ui : UI) : M unit :=
  let* s := get_session in
  match assistants s with
  | _ :: _ =>
      let assistant_options := map option_label (assistants s) in
      let* selected_assistant_option :=
        getitem assistant_options (assistant_select ui) in
      let* name := selected_assistant_name selected_assistant_option in
      match selected_assistant (assistants s) name with
      | Some a => modify_session (set_assistant (Some a))
      | None => st_warning "Please select an Assistant."
      end
  | [] => st_info "No assistants available. Please create an assistant."
  end.

Definition main (fuel : nat) (ui : UI) : M unit :=
  let* _ := create_assistant_popup ui in
  let* _ := select_assistant ui in
  let* _ := if st_button ui BtnResetConversation
            then reset_chat
            else ret tt in
  chat_section fuel ui.

(** *** The interactions by kind *)

(** The four buttons that send the prompt of a phase and move on. *)
Inductive advance_button :=
  | SubmitCompanyName
  | NextPhase
  | ProceedWithSelectedSlides
  | DraftPitchdeckSlides.

(** What runs when [b] is pressed. *)
Definition advance (b : advance_button) (fuel : nat) (ui : UI)
    (a : Assistant) (messages phase_names : list string) : M unit :=
  match b with
  | SubmitCompanyName => submit_company_name fuel ui a messages phase_names
  | NextPhase => next_phase fuel a messages phase_names
  | ProceedWithSelectedSlides =>
      proceed_with_selected_slides fuel a messages phase_names
  | DraftPitchdeckSlides =>
      draft_pitchdeck_slides fuel a messages phase_names
  end.


(** The five buttons that regenerate the phase of their tab. *)
Inductive replace_button :=
  | SubmitAdditionalSlides
  | UploadedAdditionalInformation
  | SubmitAnswers
  | SubmitAdditionalInformation
  | AnalyzeNewFiles.

(** What runs when [b] is pressed in tab [i], whose entry of the history
    is labelled [phase]. *)
Definition replace_phase (b : replace_button) (fuel : nat) (ui : UI)
    (a : Assistant) (i : nat) (phase : string) : M unit :=
  match b with
  | SubmitAdditionalSlides => submit_additional_slides fuel ui a i phase
  | UploadedAdditionalInformation =>
      uploaded_additional_information fuel a i phase
  | SubmitAnswers => submit_answers fuel ui a i phase
  | SubmitAdditionalInformation =>
      submit_additional_information fuel ui a i phase
  | AnalyzeNewFiles => analyze_new_files fuel a i phase
  end.

(** *** Sequences of interactions with the selected assistant *)

(** A run of the chat section with the widgets [ui], or a press of
    "Reset Conversation". *)
Inductive operation :=
  | OpChatSection (fuel : nat) (ui : UI)
  | OpResetChat.

Definition run_operation (op : operation) : M unit :=
  match op with
  | OpChatSection fuel ui => chat_section fuel ui
  | OpResetChat => reset_chat
  end.

(** The environment after the operations [ops], one after the other;
    each starts where the one before it stopped. *)
Fixpoint run_operations (ops : list operation) (e : Env) : Env :=
  match ops with
  | [] => e
  | op :: rest => run_operations rest (snd (run_operation op e))
  end.

(** The call that uploads [file] (lines 81-84). *)
Definition upload_call (vector_store_id : string) (file : upload) : call :=
  match file with
  | RequiredFile _ filename content =>
      FileBatchesUploadAndPoll vector_store_id
        (Py.path_join temp_dir filename) content
  | UploadedFile name buffer =>
      FileBatchesUploadAndPoll vector_store_id
        (Py.path_join temp_dir name) buffer
  end.

End Script.

(** ** The sidebar and the second reset *)

Section Sidebar.

Variable client : Client.
Variable temp_dir : string.

(** *** [reset_grant_assistant_conversation] (lines 427-437)

    No line of the file calls it. *)
Definition reset_grant_assistant_conversation (assistant_id : string)
  : M unit :=
  let* s := get_session in
  let* _ :=
    match assistant_chat_histories s !! assistant_id with
    | Some _ =>
        modify_session (fun s =>
          set_histories
            (<[assistant_id := reset_chat_value]>
               (assistant_chat_histories s))
            s)
    | None => ret tt
    end in
  let* _ := modify_session (set_thread_id None) in
  st_success "Conversation has been reset. You can start over from phase 1.".

(** [xs.status] and [xs.file_counts] of a Python list, which has neither
    attribute. *)
Definition list_attribute {A} (xs : list A) (name : string) : M string :=
  raise AttributeError.

(** *** [upload_additional_files] (lines 453-467)

    [pressed] is the button "Upload Additional Files" and [uploaded_files]
    what the uploader of line 456 holds.  [file_batch] is the list that
    [upload_files_to_vector_store] returns.  The flag ['refresh_files'] of
    line 464, which no line reads, is not modelled. *)
Definition upload_additional_files (pressed : bool)
    (uploaded_files : list upload) (vector_store_id : string) : M unit :=
  if pressed then
    match uploaded_files with
    | _ :: _ =>
        let* file_batch :=
          upload_files_to_vector_store client temp_dir vector_store_id
            uploaded_files in
        match file_batch with
        | Some ((_ :: _) as batches) =>
            let* _ := st_success "Additional files uploaded successfully!" in
            let* _ := list_attribute batches "status" in
            let* _ := list_attribute batches "file_counts" in
            st_rerun
        | _ => ret tt
        end
    | [] => st_warning "Please select files to upload."
    end
  else ret tt.

End Sidebar.

(** ** Reading and writing one conversation state *)

(** The environment with [c] stored under [assistant_id]. *)
Definition with_chat (assistant_id : string) (c : Chat) (e : Env) : Env :=
  mkEnv (set_histories
           (<[assistant_id := c]> (assistant_chat_histories (session e)))
           (session e))
        (calls e) (notices e).

(** The conversation state of [assistant_id] in [e]. *)
Definition chat_of (assistant_id : string) (e : Env) : option Chat :=
  assistant_chat_histories (session e) !! assistant_id.

(** The state after a phase has been appended under [label]. *)
Definition advanced (label reply : string) (c : Chat) : Chat :=
  increment_message_index (append_conversation (label, reply) c).

(** What the next interaction of the assistant [b] starts from: its
    conversation state and the thread its messages will be posted to. *)
Definition conversation_view (b : string) (e : Env)
  : option Chat * option string :=
  (chat_of b e, thread_id (session e)).

(** The conversation state of [b] and the selected assistant are the
    same in [e'] as in [e]. *)
Definition same_chat_at (b : string) (e e' : Env) : Prop :=
  chat_of b e' = chat_of b e
  /\ assistant (session e') = assistant (session e).

(** A state in which no company is named is at its start: the form of
    line 260 is the only way forward from there. *)
Definition starts_unnamed (c : Chat) : Prop :=
  Py.truthy_opt (company_name c) = false ->
  message_index c = 0 /\ conversation_history c = [].

(** The environment with one more notice. *)
Definition noticed (l : level) (msg : string) (e : Env) : Env :=
  mkEnv (session e) (calls e) (notices e ++ [(l, msg)]).

(** The chat call of an interaction that began in [e] was made with the
    calls and the thread of [e], and answered a non-empty [reply]. *)
Definition answered (client : Client) (fuel : nat) (aid : string) (e : Env)
    (reply : string) (e1 : Env) : Prop :=
  exists message e0,
    calls e0 = calls e
    /\ thread_id (session e0) = thread_id (session e)
    /\ chat_with_assistant client fuel aid message e0 = (Val (Some reply), e1)
    /\ Py.truthy reply = true.

(** The notice of line 540 for the required file [p]. *)
Definition not_found_notice (cwd p : string) : level * string :=
  (Error, "Required file '" +:+ Py.path_join cwd p +:+ "' not found.").

(** The calls of [e] are the first calls of [e']. *)
Definition calls_grow (e e' : Env) : Prop := calls e `prefix_of` calls e'.

(** ** States that the script cannot tell apart

    The dictionary of [reset_chat] lacks the keys ['company_name'] and
    ['selected_slides'] that a new dictionary holds with the value [''];
    the script reads them with [.get] and tests the result, which is false
    for both. *)

(** [d.get(key) or ''] *)
Definition get_or_empty (v : option string) : string := default "" v.

Definition chat_equiv (c1 c2 : Chat) : Prop :=
  chat_history c1 = chat_history c2
  /\ conversation_history c1 = conversation_history c2
  /\ message_index c1 = message_index c2
  /\ get_or_empty (company_name c1) = get_or_empty (company_name c2)
  /\ get_or_empty (selected_slides c1) = get_or_empty (selected_slides c2).

Definition session_equiv (s1 s2 : Session) : Prop :=
  assistants s1 = assistants s2
  /\ assistant s1 = assistant s2
  /\ thread_id s1 = thread_id s2
  /\ vector_store s1 = vector_store s2
  /\ forall b, option_Forall2 chat_equiv
                 (assistant_chat_histories s1 !! b)
                 (assistant_chat_histories s2 !! b).

Definition env_equiv (e1 e2 : Env) : Prop :=
  calls e1 = calls e2
  /\ notices e1 = notices e2
  /\ session_equiv (session e1) (session e2).

(** Two outcomes of the same kind, with values related by [RA]. *)
Definition outcome_rel {A} (RA : A -> A -> Prop) (o1 o2 : outcome A) : Prop :=
  match o1, o2 with
  | Val a, Val b => RA a b
  | Rerun, Rerun => True
  | Raise x, Raise y => x = y
  | OutOfFuel, OutOfFuel => True
  | _, _ => False
  end.

(** [m1] and [m2] do the same from environments that cannot be told apart:
    they end the same way, with the same calls made and notices shown, in
    environments that cannot be told apart either. *)
Definition rel {A} (RA : A -> A -> Prop) (m1 m2 : M A) : Prop :=
  forall e1 e2,
    env_equiv e1 e2 ->
    outcome_rel RA (fst (m1 e1)) (fst (m2 e2))
    /\ env_equiv (snd (m1 e1)) (snd (m2 e2)).

(** The selected Slides of the conversation state of [aid] are set. *)
Definition slides_selected (aid : string) (e : Env) : Prop :=
  exists c, chat_of aid e = Some c /\ Py.truthy_opt (selected_slides c) = true.

(** ** Well-formed conversation states *)

(** The history has one entry per phase done, and a state in which no
    company is named is at its start. *)
Definition wf_chat (c : Chat) : Prop :=
  length (conversation_history c) = message_index c /\ starts_unnamed c.

(** Every conversation state of the session is well formed. *)
Definition all_wf (e : Env) : Prop :=
  forall id c, chat_of id e = Some c -> wf_chat c.

(** The conversation state of [aid] has a company name. *)
Definition named_at (aid : string) (e : Env) : Prop :=
  exists c, chat_of aid e = Some c /\ Py.truthy_opt (company_name c) = true.

(** The index of the conversation state of [aid] is at most [n]. *)
Definition within (n : nat) (aid : string) (e : Env) : Prop :=
  forall c, chat_of aid e = Some c -> message_index c <= n.

(** The conversation state of [aid] is still there in [e'], with an index
    that is not smaller. *)
Definition not_behind (aid : string) (e e' : Env) : Prop :=
  forall c, chat_of aid e = Some c ->
    exists c', chat_of aid e' = Some c' /\ message_index c <= message_index c'.

(** What a run of the tabs keeps, for a conversation with a company name
    and a workflow of [n] prompts. *)
Definition tabs_rel (n : nat) (aid : string) (e e' : Env) : Prop :=
  all_wf e /\ named_at aid e /\ within n aid e ->
  all_wf e' /\ named_at aid e' /\ within n aid e' /\ not_behind aid e e'.

(** Every conversation state of [e] is in [e'] with the same index,
    history and company name. *)
Definition same_progress (e e' : Env) : Prop :=
  forall id c, chat_of id e = Some c ->
    exists c', chat_of id e' = Some c'
      /\ message_index c' = message_index c
      /\ conversation_history c' = conversation_history c
      /\ company_name c' = company_name c.

(** What one run of the chat section keeps for the selected assistant [aid]
    and a workflow of [n] prompts. *)
Definition page_step (n : nat) (aid : string) (e e' : Env) : Prop :=
  all_wf e' /\ within n aid e' /\ not_behind aid e e'.

(** ** What a gateway operation does to the session and the service *)

(** [m] ends with a value, whatever the service does. *)
Definition ends_in_value {A} (m : M A) : Prop :=
  forall e, exists a, fst (m e) = Val a.

(** [m] ends with a value or an exception: it neither reruns the script
    nor polls for ever. *)
Definition value_or_exception {A} (m : M A) : Prop :=
  forall e, match fst (m e) with
            | Val _ | Raise _ => True
            | Rerun | OutOfFuel => False
            end.

(** The call is made on the thread [t]. *)
Definition on_thread (t : string) (c : call) : Prop :=
  match c with
  | ThreadsMessagesCreate t' _ | ThreadsRunsCreate t' _
  | ThreadsRunsRetrieve t' _ | ThreadsMessagesList t' => t' = t
  | _ => False
  end.

(** With the thread [t] in the session, [m] leaves the session as it is
    and makes its calls on [t]. *)
Definition stays_on {A} (t : string) (m : M A) : Prop :=
  forall e,
    thread_id (session e) = Some t ->
    session (snd (m e)) = session e
    /\ exists new,
         calls (snd (m e)) = calls e ++ new /\ Forall (on_thread t) new.

(** The documents of a creation of type [assistant_type] when every
    required file is there: the files chosen in the uploader, then the
    required files of the type, each under its file name. *)
Definition documents (getcwd : string) (read_file : string -> string)
    (ui : UI) (assistant_type : string) : list upload :=
  st_file_uploader ui
  ++ map (fun p => RequiredFile "file" (Py.basename p)
                     (read_file (Py.path_join getcwd p)))
       (required_files_for assistant_type).

(** The calls and the thread of [e'] are those of [e]. *)
Definition silent (e e' : Env) : Prop :=
  calls e' = calls e /\ thread_id (session e') = thread_id (session e).

(** ** Concrete clients, tables and sessions

    Small instances of the parameters, on which the script can be run. *)

Module Demo.

Definition PHASES : list string :=
  [ "1. Business Report Generation"; "2. Slide Suggestion";
    "3. Information Evaluation"; "4. Draft Slide Generation" ].

Definition PROMPTS : list string :=
  [ "Report on {company_name}"; "Suggest slides";
    "Evaluate {selected_slides}"; "Draft the slides" ].

(** Replaces every [pat] in [s] by [val]; [skip] characters of a match
    are still to be dropped. *)
Fixpoint subst (pat val : string) (skip : nat) (s : string) : string :=
  match s with
  | EmptyString => EmptyString
  | String c s' =>
      match skip with
      | S k => subst pat val k s'
      | 0 =>
          match Py.strip_prefix pat s with
          | Some _ => val +:+ subst pat val (String.length pat - 1) s'
          | None => String c (subst pat val 0 s')
          end
      end
  end.

Definition format (template key value : string) : exn + string :=
  inr (subst ("{" +:+ key +:+ "}") value 0 template).

Definition instructions (assistant_type : string) : exn + string :=
  inr ("You are a " +:+ assistant_type).

Fixpoint ticks (n : nat) : string :=
  match n with
  | 0 => ""
  | S k => "+" +:+ ticks k
  end.

Definition is_threads_create (c : call) : bool :=
  match c with ThreadsCreate => true | _ => false end.

Definition is_upload (c : call) : bool :=
  match c with FileBatchesUploadAndPoll _ _ _ => true | _ => false end.

Fixpoint last_user_message (cs : list call) (acc : string) : string :=
  match cs with
  | [] => acc
  | ThreadsMessagesCreate _ m :: rest => last_user_message rest m
  | _ :: rest => last_user_message rest acc
  end.

Fixpoint last_created (cs : list call) (acc : string * string)
  : string * string :=
  match cs with
  | [] => acc
  | AssistantsCreate name _ ty :: rest => last_created rest (name, ty)
  | _ :: rest => last_created rest acc
  end.

(** A service that works: each thread gets a new id, a run is completed
    at its first poll, and the reply quotes the last message posted. *)
Definition echo_client : Client :=
  fun before c =>
    match c with
    | VectorStoresCreate name => RVectorStore ("vs_" +:+ name)
    | FileBatchesUploadAndPoll _ _ _ => RFileBatch "completed" "1"
    | AssistantsCreate name _ ty =>
        RAssistant (mkAssistant ("asst_" +:+ name) name (Some ty) [])
    | AssistantsUpdate id vs =>
        let '(name, ty) := last_created before ("", "") in
        RAssistant (mkAssistant id name (Some ty) [vs])
    | ThreadsCreate =>
        RThread ("thread"
                 +:+ ticks (length (List.filter is_threads_create before)))
    | ThreadsMessagesCreate _ _ => RMessage
    | ThreadsRunsCreate _ _ => RRun (mkRun "run" "queued")
    | ThreadsRunsRetrieve _ run => RRun (mkRun run "completed")
    | ThreadsMessagesList _ =>
        RMessageList
          [[TextBlock ("Re: " +:+ last_user_message before "")]]
    end.

(** A service whose runs end in the status "failed". *)
Definition failed_run_client : Client :=
  fun before c =>
    match c with
    | ThreadsRunsCreate _ _ => RRun (mkRun "run" "queued")
    | ThreadsRunsRetrieve _ run => RRun (mkRun run "failed")
    | _ => echo_client before c
    end.

(** A service that is down. *)
Definition offline_client : Client :=
  fun _ _ => RaisesException "Connection error.".

(** A service that takes one upload and refuses the next ones. *)
Definition second_upload_fails : Client :=
  fun before c =>
    match c with
    | FileBatchesUploadAndPoll _ _ _ =>
        match List.filter is_upload before with
        | [] => RFileBatch "completed" "1"
        | _ :: _ => RaisesException "Upload failed."
        end
    | _ => echo_client before c
    end.

Definition no_ui : UI :=
  mkUI (fun _ => false) (fun _ => "") None [] None 0 false.

(** The page with one button pressed and one text field filled in. *)
Definition click (b : button_id) (field value : string) : UI :=
  mkUI (fun b' =>
          match b, b' with
          | BtnSubmitCompanyName, BtnSubmitCompanyName => true
          | BtnNextPhase i, BtnNextPhase j => Nat.eqb i j
          | BtnSelectAllSlides, BtnSelectAllSlides => true
          | BtnSubmitAdditionalSlides, BtnSubmitAdditionalSlides => true
          | BtnProceedWithSelectedSlides, BtnProceedWithSelectedSlides =>
              true
          | BtnUploadInfo i, BtnUploadInfo j => Nat.eqb i j
          | BtnSubmitAnswers, BtnSubmitAnswers => true
          | BtnDraftSlides, BtnDraftSlides => true
          | BtnSubmitAdditionalInformation,
            BtnSubmitAdditionalInformation => true
          | BtnAnalyzeNewFiles, BtnAnalyzeNewFiles => true
          | BtnCreateAssistant, BtnCreateAssistant => true
          | BtnResetConversation, BtnResetConversation => true
          | _, _ => false
          end)
       (fun t =>
          match t with
          | TxtCompanyName =>
              if String.eqb field "company" then value else ""
          | TxtSlideNumbers =>
              if String.eqb field "slides" then value else ""
          | TxtAdditionalSlides =>
              if String.eqb field "more_slides" then value else ""
          | TxtUserAnswers =>
              if String.eqb field "answers" then value else ""
          | TxtAdditionalInfo =>
              if String.eqb field "info" then value else ""
          | TxtAssistantName =>
              if String.eqb field "assistant" then value else ""
          end)
       None [] None 0 false.

Definition acme : Assistant :=
  mkAssistant "asst_acme" "Acme" (Some "Pitch Deck Creator") ["vs_acme"].

Definition globex : Assistant :=
  mkAssistant "asst_globex" "Globex" (Some "Pitch Deck Creator")
              ["vs_globex"].

(** A later assistant with the name of [acme]. *)
Definition acme_again : Assistant :=
  mkAssistant "asst_acme_2" "Acme" (Some "Grant Assistant") ["vs_acme_2"].

Definition session_of (registry : list Assistant)
    (current : option Assistant) (thread : option string)
    (chats : list (string * Chat)) : Session :=
  mkSession registry current thread (list_to_map chats) None.

Definition env_of (s : Session) : Env := mkEnv s [] [].

(** [acme] selected, nothing said yet. *)
Definition start : Env :=
  env_of (session_of [acme; globex] (Some acme) None []).

(** The script on the demo tables. *)
Definition run_chat_section (cl : Client) (fuel : nat) (ui : UI) : M unit :=
  chat_section cl [] [] PROMPTS PHASES format fuel ui.

(** The environment after the runs [uis] of the chat section. *)
Fixpoint after (cl : Client) (uis : list UI) (e : Env) : Env :=
  match uis with
  | [] => e
  | ui :: rest => after cl rest (snd (run_chat_section cl 5 ui e))
  end.

(** [acme] with the four phases done: company named, "Next Phase",
    slides selected and "Proceed", then "Draft Pitchdeck Slides". *)
Definition complete : Env :=
  after echo_client
    [ click BtnSubmitCompanyName "company" "Acme";
      click (BtnNextPhase 0) "" "";
      click BtnProceedWithSelectedSlides "slides" "1,2";
      click BtnDraftSlides "slides" "1,2" ]
    start.


(** [globex] has had its first phase on the thread of the session, and
    [acme] is then the selected assistant. *)
Definition acme_after_globex : Env :=
  let e := after echo_client
             [ click BtnSubmitCompanyName "company" "Globex" ]
             (env_of (session_of [acme; globex] (Some globex) None [])) in
  mkEnv (set_assistant (Some acme) (session e)) (calls e) (notices e).

(** The operations on the demo tables. *)
Definition run (cl : Client) (ops : list operation) (e : Env) : Env :=
  run_operations cl [] [] PROMPTS PHASES format ops e.

(** A directory and two files chosen in the uploader. *)
Definition tmp : string := "/tmp/upload".

Definition file_a : upload := UploadedFile "a.txt" "alpha".
Definition file_b : upload := UploadedFile "b.txt" "beta".

(** The conversation state of [acme] in [named] and in [complete]. *)
Definition named_chat : Chat :=
  mkChat [] [("1. Business Report Generation", "Re: Report on Acme")] 1
         (Some "Acme") (Some "").

Definition complete_chat : Chat :=
  mkChat []
         [ ("1. Business Report Generation", "Re: Report on Acme");
           ("2. Slide Suggestion", "Re: Suggest slides");
           ("3. Information Evaluation", "Re: Evaluate 1,2");
           ("4. Draft Slide Generation", "Re: Draft the slides") ]
         4 (Some "Acme") (Some "1,2").

(** A session with nothing in it. *)
Definition blank : Env := env_of (session_of [] None None []).



(** A disk on which one required file of the pitch deck is missing. *)
Definition cwd : string := "/app".

Definition on_disk (path : string) : bool :=
  negb (String.eqb path "/app/required_files/Pitchdeck Questions.pdf").

Definition file_bytes (path : string) : string := "%PDF".

(** An assistant of neither workflow, which gets the plain chat. *)
Definition helper : Assistant :=
  mkAssistant "asst_helper" "Helper" (Some "General") ["vs_helper"].

(** [a] selected on the thread [thread], with the conversation state [c]. *)
Definition talking (a : Assistant) (thread : option string) (c : Chat)
  : Env :=
  with_chat (a_id a) c
    (env_of (session_of [acme; globex; acme_again; helper] (Some a) thread
               [])).

(** The company is named and the first chat has failed. *)
Definition unanswered_chat : Chat := mkChat [] [] 0 (Some "Acme") (Some "").

(** The page with [message] typed into the chat. *)
Definition ask (message : string) : UI :=
  mkUI (fun _ => false) (fun _ => "") (Some message) [] None 0 false.

(** The form of the creation filled in: a name, a type and one file. *)
Definition create_form (assistant_type : string) : UI :=
  mkUI (fun _ => false)
       (fun t => match t with TxtAssistantName => "Acme" | _ => "" end)
       None [file_a] (Some assistant_type) 0 true.

(** A disk on which every file is there. *)
Definition all_on_disk (path : string) : bool := true.

(** A table of phase names shorter than the table of prompts. *)
Definition SHORT_PHASES : list string :=
  [ "1. Business Report Generation" ].

End Demo.

(** * Properties *)

(** ** Frame rules of the monad

    [keeps R m]: every run of [m] relates the environment before to the
    environment after, however [m] ends. *)

Definition keeps {A} (R : Env -> Env -> Prop) (m : M A) : Prop :=
  forall e, R e (snd (m e)).

(** [no_rerun m]: no run of [m] ends with [st.rerun()]. *)
Definition no_rerun {A} (m : M A) : Prop :=
  forall e, fst (m e) <> Rerun.

Section Frame.

Context (R : Env -> Env -> Prop) `{!PreOrder R}.

Lemma keeps_ret {A} (a : A) : keeps R (ret a).
Proof. intros e. reflexivity. Qed.

Lemma keeps_raise {A} (x : exn) : keeps R (@raise A x).
Proof. intros e. reflexivity. Qed.

Lemma keeps_rerun {A} : keeps R (@st_rerun A).
Proof. intros e. reflexivity. Qed.

Lemma keeps_out_of_fuel {A} : keeps R (@out_of_fuel A).
Proof. intros e. reflexivity. Qed.

Lemma keeps_get_session : keeps R get_session.
Proof. intros e. reflexivity. Qed.

Lemma keeps_bind {A B} (m : M A) (k : A -> M B) :
  keeps R m -> (forall a, keeps R (k a)) -> keeps R (bind m k).
Proof.
  intros Hm Hk e. unfold bind.
  specialize (Hm e). destruct (m e) as [[a| |x|] e1]; simpl in *; auto.
  transitivity e1; [exact Hm | apply Hk].
Qed.

Lemma keeps_try_except {A} (m : M A) (h : exn -> M A) :
  keeps R m -> (forall x, keeps R (h x)) -> keeps R (try_except m h).
Proof.
  intros Hm Hh e. unfold try_except.
  specialize (Hm e). destruct (m e) as [[a| |x|] e1]; simpl in *; auto.
  transitivity e1; [exact Hm | apply Hh].
Qed.

Lemma keeps_getitem {A} (xs : list A) (i : nat) : keeps R (getitem xs i).
Proof.
  unfold getitem. destruct (xs !! i); [apply keeps_ret | apply keeps_raise].
Qed.

Lemma keeps_getitem_int {A} (xs : list A) (z : Z) :
  keeps R (getitem_int xs z).
Proof.
  unfold getitem_int.
  destruct (_ <? 0)%Z; [apply keeps_raise | apply keeps_getitem].
Qed.

Lemma keeps_getkey (v : option string) : keeps R (getkey v).
Proof. destruct v; [apply keeps_ret | apply keeps_raise]. Qed.

End Frame.

(** The calls made and the notices shown do not matter to [R]. *)
Class SessionOnly (R : Env -> Env -> Prop) : Prop :=
  session_only :
    forall e cs ns, R e (mkEnv (session e) cs ns).

Section FrameSession.

Context (R : Env -> Env -> Prop) `{!PreOrder R} `{!SessionOnly R}.

Lemma keeps_notice (l : level) (msg : string) : keeps R (st_notice l msg).
Proof. intros e. apply session_only. Qed.

Lemma keeps_request (client : Client) (c : call) : keeps R (request client c).
Proof.
  intros e. unfold request.
  destruct (client (calls e) c); simpl; apply session_only.
Qed.

End FrameSession.

Lemma no_rerun_bind {A B} (m : M A) (k : A -> M B) :
  no_rerun m -> (forall a, no_rerun (k a)) -> no_rerun (bind m k).
Proof.
  intros Hm Hk e. unfold bind. specialize (Hm e).
  destruct (m e) as [[a| |x|] e1]; simpl in *; try done. apply Hk.
Qed.

Lemma no_rerun_try_except {A} (m : M A) (h : exn -> M A) :
  no_rerun m -> (forall x, no_rerun (h x)) -> no_rerun (try_except m h).
Proof.
  intros Hm Hh e. unfold try_except. specialize (Hm e).
  destruct (m e) as [[a| |x|] e1]; simpl in *; try done. apply Hh.
Qed.

Lemma no_rerun_ret {A} (a : A) : no_rerun (ret a).
Proof. intros e. done. Qed.

Lemma no_rerun_raise {A} (x : exn) : no_rerun (@raise A x).
Proof. intros e. done. Qed.

Lemma no_rerun_out_of_fuel {A} : no_rerun (@out_of_fuel A).
Proof. intros e. done. Qed.

Lemma no_rerun_get_session : no_rerun get_session.
Proof. intros e. done. Qed.

Lemma no_rerun_modify_session f : no_rerun (modify_session f).
Proof. intros e. done. Qed.

Lemma no_rerun_notice l msg : no_rerun (st_notice l msg).
Proof. intros e. done. Qed.

Lemma no_rerun_request client c : no_rerun (request client c).
Proof. intros e. unfold request. by destruct (client (calls e) c). Qed.

Lemma no_rerun_getitem {A} (xs : list A) i : no_rerun (getitem xs i).
Proof. unfold getitem. by destruct (xs !! i). Qed.

(** Goals [keeps R m] and [no_rerun m] on a script made of the
    operations above: one rule per construct, a case split per branch. *)
Ltac frame_step :=
  first
    [ apply keeps_bind; [ | | intros ? ]
    | apply keeps_try_except; [ | | intros ? ]
    | apply keeps_ret | apply keeps_raise | apply keeps_rerun
    | apply keeps_out_of_fuel | apply keeps_get_session
    | apply keeps_getitem | apply keeps_getitem_int | apply keeps_getkey
    | apply keeps_notice | apply keeps_request
    | apply no_rerun_bind; [ | intros ? ]
    | apply no_rerun_try_except; [ | intros ? ]
    | apply no_rerun_ret | apply no_rerun_raise | apply no_rerun_out_of_fuel
    | apply no_rerun_get_session | apply no_rerun_modify_session
    | apply no_rerun_notice | apply no_rerun_request | apply no_rerun_getitem
    | assumption
    | apply _
    | match goal with
      | |- keeps _ (match ?x with _ => _ end) => destruct x
      | |- no_rerun (match ?x with _ => _ end) => destruct x
      | |- keeps _ (let (_, _) := ?x in _) => destruct x
      end ].

Ltac frame := repeat frame_step.

(** ** What a chat leaves alone *)

(** The registry, the selected assistant and every conversation state are
    the same; the thread of the session may differ. *)
Definition same_chats (e e' : Env) : Prop :=
  assistants (session e') = assistants (session e)
  /\ assistant (session e') = assistant (session e)
  /\ assistant_chat_histories (session e')
     = assistant_chat_histories (session e)
  /\ vector_store (session e') = vector_store (session e).

#[local] Instance same_chats_preorder : PreOrder same_chats.
Proof.
  split.
  - intros e. by repeat split.
  - intros e1 e2 e3 (?&?&?&?) (?&?&?&?). repeat split; congruence.
Qed.

#[local] Instance same_chats_session_only : SessionOnly same_chats.
Proof. intros e cs ns. by repeat split. Qed.

Lemma keeps_set_thread_id (t : option string) :
  keeps same_chats (modify_session (set_thread_id t)).
Proof. intros e. by repeat split. Qed.

Section ChatFacts.

Variable client : Client.

Lemma wait_for_run_keeps fuel run :
  keeps same_chats (wait_for_run client fuel run).
Proof.
  revert run. induction fuel as [|fuel IH]; intros run; simpl;
    destruct (negb _); unfold session_thread_id, runs_retrieve; frame;
    apply IH.
Qed.

Lemma wait_for_run_no_rerun fuel run :
  no_rerun (wait_for_run client fuel run).
Proof.
  revert run. induction fuel as [|fuel IH]; intros run; simpl;
    destruct (negb _); unfold session_thread_id, runs_retrieve; frame;
    apply IH.
Qed.

Lemma chat_with_assistant_keeps fuel assistant_id user_message :
  keeps same_chats (chat_with_assistant client fuel assistant_id user_message).
Proof.
  unfold chat_with_assistant, session_thread_id, threads_create,
    messages_create, runs_create, messages_list, st_error.
  frame; try apply keeps_set_thread_id; apply wait_for_run_keeps.
Qed.

(** The chat ends with a value, unless the poll never ends: exceptions
    are caught at line 141 and nothing in it reruns the script. *)
Lemma chat_with_assistant_returns fuel assistant_id user_message e :
  match fst (chat_with_assistant client fuel assistant_id user_message e)
  with
  | Val _ | OutOfFuel => True
  | Rerun | Raise _ => False
  end.
Proof.
  unfold chat_with_assistant, try_except.
  match goal with |- context [ ?m e ] =>
    match type of m with M (option string) =>
      assert (Hnr : no_rerun m); [ | specialize (Hnr e); destruct (m e) as [[?| |?|] ?] ]
    end
  end; simpl in *; try done.
  unfold session_thread_id, threads_create, messages_create, runs_create,
    messages_list.
  frame; apply wait_for_run_no_rerun.
Qed.

End ChatFacts.

(** ** Equations of the primitives *)

Lemma bind_val {A B} (m : M A) (k : A -> M B) e a e1 :
  m e = (Val a, e1) -> bind m k e = k a e1.
Proof. intros H. unfold bind. by rewrite H. Qed.

Lemma current_chat_eq aid e c :
  chat_of aid e = Some c -> current_chat aid e = (Val c, e).
Proof.
  unfold chat_of, current_chat, bind, get_session. intros ->. done.
Qed.

Lemma update_chat_eq aid f e c :
  chat_of aid e = Some c ->
  update_chat aid f e = (Val tt, with_chat aid (f c) e).
Proof.
  intros H. unfold update_chat.
  rewrite (bind_val _ _ _ _ _ (current_chat_eq _ _ _ H)). done.
Qed.

Lemma chat_of_with_chat aid c e : chat_of aid (with_chat aid c e) = Some c.
Proof. unfold chat_of, with_chat. simpl. apply lookup_insert_eq. Qed.

Lemma chat_of_with_chat_ne aid b c e :
  aid <> b -> chat_of b (with_chat aid c e) = chat_of b e.
Proof. intros. unfold chat_of, with_chat. simpl. by apply lookup_insert_ne. Qed.

Lemma with_chat_twice aid c1 c2 e :
  with_chat aid c2 (with_chat aid c1 e) = with_chat aid c2 e.
Proof.
  unfold with_chat. simpl. unfold set_histories. simpl.
  by rewrite insert_insert_eq.
Qed.

Lemma chat_of_same_chats aid e e1 :
  same_chats e e1 -> chat_of aid e1 = chat_of aid e.
Proof. intros (_&_&H&_). unfold chat_of. by rewrite H. Qed.

Lemma if_truthy_Some resp r :
  if_truthy resp = Some r -> resp = Some r /\ Py.truthy r = true.
Proof.
  unfold if_truthy. destruct resp as [x|]; [|done].
  destruct (Py.truthy x) eqn:E; [|done]. by intros [= <-].
Qed.

(** Lines 295-298 and 332-334: the label is looked up, the entry appended,
    the index incremented, and the script rerun. *)
Lemma append_and_advance_eq aid (names : list string) r e c :
  chat_of aid e = Some c ->
  (let* c := current_chat aid in
   let* phase_name := getitem names (message_index c) in
   let* _ := update_chat aid (append_conversation (phase_name, r)) in
   let* _ := update_chat aid increment_message_index in
   @st_rerun unit) e
  = match names !! message_index c with
    | Some label => (Rerun, with_chat aid (advanced label r c) e)
    | None => (Raise IndexError, e)
    end.
Proof.
  intros H.
  rewrite (bind_val _ _ _ _ _ (current_chat_eq _ _ _ H)).
  unfold getitem. destruct (names !! message_index c) as [label|]; [|done].
  rewrite (bind_val _ _ e label e eq_refl).
  rewrite (bind_val _ _ _ _ _ (update_chat_eq _ _ _ _ H)).
  rewrite (bind_val _ _ _ _ _
             (update_chat_eq _ _ _ _ (chat_of_with_chat _ _ _))).
  by rewrite with_chat_twice.
Qed.

(** The index of line 367 is that of a natural-number lookup. *)
Lemma getitem_int_clamped {A} (xs : list A) (i : nat) :
  getitem_int xs (Z.min (Z.of_nat i) (Z.of_nat (length xs) - 1))
  = getitem xs (Nat.min i (length xs - 1)).
Proof.
  unfold getitem_int.
  set (z := Z.min (Z.of_nat i) (Z.of_nat (length xs) - 1)).
  destruct (Z.ltb_spec z 0) as [Hneg|Hpos].
  - assert (Hn : length xs = 0) by lia.
    destruct (Z.ltb_spec (z + Z.of_nat (length xs)) 0) as [_|?]; [|lia].
    destruct xs; [|done]. unfold getitem. by rewrite lookup_nil.
  - destruct (Z.ltb_spec z 0) as [?|_]; [lia|].
    f_equal. lia.
Qed.

Section Advance.

Variable client : Client.
Variable str_format : string -> string -> string -> exn + string.

(** One chat call inside an interaction: its outcome is split, and the
    conversation state [c] is found again after it. *)
Ltac chat_call fuel aid message e0 Hc0 :=
  unfold bind at 1;
  let Hk := fresh "Hk" in
  let Hr := fresh "Hr" in
  pose proof (chat_with_assistant_keeps client fuel aid message e0) as Hk;
  pose proof (chat_with_assistant_returns client fuel aid message e0) as Hr;
  destruct (chat_with_assistant client fuel aid message e0)
    as [o e1] eqn:Hchat;
  simpl in Hk, Hr;
  pose proof (eq_trans (chat_of_same_chats aid _ _ Hk) Hc0) as Hc1;
  destruct o as [resp| |x|]; try done.




Lemma submit_company_name_outcome fuel ui a msgs names e c r e' :
  chat_of (a_id a) e = Some c ->
  submit_company_name client str_format fuel ui a msgs names e = (r, e') ->
  (r = Rerun /\ 0 < length msgs /\
     exists reply label e1,
       answered client fuel (a_id a) e reply e1
       /\ names !! 0 = Some label
       /\ e' = with_chat (a_id a)
                 (set_message_index 1
                    (append_conversation (label, reply)
                       (set_company_name (st_text ui TxtCompanyName) c)))
                 e1)
  \/ (r <> Rerun /\
       exists c', chat_of (a_id a) e' = Some c'
         /\ message_index c' = message_index c
         /\ conversation_history c' = conversation_history c).
Proof.
  intros Hc. unfold submit_company_name.
  set (name := st_text ui TxtCompanyName).
  destruct (Py.truthy name);
    [|intros [= <- <-]; right; split; [done|]; by exists c].
  rewrite (bind_val _ _ _ _ _ (update_chat_eq _ _ _ _ Hc)).
  set (c0 := set_company_name name c).
  rewrite (bind_val (st_success _) _ _ tt _ eq_refl).
  match goal with |- bind _ _ ?x = _ -> _ => set (e0 := x) end.
  assert (Hc0 : chat_of (a_id a) e0 = Some c0) by apply chat_of_with_chat.
  assert (Hstay : forall e2 : Env,
            chat_of (a_id a) e2 = Some c0 ->
            exists c', chat_of (a_id a) e2 = Some c'
              /\ message_index c' = message_index c
              /\ conversation_history c' = conversation_history c)
    by (intros e2 H2; by exists c0).
  unfold getitem at 1.
  destruct (msgs !! 0) as [template|] eqn:Hm;
    [|intros [= <- <-]; right; split; [done|]; by apply Hstay].
  rewrite (bind_val _ _ e0 template e0 eq_refl).
  destruct (str_format template "company_name" name) as [x|message];
    [intros [= <- <-]; right; split; [done|]; by apply Hstay|].
  rewrite (bind_val _ _ e0 message e0 eq_refl).
  chat_call fuel (a_id a) message e0 Hc0;
    [|intros [= <- <-]; right; split; [done|]; by apply Hstay].
  destruct (if_truthy resp) as [reply|] eqn:Ht;
    [|intros [= <- <-]; right; split; [done|]; by apply Hstay].
  apply if_truthy_Some in Ht as [-> Ht].
  unfold getitem.
  destruct (names !! 0) as [label|] eqn:Hl;
    [|intros [= <- <-]; right; split; [done|]; by apply Hstay].
  rewrite (bind_val _ _ e1 label e1 eq_refl).
  rewrite (bind_val _ _ _ _ _ (update_chat_eq _ _ _ _ Hc1)).
  rewrite (bind_val _ _ _ _ _
             (update_chat_eq _ _ _ _ (chat_of_with_chat _ _ _))).
  rewrite with_chat_twice. intros [= <- <-]. left.
  split; [done|]. split; [by eapply lookup_lt_Some|].
  exists reply, label, e1. split; [|done]. by exists message, e0.
Qed.




End Advance.

Section Replace.

Variable client : Client.

Lemma setitem_conversation_eq aid i entry e c :
  chat_of aid e = Some c ->
  i < length (conversation_history c) ->
  setitem_conversation aid i entry e
  = (Val tt,
     with_chat aid
       (set_conversation_history (<[i := entry]> (conversation_history c)) c)
       e).
Proof.
  intros Hc Hi. unfold setitem_conversation.
  rewrite (bind_val _ _ _ _ _ (current_chat_eq _ _ _ Hc)).
  destruct (decide _); [|done]. by rewrite (update_chat_eq _ _ _ _ Hc).
Qed.

Lemma setitem_conversation_out_of_range aid i entry e c :
  chat_of aid e = Some c ->
  ~ i < length (conversation_history c) ->
  setitem_conversation aid i entry e = (Raise IndexError, e).
Proof.
  intros Hc Hi. unfold setitem_conversation.
  rewrite (bind_val _ _ _ _ _ (current_chat_eq _ _ _ Hc)).
  by destruct (decide _).
Qed.

Lemma regenerate_outcome fuel a i phase message e c r e' :
  chat_of (a_id a) e = Some c ->
  regenerate client fuel a i phase message e = (r, e') ->
  (r = Rerun /\ i < length (conversation_history c) /\
     exists reply e1,
       chat_with_assistant client fuel (a_id a) message e
       = (Val (Some reply), e1)
       /\ Py.truthy reply = true
       /\ e' = with_chat (a_id a)
                 (set_conversation_history
                    (<[i := (phase, reply)]> (conversation_history c)) c)
                 e1)
  \/ (r <> Rerun /\ chat_of (a_id a) e' = Some c).
Proof.
  intros Hc. unfold regenerate.
  unfold bind at 1.
  pose proof (chat_with_assistant_keeps client fuel (a_id a) message e) as Hk.
  pose proof (chat_with_assistant_returns client fuel (a_id a) message e)
    as Hr.
  destruct (chat_with_assistant client fuel (a_id a) message e)
    as [o e1] eqn:Hchat.
  simpl in Hk, Hr.
  pose proof (eq_trans (chat_of_same_chats (a_id a) _ _ Hk) Hc) as Hc1.
  destruct o as [resp| |x|]; try done; [|intros [= <- <-]; by right].
  destruct (if_truthy resp) as [reply|] eqn:Ht;
    [|intros [= <- <-]; by right].
  apply if_truthy_Some in Ht as [-> Ht].
  destruct (decide (i < length (conversation_history c))) as [Hi|Hi].
  - rewrite (bind_val _ _ _ _ _ (setitem_conversation_eq _ _ _ _ _ Hc1 Hi)).
    intros [= <- <-]. left. split; [done|]. split; [done|].
    by exists reply, e1.
  - unfold bind at 1.
    rewrite (setitem_conversation_out_of_range _ _ _ _ _ Hc1 Hi).
    intros [= <- <-]. by right.
Qed.

(** Every run of a regenerating button either reruns the script with the
    entry of its tab overwritten, or leaves the conversation state as it
    was. *)
Lemma replace_phase_outcome b fuel ui a i phase e c r e' :
  chat_of (a_id a) e = Some c ->
  replace_phase client b fuel ui a i phase e = (r, e') ->
  (r = Rerun /\ i < length (conversation_history c) /\
     exists message reply e1,
       chat_with_assistant client fuel (a_id a) message e
       = (Val (Some reply), e1)
       /\ Py.truthy reply = true
       /\ e' = with_chat (a_id a)
                 (set_conversation_history
                    (<[i := (phase, reply)]> (conversation_history c)) c)
                 e1)
  \/ (r <> Rerun /\ chat_of (a_id a) e' = Some c).
Proof.
  intros Hc H.
  assert (Hgen : forall message,
            regenerate client fuel a i phase message e = (r, e') ->
            (r = Rerun /\ i < length (conversation_history c) /\
               exists message reply e1,
                 chat_with_assistant client fuel (a_id a) message e
                 = (Val (Some reply), e1)
                 /\ Py.truthy reply = true
                 /\ e' = with_chat (a_id a)
                           (set_conversation_history
                              (<[i := (phase, reply)]>
                                 (conversation_history c)) c)
                           e1)
            \/ (r <> Rerun /\ chat_of (a_id a) e' = Some c)).
  { intros message Hm.
    destruct (regenerate_outcome _ _ _ _ _ _ _ _ _ Hc Hm)
      as [(-> & Hi & reply & e1 & ? & ? & ?)|?]; [left|by right].
    split; [done|]. split; [done|]. by exists message, reply, e1. }
  destruct b; simpl in H;
    unfold submit_additional_slides, uploaded_additional_information,
      submit_answers, submit_additional_information, analyze_new_files in H;
    try (destruct (Py.truthy _);
         [|injection H as <- <-; by right]);
    by eapply Hgen.
Qed.


End Replace.

Section Complete.

Variable client : Client.
Variable str_format : string -> string -> string -> exn + string.

(** The guard of line 290: at the end of the workflow "Next Phase" makes no
    call, changes nothing and shows an error. *)
Lemma next_phase_rejects_at_end fuel a msgs names e c :
  chat_of (a_id a) e = Some c ->
  length msgs <= message_index c ->
  next_phase client fuel a msgs names e
  = (Val tt, noticed Error "All phases have been completed." e).
Proof.
  intros Hc Hge. unfold next_phase.
  rewrite (bind_val _ _ _ _ _ (current_chat_eq _ _ _ Hc)).
  by destruct (Nat.ltb_spec (message_index c) (length msgs)); [lia|].
Qed.

(** The guard of line 362: the same for "Draft Pitchdeck Slides". *)
Lemma draft_rejects_at_end fuel a msgs names e c :
  chat_of (a_id a) e = Some c ->
  length msgs <= message_index c ->
  draft_pitchdeck_slides client fuel a msgs names e
  = (Val tt,
     noticed Error "All phases have been completed. No more messages to send."
             e).
Proof.
  intros Hc Hge. unfold draft_pitchdeck_slides.
  rewrite (bind_val _ _ _ _ _ (current_chat_eq _ _ _ Hc)).
  by destruct (Nat.ltb_spec (message_index c) (length msgs)); [lia|].
Qed.

(** Line 328 has no such guard: at the end of the workflow "Proceed with
    Selected Slides" indexes the prompts out of range. *)
Lemma proceed_raises_at_end fuel a msgs names e c :
  chat_of (a_id a) e = Some c ->
  length msgs <= message_index c ->
  proceed_with_selected_slides client str_format fuel a msgs names e
  = (Raise IndexError, e).
Proof.
  intros Hc Hge. unfold proceed_with_selected_slides.
  rewrite (bind_val _ _ _ _ _ (current_chat_eq _ _ _ Hc)).
  unfold getitem. by rewrite (lookup_ge_None_2 msgs _ Hge).
Qed.

End Complete.

(** C2.  With the four phases of the demo workflow done, the index is the
    length of the workflow.  "Next Phase" and "Draft Pitchdeck Slides" are
    then refused with an error notice, no call and no change; pressing
    "Proceed with Selected Slides" on the page ends the script with an
    uncaught [IndexError] instead. *)
Theorem proceed_when_complete_raises_index_error :
  (message_index <$> chat_of "asst_acme" Demo.complete)
  = Some (length Demo.PROMPTS)
  /\ advance Demo.echo_client Demo.format NextPhase 5 Demo.no_ui Demo.acme
       Demo.PROMPTS Demo.PHASES Demo.complete
     = (Val tt, noticed Error "All phases have been completed." Demo.complete)
  /\ advance Demo.echo_client Demo.format DraftPitchdeckSlides 5 Demo.no_ui
       Demo.acme Demo.PROMPTS Demo.PHASES Demo.complete
     = (Val tt,
        noticed Error
          "All phases have been completed. No more messages to send."
          Demo.complete)
  /\ Demo.run_chat_section Demo.echo_client 5
       (Demo.click BtnProceedWithSelectedSlides "" "") Demo.complete
     = (Raise IndexError, noticed Success "Selected slides: 1,2" Demo.complete).
Proof. split; [|split; [|split]]; vm_compute; reflexivity. Qed.

Section Polling.

Variable client : Client.

(** Once the run is "completed" the loop of line 135 is over, whatever the
    fuel. *)
Lemma wait_for_run_completed fuel run e :
  run_status run = "completed" ->
  wait_for_run client fuel run e = (Val run, e).
Proof. intros H. destruct fuel; simpl; by rewrite H. Qed.

(** A turn of the loop: the run is retrieved again. *)
Lemma wait_for_run_turn fuel run e :
  run_status run <> "completed" ->
  wait_for_run client (S fuel) run e
  = (let* thread := session_thread_id in
     let* run' := runs_retrieve client thread (run_id run) in
     wait_for_run client fuel run') e.
Proof.
  intros H. simpl. by destruct (String.eqb_spec (run_status run) "completed").
Qed.

(** A run whose status is never "completed", and says so at every poll,
    keeps the loop turning: it uses up any fuel. *)
Lemma wait_for_run_never_completed fuel run e thread :
  (forall before t r,
     exists r', client before (ThreadsRunsRetrieve t r) = RRun r'
                /\ run_status r' <> "completed") ->
  thread_id (session e) = Some thread ->
  run_status run <> "completed" ->
  fst (wait_for_run client fuel run e) = OutOfFuel.
Proof.
  intros Hpoll. revert run e.
  induction fuel as [|fuel IH]; intros run e Ht Hs.
  - simpl. by destruct (String.eqb_spec (run_status run) "completed").
  - rewrite wait_for_run_turn by done.
    unfold session_thread_id, bind at 1, get_session, bind at 1. rewrite Ht.
    unfold bind at 1, ret. unfold runs_retrieve, bind at 1, request.
    destruct (Hpoll (calls e) thread (run_id run)) as (r' & -> & Hr').
    simpl. by apply IH.
Qed.

(** The chat with a service that starts runs and never reports one as
    "completed": the poll uses up any fuel, so the chat does not return. *)
Lemma chat_with_assistant_never_returns fuel assistant_id user_message e :
  (forall before, exists t, client before ThreadsCreate = RThread t) ->
  (forall before t m, client before (ThreadsMessagesCreate t m) = RMessage) ->
  (forall before t a,
     exists r, client before (ThreadsRunsCreate t a) = RRun r
               /\ run_status r <> "completed") ->
  (forall before t r,
     exists r', client before (ThreadsRunsRetrieve t r) = RRun r'
                /\ run_status r' <> "completed") ->
  fst (chat_with_assistant client fuel assistant_id user_message e)
  = OutOfFuel.
Proof.
  intros Hthread Hpost Hrun Hpoll.
  unfold chat_with_assistant, try_except.
  match goal with |- fst (match ?m e with _ => _ end) = _ =>
    assert (H : fst (m e) = OutOfFuel);
      [|destruct (m e) as [[?| |?|] ?]; simpl in *; congruence]
  end.
  rewrite (bind_val get_session _ e _ e eq_refl).
  assert (Hstart : forall e0 t,
    thread_id (session e0) = Some t ->
    fst ((let* thread := session_thread_id in
          let* _ := messages_create client thread user_message in
          let* thread := session_thread_id in
          let* run := runs_create client thread assistant_id in
          let* _ := wait_for_run client fuel run in
          let* thread := session_thread_id in
          let* data := messages_list client thread in
          let* message := getitem data 0 in
          let* block := getitem message 0 in
          match block with
          | TextBlock value => ret (Some value)
          | ImageBlock => raise AttributeError
          end) e0) = OutOfFuel).
  { intros e0 t Ht.
    assert (Hsid : forall e2, thread_id (session e2) = Some t ->
              session_thread_id e2 = (Val t, e2)).
    { intros e2 H2. unfold session_thread_id.
      rewrite (bind_val get_session _ e2 _ e2 eq_refl). by rewrite H2. }
    rewrite (bind_val _ _ _ _ _ (Hsid e0 Ht)).
    unfold messages_create.
    unfold bind at 1, bind at 1, request. rewrite Hpost. simpl.
    match goal with |- fst (bind _ _ ?x) = _ => set (e1 := x) end.
    rewrite (bind_val _ _ _ _ _ (Hsid e1 Ht)).
    unfold runs_create. unfold bind at 1, bind at 1, request.
    destruct (Hrun (calls e1) t assistant_id) as (run & -> & Hs). simpl.
    unfold bind at 1.
    match goal with |- context [wait_for_run client fuel run ?x] =>
      pose proof (wait_for_run_never_completed fuel run x t Hpoll Ht Hs) as Hw;
      destruct (wait_for_run client fuel run x) as [o ex]
    end.
    simpl in Hw. by subst o. }
  destruct (thread_id (session e)) as [t|] eqn:Ht.
  - rewrite (bind_val (ret tt) _ e tt e eq_refl). by apply (Hstart e t).
  - unfold bind at 1, bind at 1, threads_create, bind at 1, request.
    destruct (Hthread (calls e)) as [t ->]. simpl.
    by apply (Hstart _ t).
Qed.

End Polling.


(** C5.  A run that fails is polled for ever: with a service whose runs end
    in the status "failed", the chat does not return, however much fuel the
    poll is given. *)
Theorem failed_run_is_polled_for_ever fuel :
  fst (chat_with_assistant Demo.failed_run_client fuel "asst_acme" "Hello"
         Demo.start)
  = OutOfFuel.
Proof.
  apply chat_with_assistant_never_returns.
  - intros before. by eexists.
  - done.
  - intros before t a. by eexists.
  - intros before t r. by eexists.
Qed.

(** ** Interactions of one assistant leave the states of the others *)

#[local] Instance same_chat_at_preorder b : PreOrder (same_chat_at b).
Proof.
  split.
  - intros e. by split.
  - intros e1 e2 e3 [? ?] [? ?]. split; congruence.
Qed.

#[local] Instance same_chat_at_session_only b : SessionOnly (same_chat_at b).
Proof. intros e cs ns. by split. Qed.

Lemma keeps_weaken {A} (R R' : Env -> Env -> Prop) (m : M A) :
  (forall e e', R e e' -> R' e e') -> keeps R m -> keeps R' m.
Proof. intros HR Hm e. by apply HR. Qed.

Lemma same_chats_same_chat_at b e e' : same_chats e e' -> same_chat_at b e e'.
Proof. intros (_ & Ha & Hh & _). split; [|done]. unfold chat_of. by rewrite Hh. Qed.

Lemma keeps_current_chat R `{!PreOrder R} aid : keeps R (current_chat aid).
Proof. unfold current_chat. frame. Qed.

Lemma keeps_update_chat_other b aid f :
  aid <> b -> keeps (same_chat_at b) (update_chat aid f).
Proof.
  intros Hne e. unfold update_chat, current_chat, bind, get_session.
  destruct (assistant_chat_histories (session e) !! aid); simpl; [|done].
  split; [|done]. unfold chat_of. simpl. by apply lookup_insert_ne.
Qed.

Lemma keeps_setitem_other b aid i entry :
  aid <> b -> keeps (same_chat_at b) (setitem_conversation aid i entry).
Proof.
  intros Hne. unfold setitem_conversation.
  apply keeps_bind; [apply _|apply keeps_current_chat; apply _|intros c].
  destruct (decide _); [by apply keeps_update_chat_other|apply keeps_raise; apply _].
Qed.

Lemma keeps_for_enumerate R `{!PreOrder R} body i entries :
  (forall j phase content, keeps R (body j phase content)) ->
  keeps R (for_enumerate body i entries).
Proof.
  intros Hbody. revert i.
  induction entries as [|[phase content] rest IH]; intros i; simpl; frame.
  - apply Hbody.
  - apply IH.
Qed.

Section Isolation.

Variable client : Client.
Variables MESSAGES PHASE_NAMES : list string.
Variables PITCH_DECK_MESSAGES PITCH_DECK_PHASE_NAMES : list string.
Variable str_format : string -> string -> string -> exn + string.

Lemma keeps_chat_other b fuel aid message :
  keeps (same_chat_at b) (chat_with_assistant client fuel aid message).
Proof.
  eapply keeps_weaken; [apply same_chats_same_chat_at|].
  apply chat_with_assistant_keeps.
Qed.

(** The steps of a script that writes only under [a_id a]. *)
Ltac other_step :=
  first
    [ apply keeps_chat_other
    | apply keeps_update_chat_other; assumption
    | apply keeps_setitem_other; assumption
    | apply keeps_current_chat; apply _
    | frame_step ].

Ltac other := repeat other_step.

Lemma keeps_advance_other b adv fuel ui a msgs names :
  a_id a <> b ->
  keeps (same_chat_at b) (advance client str_format adv fuel ui a msgs names).
Proof.
  intros Hne. destruct adv; simpl;
    unfold submit_company_name, next_phase, proceed_with_selected_slides,
      draft_pitchdeck_slides, st_success, st_warning, st_error; other.
Qed.

Lemma keeps_replace_other b rb fuel ui a i phase :
  a_id a <> b ->
  keeps (same_chat_at b) (replace_phase client rb fuel ui a i phase).
Proof.
  intros Hne. destruct rb; simpl;
    unfold submit_additional_slides, uploaded_additional_information,
      submit_answers, submit_additional_information, analyze_new_files,
      regenerate, st_warning; other.
Qed.

Lemma keeps_tab_body_other b fuel ui a msgs names n i phase content :
  a_id a <> b ->
  keeps (same_chat_at b)
        (tab_body client str_format fuel ui a msgs names n i phase content).
Proof.
  intros Hne.
  pose proof (fun adv => keeps_advance_other b adv fuel ui a msgs names Hne)
    as Hadv.
  pose proof (fun rb => keeps_replace_other b rb fuel ui a i phase Hne)
    as Hrep.
  unfold tab_body, slide_suggestion_tab, information_evaluation_tab,
    draft_slide_generation_tab, st_success, st_info.
  other;
    first [ apply (Hadv NextPhase) | apply (Hadv ProceedWithSelectedSlides)
          | apply (Hadv DraftPitchdeckSlides)
          | apply (Hrep SubmitAdditionalSlides)
          | apply (Hrep UploadedAdditionalInformation)
          | apply (Hrep SubmitAnswers)
          | apply (Hrep SubmitAdditionalInformation)
          | apply (Hrep AnalyzeNewFiles) ].
Qed.

Lemma keeps_workflow_tabs_other b fuel ui a msgs names :
  a_id a <> b ->
  keeps (same_chat_at b) (workflow_tabs client str_format fuel ui a msgs names).
Proof.
  intros Hne. unfold workflow_tabs.
  apply keeps_bind; [apply _|apply keeps_current_chat; apply _|intros c].
  destruct (take _ _); [apply keeps_raise; apply _|].
  apply keeps_for_enumerate; [apply _|]. intros j phase content.
  by apply keeps_tab_body_other.
Qed.

Lemma keeps_plain_chat_other b fuel ui a :
  a_id a <> b -> keeps (same_chat_at b) (plain_chat client fuel ui a).
Proof. intros Hne. unfold plain_chat. other. Qed.

Lemma chat_section_other b fuel ui e a :
  assistant (session e) = Some a ->
  a_id a <> b ->
  same_chat_at b e
    (snd (chat_section client MESSAGES PHASE_NAMES PITCH_DECK_MESSAGES
            PITCH_DECK_PHASE_NAMES str_format fuel ui e)).
Proof.
  intros Ha Hne. unfold chat_section.
  rewrite (bind_val get_session _ e _ e eq_refl).
  destruct (assistants (session e)); [by split|].
  rewrite Ha.
  match goal with |- same_chat_at b e (snd (?m e)) =>
    assert (H : keeps (same_chat_at b) m); [|apply H] end.
  apply keeps_bind; [apply _| |intros _].
  - destruct (_ !! _); [apply keeps_ret; apply _|].
    intros e0. split; [|done]. unfold chat_of. simpl.
    by apply lookup_insert_ne.
  - pose proof (keeps_advance_other b SubmitCompanyName fuel ui a
                  PITCH_DECK_MESSAGES PITCH_DECK_PHASE_NAMES Hne) as Hs.
    simpl in Hs.
    destruct (is_type a "Grant Assistant");
      [by apply keeps_workflow_tabs_other|].
    destruct (is_type a "Pitch Deck Creator");
      [|by apply keeps_plain_chat_other].
    apply keeps_bind; [apply _|apply keeps_current_chat; apply _|intros c].
    destruct (negb _); [|by apply keeps_workflow_tabs_other].
    destruct (st_button _ _); [exact Hs|apply keeps_ret; apply _].
Qed.

Lemma reset_chat_other b e a :
  assistant (session e) = Some a ->
  a_id a <> b ->
  same_chat_at b e (snd (reset_chat e)).
Proof.
  intros Ha Hne. unfold reset_chat.
  rewrite (bind_val get_session _ e _ e eq_refl). rewrite Ha.
  unfold chat_of.
  destruct (assistant_chat_histories (session e) !! a_id a) eqn:Hl;
    unfold same_chat_at, chat_of; simpl; rewrite ?Ha; split; try done.
  by apply lookup_insert_ne.
Qed.

(** C6, as the code has it.  Whatever chat-section runs and resets are
    made while one assistant is selected, the conversation state stored for
    any other assistant is what it was.  (The thread of the session is not
    part of that state: it is one for all assistants.) *)
Theorem operations_keep_other_conversation_states ops e a b :
  assistant (session e) = Some a ->
  a_id a <> b ->
  chat_of b
    (run_operations client MESSAGES PHASE_NAMES PITCH_DECK_MESSAGES
       PITCH_DECK_PHASE_NAMES str_format ops e)
  = chat_of b e.
Proof.
  revert e. induction ops as [|op ops IH]; intros e Ha Hne; [done|].
  simpl.
  assert (Hstep : same_chat_at b e
            (snd (run_operation client MESSAGES PHASE_NAMES
                    PITCH_DECK_MESSAGES PITCH_DECK_PHASE_NAMES str_format
                    op e))).
  { destruct op; simpl;
      [by eapply chat_section_other|by eapply reset_chat_other]. }
  destruct Hstep as [Hc Hsel].
  rewrite IH; [done| |done]. by rewrite Hsel.
Qed.

End Isolation.

(** ** The upload of a batch *)

Section Upload.

Variable client : Client.
Variable temp_dir : string.

Lemma upload_one_calls vs file e :
  calls (snd (upload_one client temp_dir vs file e))
  = calls e ++ [upload_call temp_dir vs file]
  /\ session (snd (upload_one client temp_dir vs file e)) = session e
  /\ notices (snd (upload_one client temp_dir vs file e)) = notices e.
Proof.
  destruct file; simpl; unfold upload_and_poll, bind, request;
    destruct (client _ _); done.
Qed.

Lemma upload_loop_app vs pre rest acc e :
  upload_loop client temp_dir vs (pre ++ rest) acc e
  = (let* acc' := upload_loop client temp_dir vs pre acc in
     upload_loop client temp_dir vs rest acc') e.
Proof.
  revert acc e. induction pre as [|file pre IH]; intros acc e; [done|].
  simpl. unfold bind.
  by destruct (upload_one client temp_dir vs file e) as [[batch| |x|] e1].
Qed.

(** A loop that ends well has made one upload call per file, in the order
    of the list, and nothing else. *)
Lemma upload_loop_calls vs files acc e batches e1 :
  upload_loop client temp_dir vs files acc e = (Val batches, e1) ->
  calls e1 = calls e ++ map (upload_call temp_dir vs) files
  /\ session e1 = session e
  /\ notices e1 = notices e
  /\ length batches = length acc + length files.
Proof.
  revert acc e. induction files as [|file files IH]; intros acc e; simpl.
  - intros [= <- <-]. rewrite app_nil_r. repeat split; lia.
  - unfold bind at 1.
    pose proof (upload_one_calls vs file e) as (Hc & Hs & Hn).
    destruct (upload_one client temp_dir vs file e) as [[batch| |x|] e0];
      try done.
    simpl in *. intros H. apply IH in H as (Hc' & Hs' & Hn' & Hl).
    rewrite Hc', Hc, Hs', Hs, Hn', Hn, Hl, <- app_assoc, length_app.
    simpl. repeat split; lia.
Qed.

(** C7, as the code has it.  The files are uploaded one after the other;
    when the upload of [f] raises after the files [pre] went through, the
    files [post] are not uploaded, nothing is undone, an error is shown and
    the caller gets [None]: the batches of [pre] are not returned. *)
Theorem failed_upload_aborts_batch_and_returns_none
    vs pre f post e batches e1 x e2 :
  upload_loop client temp_dir vs pre [] e = (Val batches, e1) ->
  upload_one client temp_dir vs f e1 = (Raise x, e2) ->
  upload_files_to_vector_store client temp_dir vs (pre ++ f :: post) e
  = (Val None, noticed Error ("Error uploading files: " +:+ str_exn x) e2)
  /\ calls e2 = calls e ++ map (upload_call temp_dir vs) (pre ++ [f])
  /\ session e2 = session e.
Proof.
  intros Hpre Hf. split.
  - unfold upload_files_to_vector_store, try_except.
    unfold bind at 1. rewrite upload_loop_app.
    rewrite (bind_val _ _ _ _ _ Hpre). simpl.
    unfold bind at 1. by rewrite Hf.
  - apply upload_loop_calls in Hpre as (Hc & Hs & _ & _).
    pose proof (upload_one_calls vs f e1) as (Hc2 & Hs2 & _).
    rewrite Hf in Hc2, Hs2. simpl in *.
    rewrite Hc2, Hc, Hs2, Hs, map_app, app_assoc. done.
Qed.

End Upload.

(** The statement of C7 fails: the first file of the batch is attached,
    the second is refused, and what the caller gets back is [None], not a
    list with the batch of the first. *)
Lemma partial_upload_list_is_not_returned :
  let r := upload_files_to_vector_store Demo.second_upload_fails Demo.tmp
             "vs_acme" [Demo.file_a; Demo.file_b] (Demo.env_of
               (Demo.session_of [] None None [])) in
  ~ (exists partial, fst r = Val (Some partial))
  /\ Demo.second_upload_fails []
       (FileBatchesUploadAndPoll "vs_acme" "/tmp/upload/a.txt" "alpha")
     = RFileBatch "completed" "1"
  /\ calls (snd r)
     = [ FileBatchesUploadAndPoll "vs_acme" "/tmp/upload/a.txt" "alpha";
         FileBatchesUploadAndPoll "vs_acme" "/tmp/upload/b.txt" "beta" ].
Proof.
  split; [|split; vm_compute; reflexivity].
  intros [partial H]. vm_compute in H. discriminate.
Qed.

(** ** The required documents *)

Section Required.

Variable client : Client.
Variable get_assistant_instructions : string -> exn + string.
Variable getcwd : string.
Variable path_exists : string -> bool.
Variable read_file : string -> string.
Variable temp_dir : string.

(** The loop of lines 531-541 makes no call and leaves the session alone;
    its flag is true when every required file exists, and every one that
    does not is named in an error notice. *)
Lemma check_required_files_spec required files found e :
  exists files' ns,
    check_required_files getcwd path_exists read_file required files found e
    = (Val (files',
            found && forallb (fun p => path_exists (Py.path_join getcwd p))
                             required),
       mkEnv (session e) (calls e) (notices e ++ ns))
    /\ (forall p, p ∈ required ->
          path_exists (Py.path_join getcwd p) = false ->
          not_found_notice getcwd p ∈ ns).
Proof.
  revert files found e.
  induction required as [|p required IH]; intros files found e; simpl.
  - exists files, []. rewrite andb_true_r, app_nil_r. split; [by destruct e|].
    intros p Hp. by apply elem_of_nil in Hp.
  - destruct (path_exists (Py.path_join getcwd p)) eqn:Hp.
    + rewrite (bind_val (st_success _) _ _ tt _ eq_refl).
      edestruct IH as (files' & ns & -> & Hns). simpl.
      eexists files', (_ :: ns). split.
      { rewrite <- app_assoc. done. }
      intros q Hq Hmiss. apply elem_of_cons in Hq as [->|Hq]; [congruence|].
      apply elem_of_cons. right. by apply Hns.
    + rewrite (bind_val (st_error _) _ _ tt _ eq_refl).
      edestruct IH as (files' & ns & -> & Hns). simpl.
      rewrite andb_false_r.
      eexists files', (_ :: ns). split.
      { rewrite <- app_assoc. done. }
      intros q Hq Hmiss. apply elem_of_cons in Hq as [->|Hq].
      * apply elem_of_cons. by left.
      * apply elem_of_cons. right. by apply Hns.
Qed.

(** C8.  When a required file of the assistant type is not on disk, the
    attachment stops after the check: it makes no call to the service (so
    no upload, of a required file or of a chosen one), leaves the session
    as it was, names the missing path in an error notice and ends with the
    notice that required files are missing. *)
Theorem missing_required_file_stops_before_upload
    ui assistant_name assistant_type vs e p :
  p ∈ required_files_for assistant_type ->
  path_exists (Py.path_join getcwd p) = false ->
  exists ns,
    attach_documents client get_assistant_instructions getcwd path_exists
      read_file temp_dir ui assistant_name assistant_type vs e
    = (Val tt, mkEnv (session e) (calls e) (notices e ++ ns))
    /\ not_found_notice getcwd p ∈ ns
    /\ last ns
       = Some (Error,
               "Some required files are missing. Please ensure all required files are in the correct directory.").
Proof.
  intros Hp Hmiss. unfold attach_documents.
  destruct (check_required_files_spec (required_files_for assistant_type)
              (st_file_uploader ui) true e) as (files' & ns & Hrun & Hns).
  rewrite (bind_val _ _ _ _ _ Hrun).
  assert (Hall : forallb (fun p => path_exists (Py.path_join getcwd p))
                   (required_files_for assistant_type) = false).
  { apply not_true_is_false. intros Hall.
    rewrite forallb_forall in Hall.
    apply list_elem_of_In in Hp. apply Hall in Hp. congruence. }
  rewrite Hall. simpl.
  eexists (ns ++ [_]). split; [by rewrite app_assoc|].
  split; [apply elem_of_app; left; by apply Hns|apply last_snoc].
Qed.

End Required.

(** ** The selection of an assistant *)

Lemma strip_prefix_separator_none c t n :
  Py.has_char "-" (String c t) = false ->
  Py.strip_prefix " - " (String c t +:+ " - " +:+ n) = None.
Proof.
  intros H. cbn [Py.has_char] in H. apply orb_false_elim in H as [Hc Ht].
  change (String c t +:+ " - " +:+ n) with (String c (t +:+ " - " +:+ n)).
  cbn [Py.strip_prefix].
  destruct (Ascii.eqb " " c); [|done].
  destruct t as [|d t]; [done|].
  change (String d t +:+ " - " +:+ n) with (String d (t +:+ " - " +:+ n)).
  cbn [Py.has_char] in Ht. apply orb_false_elim in Ht as [Hd _].
  by rewrite Hd.
Qed.

(** Line 610 gives back the name from a label whose type has no hyphen. *)
Lemma split_once_label t n :
  Py.has_char "-" t = false ->
  Py.split_once " - " (t +:+ " - " +:+ n) = Some (t, n).
Proof.
  induction t as [|c t IH]; intros H; [done|].
  pose proof (strip_prefix_separator_none c t n H) as Hs.
  cbn [Py.has_char] in H. apply orb_false_elim in H as [_ Ht].
  change (String c t +:+ " - " +:+ n) with (String c (t +:+ " - " +:+ n)) in *.
  cbn [Py.split_once]. rewrite Hs. by rewrite (IH Ht).
Qed.

(** [List.find] returns the first element that passes the test. *)
Lemma find_first {A} (f : A -> bool) (l : list A) k a :
  l !! k = Some a -> f a = true ->
  exists j x,
    j <= k /\ l !! j = Some x /\ f x = true
    /\ (forall i b, i < j -> l !! i = Some b -> f b = false)
    /\ List.find f l = Some x.
Proof.
  revert k. induction l as [|y l IH]; intros k Hk Hf; [done|].
  simpl. destruct (f y) eqn:Hy.
  - exists 0, y. split_and!; [lia|done|done|intros; lia|done].
  - destruct k as [|k]; simpl in Hk; [congruence|].
    destruct (IH k Hk Hf) as (j & x & Hj & Hl & Hx & Hmin & Hfind).
    exists (S j), x. split_and!; [lia|done|done| |done].
    intros [|i] b Hi Hb; simpl in Hb; [congruence|].
    apply (Hmin i); [lia|done].
Qed.


(** ** The script does not tell equivalent states apart *)

Lemma chat_equiv_refl c : chat_equiv c c.
Proof. by repeat split. Qed.

Lemma session_equiv_refl s : session_equiv s s.
Proof.
  repeat split. intros b. destruct (_ !! b); constructor.
  apply chat_equiv_refl.
Qed.

Lemma env_equiv_refl e : env_equiv e e.
Proof. repeat split. apply session_equiv_refl. Qed.

Lemma truthy_opt_get_or_empty v :
  Py.truthy_opt v = Py.truthy (get_or_empty v).
Proof. by destruct v. Qed.

Lemma chat_equiv_truthy_company c1 c2 :
  chat_equiv c1 c2 ->
  Py.truthy_opt (company_name c1) = Py.truthy_opt (company_name c2).
Proof. intros (_&_&_&H&_). by rewrite !truthy_opt_get_or_empty, H. Qed.

Lemma chat_equiv_truthy_slides c1 c2 :
  chat_equiv c1 c2 ->
  Py.truthy_opt (selected_slides c1) = Py.truthy_opt (selected_slides c2).
Proof. intros (_&_&_&_&H). by rewrite !truthy_opt_get_or_empty, H. Qed.

(** Under the test of line 325 the two states hold the same slides. *)
Lemma chat_equiv_slides c1 c2 :
  chat_equiv c1 c2 ->
  Py.truthy_opt (selected_slides c1) = true ->
  selected_slides c1 = selected_slides c2.
Proof.
  intros (_&_&_&_&H) Ht. unfold get_or_empty in H.
  destruct (selected_slides c1) as [x|], (selected_slides c2) as [y|];
    simpl in *; subst; done.
Qed.

Section Rel.

Lemma rel_ret {A} (RA : A -> A -> Prop) a b : RA a b -> rel RA (ret a) (ret b).
Proof. intros H e1 e2 He. by split. Qed.

Lemma rel_raise {A} (RA : A -> A -> Prop) x : rel RA (raise x) (raise x).
Proof. intros e1 e2 He. by split. Qed.

Lemma rel_rerun {A} (RA : A -> A -> Prop) : rel RA st_rerun st_rerun.
Proof. intros e1 e2 He. by split. Qed.

Lemma rel_out_of_fuel {A} (RA : A -> A -> Prop) :
  rel RA out_of_fuel out_of_fuel.
Proof. intros e1 e2 He. by split. Qed.

Lemma rel_bind {A B} (RA : A -> A -> Prop) (RB : B -> B -> Prop)
    (m1 m2 : M A) (k1 k2 : A -> M B) :
  rel RA m1 m2 ->
  (forall a b, RA a b -> rel RB (k1 a) (k2 b)) ->
  rel RB (bind m1 k1) (bind m2 k2).
Proof.
  intros Hm Hk e1 e2 He. unfold bind.
  destruct (Hm e1 e2 He) as [Ho He'].
  destruct (m1 e1) as [[a| |x|] e1'], (m2 e2) as [[b| |y|] e2'];
    simpl in *; try done.
  by apply Hk.
Qed.

Lemma rel_try_except {A} (RA : A -> A -> Prop) (m1 m2 : M A)
    (h1 h2 : exn -> M A) :
  rel RA m1 m2 ->
  (forall x, rel RA (h1 x) (h2 x)) ->
  rel RA (try_except m1 h1) (try_except m2 h2).
Proof.
  intros Hm Hh e1 e2 He. unfold try_except.
  destruct (Hm e1 e2 He) as [Ho He'].
  destruct (m1 e1) as [[a| |x|] e1'], (m2 e2) as [[b| |y|] e2'];
    simpl in *; try done.
  subst y. by apply Hh.
Qed.

Lemma rel_get_session : rel session_equiv get_session get_session.
Proof. intros e1 e2 He. split; [apply He|done]. Qed.

Lemma rel_notice l msg : rel eq (st_notice l msg) (st_notice l msg).
Proof.
  intros e1 e2 (Hc & Hn & Hs). split; [done|].
  split; [done|]. split; [|done]. simpl. by rewrite Hn.
Qed.

Lemma rel_request client c : rel eq (request client c) (request client c).
Proof.
  intros e1 e2 (Hc & Hn & Hs). unfold request. rewrite Hc.
  destruct (client (calls e2) c); (split; [done|]); by split.
Qed.

Lemma rel_modify_session f1 f2 :
  (forall s1 s2, session_equiv s1 s2 -> session_equiv (f1 s1) (f2 s2)) ->
  rel eq (modify_session f1) (modify_session f2).
Proof.
  intros Hf e1 e2 (Hc & Hn & Hs). split; [done|].
  split; [done|]. split; [done|]. by apply Hf.
Qed.

Lemma rel_getitem {A} (xs : list A) i : rel eq (getitem xs i) (getitem xs i).
Proof.
  unfold getitem. destruct (xs !! i); [by apply rel_ret|apply rel_raise].
Qed.

Lemma rel_getitem_int {A} (xs : list A) z :
  rel eq (getitem_int xs z) (getitem_int xs z).
Proof.
  unfold getitem_int. destruct (_ <? 0)%Z; [apply rel_raise|apply rel_getitem].
Qed.

Lemma rel_getkey v : rel eq (getkey v) (getkey v).
Proof. destruct v; [by apply rel_ret|apply rel_raise]. Qed.

Lemma rel_current_chat aid :
  rel chat_equiv (current_chat aid) (current_chat aid).
Proof.
  intros e1 e2 He. unfold current_chat, bind, get_session.
  pose proof He as (_ & _ & (_&_&_&_&Hh)). specialize (Hh aid).
  destruct (assistant_chat_histories (session e1) !! aid) as [c1|],
    (assistant_chat_histories (session e2) !! aid) as [c2|];
    inversion Hh; subst; by split.
Qed.

Lemma session_equiv_insert aid c1 c2 s1 s2 :
  chat_equiv c1 c2 ->
  session_equiv s1 s2 ->
  session_equiv
    (set_histories (<[aid := c1]> (assistant_chat_histories s1)) s1)
    (set_histories (<[aid := c2]> (assistant_chat_histories s2)) s2).
Proof.
  intros Hc (?&?&?&?&Hh). repeat split; try done. simpl. intros b.
  destruct (decide (aid = b)) as [->|Hne].
  - rewrite !lookup_insert_eq. by constructor.
  - rewrite !lookup_insert_ne by done. apply Hh.
Qed.

Lemma rel_update_chat aid f1 f2 :
  (forall c1 c2, chat_equiv c1 c2 -> chat_equiv (f1 c1) (f2 c2)) ->
  rel eq (update_chat aid f1) (update_chat aid f2).
Proof.
  intros Hf. unfold update_chat.
  eapply rel_bind; [apply rel_current_chat|]. intros c1 c2 Hc.
  apply rel_modify_session. intros s1 s2 Hs.
  apply session_equiv_insert; [by apply Hf|done].
Qed.

Lemma rel_setitem aid i entry :
  rel eq (setitem_conversation aid i entry) (setitem_conversation aid i entry).
Proof.
  unfold setitem_conversation.
  eapply rel_bind; [apply rel_current_chat|]. intros c1 c2 Hc.
  destruct Hc as (H1 & H2 & H3 & H4 & H5). rewrite H2.
  destruct (decide _); [|apply rel_raise].
  apply rel_update_chat. intros d1 d2 (?&?&?&?&?). by repeat split.
Qed.

Lemma rel_for_enumerate body1 body2 i entries :
  (forall j phase content,
     rel eq (body1 j phase content) (body2 j phase content)) ->
  rel eq (for_enumerate body1 i entries) (for_enumerate body2 i entries).
Proof.
  intros Hbody. revert i.
  induction entries as [|[phase content] rest IH]; intros i; simpl.
  - by apply rel_ret.
  - eapply rel_bind; [apply Hbody|]. intros _ _ _. apply IH.
Qed.

End Rel.

(** A function of a conversation state that does not tell equivalent
    states apart. *)
Ltac respects :=
  let d1 := fresh "d" in
  let d2 := fresh "d" in
  intros d1 d2 (?&?&?&?&?);
  unfold chat_equiv, append_conversation, increment_message_index,
    set_message_index, set_company_name, set_selected_slides,
    set_chat_history, set_conversation_history; simpl;
  split_and!; congruence.

Ltac rel_leaf :=
  first
    [ apply rel_current_chat | apply rel_request | apply rel_notice
    | apply rel_getitem | apply rel_getitem_int | apply rel_getkey
    | apply rel_setitem | apply rel_raise | apply rel_rerun
    | apply rel_out_of_fuel
    | apply (rel_ret eq); reflexivity
    | apply rel_ret; reflexivity
    | apply rel_update_chat; respects
    | assumption ].

(** The fields of [c1] that equivalence makes equal to those of [c2]. *)
Ltac use_chat_equiv H :=
  let H1 := fresh "Hch" in
  let H2 := fresh "Hcv" in
  let H3 := fresh "Hmi" in
  pose proof H as (H1 & H2 & H3 & _ & _);
  rewrite ?H1, ?H2, ?H3.

Ltac rel_step :=
  first
    [ rel_leaf
    | match goal with
      | |- forall a b, _ -> rel _ _ _ =>
          let a := fresh "a" in
          let b := fresh "b" in
          let H := fresh "Hab" in
          intros a b H;
          first [ subst b | subst a | use_chat_equiv H | idtac ]
      | |- rel _ (bind _ _) (bind _ _) => eapply rel_bind
      | |- rel _ (try_except _ _) (try_except _ _) =>
          eapply rel_try_except; [ | intros ? ]
      | |- rel _ (match ?x with _ => _ end) (match ?x with _ => _ end) =>
          destruct x
      end ].

(** [known] solves the calls of functions already treated. *)
Ltac rel_with known := repeat first [ known | rel_step ].

Ltac rel_auto := rel_with fail.

Section Respect.

Variable client : Client.
Variables MESSAGES PHASE_NAMES : list string.
Variables PITCH_DECK_MESSAGES PITCH_DECK_PHASE_NAMES : list string.
Variable str_format : string -> string -> string -> exn + string.

Lemma rel_session_thread_id : rel eq session_thread_id session_thread_id.
Proof.
  unfold session_thread_id.
  eapply rel_bind; [apply rel_get_session|]. intros s1 s2 (_&_&Ht&_).
  rewrite Ht. rel_auto.
Qed.

Lemma rel_wait_for_run fuel run :
  rel eq (wait_for_run client fuel run) (wait_for_run client fuel run).
Proof.
  revert run. induction fuel as [|fuel IH]; intros run; simpl;
    (destruct (negb _); [|by apply rel_ret]).
  - apply rel_out_of_fuel.
  - unfold runs_retrieve.
    rel_with ltac:(first [apply rel_session_thread_id | apply IH]).
Qed.

Lemma rel_chat fuel aid message :
  rel eq (chat_with_assistant client fuel aid message)
         (chat_with_assistant client fuel aid message).
Proof.
  unfold chat_with_assistant, st_error.
  apply rel_try_except; [|intros x; rel_auto].
  eapply rel_bind; [apply rel_get_session|]. intros s1 s2 (_&_&Ht&_).
  rewrite Ht.
  eapply rel_bind.
  { instantiate (1 := eq). destruct (thread_id s2); [rel_auto|].
    unfold threads_create.
    eapply rel_bind; [rel_auto|intros t ? <-].
    apply rel_modify_session. intros x1 x2 (?&?&?&?&?). by repeat split. }
  intros _ _ _.
  unfold messages_create, runs_create, messages_list.
  rel_with ltac:(first [apply rel_session_thread_id | apply rel_wait_for_run]).
Qed.

Ltac rel_script :=
  rel_with ltac:(first [ apply rel_chat | apply rel_session_thread_id ]).

Lemma bind_run {A B} (m : M A) (k : A -> M B) e o e' :
  m e = (o, e') ->
  bind m k e
  = match o with
    | Val a => k a e'
    | Rerun => (Rerun, e')
    | Raise x => (Raise x, e')
    | OutOfFuel => (OutOfFuel, e')
    end.
Proof. intros H. unfold bind. by rewrite H. Qed.

(** [current_chat] changes nothing, and gives the state stored. *)
Lemma current_chat_reads aid e o e' :
  current_chat aid e = (o, e') ->
  e' = e /\ (forall c, o = Val c -> chat_of aid e = Some c).
Proof.
  unfold current_chat, bind, get_session, chat_of.
  destruct (_ !! _); intros [= <- <-]; (split; [done|]); by intros ? [= ->].
Qed.

Lemma rel_str_format (r : exn + string) :
  rel eq match r with inr m => ret m | inl x => raise x end
         match r with inr m => ret m | inl x => raise x end.
Proof. destruct r; rel_auto. Qed.

Lemma rel_submit_company_name fuel ui a msgs names :
  rel eq (submit_company_name client str_format fuel ui a msgs names)
         (submit_company_name client str_format fuel ui a msgs names).
Proof.
  unfold submit_company_name, st_success, st_warning.
  rel_with ltac:(first [ apply rel_chat | apply rel_str_format ]).
Qed.

Lemma rel_next_phase fuel a msgs names :
  rel eq (next_phase client fuel a msgs names)
         (next_phase client fuel a msgs names).
Proof. unfold next_phase, st_error. rel_script. Qed.

Lemma rel_draft fuel a msgs names :
  rel eq (draft_pitchdeck_slides client fuel a msgs names)
         (draft_pitchdeck_slides client fuel a msgs names).
Proof. unfold draft_pitchdeck_slides, st_error. rel_script. Qed.

Lemma rel_regenerate fuel a i phase message :
  rel eq (regenerate client fuel a i phase message)
         (regenerate client fuel a i phase message).
Proof. unfold regenerate. rel_script. Qed.

Lemma rel_replace_phase b fuel ui a i phase :
  rel eq (replace_phase client b fuel ui a i phase)
         (replace_phase client b fuel ui a i phase).
Proof.
  destruct b; simpl;
    unfold submit_additional_slides, uploaded_additional_information,
      submit_answers, submit_additional_information, analyze_new_files,
      st_warning;
    rel_with ltac:(apply rel_regenerate).
Qed.

(** "Proceed with Selected Slides" reads the key ['selected_slides']
    without [.get]; the button is on the page when the slides are set. *)
Lemma proceed_respects fuel a msgs names e1 e2 :
  env_equiv e1 e2 ->
  slides_selected (a_id a) e1 ->
  outcome_rel eq
    (fst (proceed_with_selected_slides client str_format fuel a msgs names e1))
    (fst (proceed_with_selected_slides client str_format fuel a msgs names e2))
  /\ env_equiv
       (snd (proceed_with_selected_slides client str_format fuel a msgs names
               e1))
       (snd (proceed_with_selected_slides client str_format fuel a msgs names
               e2)).
Proof.
  intros He (c1 & Hc1 & Ht). unfold proceed_with_selected_slides.
  pose proof (rel_current_chat (a_id a) e1 e2 He) as [Ho _].
  rewrite (current_chat_eq _ _ _ Hc1) in Ho.
  destruct (current_chat (a_id a) e2) as [[c2| |x|] e2'] eqn:Hc2;
    simpl in Ho; try done.
  pose proof (current_chat_reads _ _ _ _ Hc2) as [-> _].
  rewrite (bind_val _ _ _ _ _ (current_chat_eq _ _ _ Hc1)).
  rewrite (bind_val _ _ _ _ _ Hc2).
  pose proof (chat_equiv_slides _ _ Ho Ht) as Hs.
  destruct Ho as (_ & _ & Hmi & _ & _). rewrite Hs, Hmi.
  revert He.
  match goal with |- env_equiv e1 e2 -> outcome_rel _ (fst (?m e1)) _ /\ _ =>
    generalize e1 e2; change (rel eq m m) end.
  rel_with ltac:(first [ apply rel_chat | apply rel_str_format ]).
Qed.

Lemma env_equiv_noticed l msg e1 e2 :
  env_equiv e1 e2 -> env_equiv (noticed l msg e1) (noticed l msg e2).
Proof. intros (Hc & Hn & Hs). unfold noticed. split_and!; simpl; congruence. Qed.

Lemma rel_slide_suggestion_tab fuel ui a msgs names i phase :
  rel eq (slide_suggestion_tab client str_format fuel ui a msgs names i phase)
         (slide_suggestion_tab client str_format fuel ui a msgs names i phase).
Proof.
  unfold slide_suggestion_tab.
  eapply rel_bind; [instantiate (1 := eq); rel_auto|intros _ _ _].
  eapply rel_bind; [instantiate (1 := eq); rel_auto|intros _ _ _].
  eapply rel_bind;
    [instantiate (1 := eq);
     destruct (st_button _ _);
     [apply (rel_replace_phase SubmitAdditionalSlides _ ui)|rel_auto]
    |intros _ _ _].
  intros e1 e2 He.
  pose proof (rel_current_chat (a_id a) e1 e2 He) as [Ho _].
  destruct (current_chat (a_id a) e1) as [o1 e1'] eqn:Hc1.
  destruct (current_chat (a_id a) e2) as [o2 e2'] eqn:Hc2.
  pose proof (current_chat_reads _ _ _ _ Hc1) as [-> Hr1].
  pose proof (current_chat_reads _ _ _ _ Hc2) as [-> Hr2].
  rewrite (bind_run _ _ _ _ _ Hc1), (bind_run _ _ _ _ _ Hc2).
  destruct o1 as [c1| |x1|], o2 as [c2| |x2|]; simpl in Ho; try done;
    try (by split).
  rewrite <- (chat_equiv_truthy_slides _ _ Ho).
  destruct (Py.truthy_opt (selected_slides c1)) eqn:Ht; [|by split].
  rewrite <- (chat_equiv_slides _ _ Ho Ht).
  destruct (selected_slides c1) as [slides|] eqn:Hsl; [|by simpl in Ht].
  simpl getkey.
  rewrite !(bind_val (ret slides) _ _ slides _ eq_refl).
  rewrite !(bind_val (st_success _) _ _ tt _ eq_refl).
  destruct (st_button ui BtnProceedWithSelectedSlides).
  - apply proceed_respects; [by apply env_equiv_noticed|].
    exists c1. split; [by apply Hr1|by rewrite Hsl].
  - split; [done|]. by apply env_equiv_noticed.
Qed.

Lemma rel_tab_body fuel ui a msgs names n i phase content :
  rel eq (tab_body client str_format fuel ui a msgs names n i phase content)
         (tab_body client str_format fuel ui a msgs names n i phase content).
Proof.
  unfold tab_body. destruct (decide _); [|apply rel_raise]. cbv zeta.
  destruct (_ && _).
  { eapply rel_bind; [apply rel_current_chat|]. intros c1 c2 Hc.
    use_chat_equiv Hc.
    destruct (_ =? _)%Z; [|by apply rel_ret].
    destruct (st_button _ _); [apply rel_next_phase|by apply rel_ret]. }
  destruct (_ && _); [apply rel_slide_suggestion_tab|].
  destruct (_ && _).
  { unfold information_evaluation_tab.
    eapply rel_bind;
      [instantiate (1 := eq); destruct (st_button _ _);
       [apply (rel_replace_phase UploadedAdditionalInformation _ ui)
       |by apply rel_ret]
      |intros _ _ _].
    eapply rel_bind;
      [instantiate (1 := eq); destruct (st_button _ _);
       [apply (rel_replace_phase SubmitAnswers _ ui)|by apply rel_ret]
      |intros _ _ _].
    destruct (st_button _ _); [apply rel_draft|by apply rel_ret]. }
  destruct (_ && _); [|by apply rel_ret].
  unfold draft_slide_generation_tab.
  eapply rel_bind;
    [instantiate (1 := eq); destruct (st_button _ _);
     [apply (rel_replace_phase SubmitAdditionalInformation _ ui)
     |by apply rel_ret]
    |intros _ _ _].
  eapply rel_bind; [apply rel_notice|intros _ _ _].
  destruct (st_button _ _);
    [apply (rel_replace_phase AnalyzeNewFiles _ ui)|by apply rel_ret].
Qed.

Lemma rel_workflow_tabs fuel ui a msgs names :
  rel eq (workflow_tabs client str_format fuel ui a msgs names)
         (workflow_tabs client str_format fuel ui a msgs names).
Proof.
  unfold workflow_tabs.
  eapply rel_bind; [apply rel_current_chat|]. intros c1 c2 Hc.
  use_chat_equiv Hc. simpl.
  destruct (take _ _); [apply rel_raise|].
  apply rel_for_enumerate. intros j phase content. apply rel_tab_body.
Qed.

Lemma rel_plain_chat fuel ui a :
  rel eq (plain_chat client fuel ui a) (plain_chat client fuel ui a).
Proof. unfold plain_chat. rel_script. Qed.

(** The chat section does not tell equivalent environments apart. *)
Lemma rel_chat_section fuel ui :
  rel eq
    (chat_section client MESSAGES PHASE_NAMES PITCH_DECK_MESSAGES
       PITCH_DECK_PHASE_NAMES str_format fuel ui)
    (chat_section client MESSAGES PHASE_NAMES PITCH_DECK_MESSAGES
       PITCH_DECK_PHASE_NAMES str_format fuel ui).
Proof.
  unfold chat_section, st_warning, st_info.
  eapply rel_bind; [apply rel_get_session|].
  intros s1 s2 Hs. pose proof Hs as (Hl & Ha & _ & _ & Hh).
  rewrite Hl, Ha.
  destruct (assistants s2); [rel_auto|].
  destruct (assistant s2) as [sel|]; [|rel_auto].
  eapply rel_bind.
  { instantiate (1 := eq). specialize (Hh (a_id sel)).
    destruct (assistant_chat_histories s1 !! a_id sel),
      (assistant_chat_histories s2 !! a_id sel); inversion Hh; subst;
      [rel_auto|].
    apply rel_modify_session. intros x1 x2 Hx.
    apply session_equiv_insert; [apply chat_equiv_refl|done]. }
  intros _ _ _.
  destruct (is_type sel "Grant Assistant"); [apply rel_workflow_tabs|].
  destruct (is_type sel "Pitch Deck Creator"); [|apply rel_plain_chat].
  eapply rel_bind; [apply rel_current_chat|]. intros c1 c2 Hc.
  rewrite (chat_equiv_truthy_company _ _ Hc).
  destruct (negb _); [|apply rel_workflow_tabs].
  destruct (st_button _ _); [apply rel_submit_company_name|rel_auto].
Qed.

End Respect.

(** ** The calls made so far are never taken back *)

#[local] Instance calls_grow_preorder : PreOrder calls_grow.
Proof.
  split.
  - intros e. unfold calls_grow. done.
  - intros e1 e2 e3. unfold calls_grow. by etrans.
Qed.

Lemma grow_notice l msg : keeps calls_grow (st_notice l msg).
Proof. intros e. unfold calls_grow. done. Qed.

Lemma grow_modify_session f : keeps calls_grow (modify_session f).
Proof. intros e. unfold calls_grow. done. Qed.

Lemma grow_request client c : keeps calls_grow (request client c).
Proof.
  intros e. unfold request, calls_grow.
  destruct (client (calls e) c); simpl; by apply prefix_app_r.
Qed.

Ltac grow :=
  repeat first
    [ apply grow_notice | apply grow_modify_session | apply grow_request
    | frame_step ].

Lemma bind_assoc {A B C} (m : M A) (f : A -> M B) (g : B -> M C) e :
  bind (bind m f) g e = bind m (fun a => bind (f a) g) e.
Proof. unfold bind. by destruct (m e) as [[a| |x|] e1]. Qed.

Section Reset.

Variable client : Client.
Variables MESSAGES PHASE_NAMES : list string.
Variables PITCH_DECK_MESSAGES PITCH_DECK_PHASE_NAMES : list string.
Variable str_format : string -> string -> string -> exn + string.

Lemma grow_wait_for_run fuel run :
  keeps calls_grow (wait_for_run client fuel run).
Proof.
  revert run. induction fuel as [|fuel IH]; intros run; simpl;
    destruct (negb _); unfold session_thread_id, runs_retrieve; grow;
    apply IH.
Qed.

Lemma grow_chat fuel aid message :
  keeps calls_grow (chat_with_assistant client fuel aid message).
Proof.
  unfold chat_with_assistant, session_thread_id, threads_create,
    messages_create, runs_create, messages_list, st_error.
  grow; apply grow_wait_for_run.
Qed.

(** Without a thread in the session, the first call of a chat creates
    one. *)
Lemma chat_creates_thread fuel aid message e :
  thread_id (session e) = None ->
  exists rest,
    calls (snd (chat_with_assistant client fuel aid message e))
    = calls e ++ ThreadsCreate :: rest.
Proof.
  intros Ht.
  assert (Hgrow : calls_grow
            (snd (request client ThreadsCreate e))
            (snd (chat_with_assistant client fuel aid message e))).
  { unfold chat_with_assistant, try_except.
    rewrite (bind_val get_session _ e _ e eq_refl), Ht.
    unfold threads_create. rewrite !bind_assoc.
    match goal with |- context [bind (request client ThreadsCreate) ?k e] =>
      assert (Hk : forall r, keeps calls_grow (k r)) end.
    { intros r. unfold session_thread_id, messages_create, runs_create,
        messages_list. grow; apply grow_wait_for_run. }
    unfold bind at 1.
    destruct (request client ThreadsCreate e) as [[r| |x|] e1]; simpl.
    - specialize (Hk r e1). cbv beta in Hk.
      match goal with |- calls_grow e1 (snd (let (o, e') := ?m in _)) =>
        destruct m as [[v| |x'|] e2] end;
        unfold calls_grow in *; simpl in *; done.
    - by unfold calls_grow.
    - by unfold calls_grow.
    - by unfold calls_grow. }
  destruct Hgrow as [rest Hrest]. exists rest. rewrite Hrest.
  unfold request. destruct (client (calls e) ThreadsCreate); simpl;
    by rewrite <- app_assoc.
Qed.

Lemma outcome_rel_eq {A} (o1 o2 : outcome A) : outcome_rel eq o1 o2 -> o1 = o2.
Proof. destruct o1, o2; simpl; try done; by intros ->. Qed.

Lemma env_equiv_with_chat aid c1 c2 e :
  chat_equiv c1 c2 -> env_equiv (with_chat aid c1 e) (with_chat aid c2 e).
Proof.
  intros Hc. split; [done|]. split; [done|].
  apply session_equiv_insert; [done|apply session_equiv_refl].
Qed.

(** The effect of "Reset Conversation" on the selected assistant. *)
Lemma reset_chat_eq e a c :
  assistant (session e) = Some a ->
  chat_of (a_id a) e = Some c ->
  reset_chat e
  = (Val tt,
     noticed Success
       "Chat history and thread have been reset for the current assistant."
       (mkEnv (set_thread_id None (session (with_chat (a_id a)
                                              reset_chat_value e)))
              (calls e) (notices e))).
Proof.
  intros Ha Hc. unfold reset_chat.
  rewrite (bind_val get_session _ e _ e eq_refl), Ha.
  unfold chat_of in Hc. rewrite Hc. done.
Qed.

(** C9.  "Reset Conversation" with an assistant selected that has a
    conversation state, whatever that state holds: the state becomes index
    0, empty history, no company name and no selected slides; the thread of
    the session is dropped, so that the first call of the next chat creates
    a new one; and the next run of the chat section does what it would do
    had the state just been created by lines 240-246: the same outcome, the
    same calls and notices, and states that the script cannot tell
    apart. *)
Theorem reset_chat_returns_to_start fuel ui e a c :
  assistant (session e) = Some a ->
  chat_of (a_id a) e = Some c ->
  let e' := snd (reset_chat e) in
  let run := chat_section client MESSAGES PHASE_NAMES PITCH_DECK_MESSAGES
               PITCH_DECK_PHASE_NAMES str_format fuel ui in
  chat_of (a_id a) e' = Some reset_chat_value
  /\ message_index reset_chat_value = 0
  /\ conversation_history reset_chat_value = []
  /\ thread_id (session e') = None
  /\ (forall aid message,
        exists rest,
          calls (snd (chat_with_assistant client fuel aid message e'))
          = calls e' ++ ThreadsCreate :: rest)
  /\ fst (run e') = fst (run (with_chat (a_id a) fresh_chat e'))
  /\ env_equiv (snd (run e')) (snd (run (with_chat (a_id a) fresh_chat e'))).
Proof.
  intros Ha Hc e' run. subst e' run. rewrite (reset_chat_eq _ _ _ Ha Hc).
  cbn [snd]. set (e' := noticed _ _ _).
  assert (Hc' : chat_of (a_id a) e' = Some reset_chat_value).
  { unfold chat_of. simpl. apply lookup_insert_eq. }
  split; [done|]. split; [done|]. split; [done|]. split; [done|].
  split; [intros aid message; by apply chat_creates_thread|].
  assert (He : env_equiv e' (with_chat (a_id a) fresh_chat e')).
  { replace e' with (with_chat (a_id a) reset_chat_value e') at 1.
    - apply env_equiv_with_chat. by repeat split.
    - unfold with_chat, e', noticed, set_histories. simpl.
      by rewrite insert_insert_eq. }
  destruct (rel_chat_section client MESSAGES PHASE_NAMES PITCH_DECK_MESSAGES
              PITCH_DECK_PHASE_NAMES str_format fuel ui _ _ He) as [Ho Hs].
  split; [by apply outcome_rel_eq|done].
Qed.

End Reset.

(** ** A service that is down *)



Lemma session_thread_id_eq e t :
  thread_id (session e) = Some t -> session_thread_id e = (Val t, e).
Proof.
  intros H. unfold session_thread_id.
  rewrite (bind_val get_session _ e _ e eq_refl). by rewrite H.
Qed.


(** ** The chat section keeps the conversation states well formed *)

#[local] Instance tabs_rel_preorder n aid : PreOrder (tabs_rel n aid).
Proof.
  split.
  - intros e (?&?&?). split_and!; try done. intros c Hc. by exists c.
  - intros e1 e2 e3 H12 H23 H.
    destruct (H12 H) as (Hw2 & Hn2 & Hb2 & Hg12).
    destruct (H23 (conj Hw2 (conj Hn2 Hb2))) as (Hw3 & Hn3 & Hb3 & Hg23).
    split_and!; try done. intros c Hc.
    destruct (Hg12 c Hc) as (c2 & Hc2 & Hle2).
    destruct (Hg23 c2 Hc2) as (c3 & Hc3 & Hle3).
    exists c3. split; [done|lia].
Qed.

#[local] Instance tabs_rel_session_only n aid : SessionOnly (tabs_rel n aid).
Proof.
  intros e cs ns (?&?&?). split_and!; try done. intros c Hc. by exists c.
Qed.

Lemma wf_fresh_chat : wf_chat fresh_chat.
Proof. split; [done|]. by intros _. Qed.

Lemma wf_reset_chat_value : wf_chat reset_chat_value.
Proof. split; [done|]. by intros _. Qed.

Lemma all_wf_with_chat aid c e :
  wf_chat c -> all_wf e -> all_wf (with_chat aid c e).
Proof.
  intros Hc He id d. destruct (decide (aid = id)) as [<-|Hne].
  - rewrite chat_of_with_chat. by intros [= <-].
  - rewrite chat_of_with_chat_ne by done. apply He.
Qed.

Lemma all_wf_same_chats e e' : same_chats e e' -> all_wf e -> all_wf e'.
Proof.
  intros Hs He id c. rewrite (chat_of_same_chats _ _ _ Hs). apply He.
Qed.

Lemma named_at_same_chats aid e e' :
  same_chats e e' -> named_at aid e -> named_at aid e'.
Proof.
  intros Hs (c & Hc & Ht). exists c. by rewrite (chat_of_same_chats _ _ _ Hs).
Qed.

Lemma wf_advanced label reply c :
  wf_chat c -> Py.truthy_opt (company_name c) = true ->
  wf_chat (advanced label reply c).
Proof.
  intros [Hl Hs] Ht. split.
  - simpl. rewrite length_app. simpl. lia.
  - intros Hf. simpl in Hf. congruence.
Qed.

Lemma wf_replaced i entry c :
  wf_chat c ->
  wf_chat
    (set_conversation_history (<[i := entry]> (conversation_history c)) c).
Proof.
  intros [Hl Hs]. split.
  - simpl. by rewrite length_insert.
  - intros Hf. simpl in *. destruct (Hs Hf) as [H0 Hnil].
    split; [done|]. rewrite Hnil. by destruct i.
Qed.

Section WellFormed.

Variable client : Client.
Variables MESSAGES PHASE_NAMES : list string.
Variables PITCH_DECK_MESSAGES PITCH_DECK_PHASE_NAMES : list string.
Variable str_format : string -> string -> string -> exn + string.

(** One chat call inside an interaction, with what it leaves alone. *)
Ltac chat_effect fuel aid message e0 Hc0 :=
  unfold bind at 1;
  let Hk := fresh "Hk" in
  let Hr := fresh "Hr" in
  pose proof (chat_with_assistant_keeps client fuel aid message e0) as Hk;
  pose proof (chat_with_assistant_returns client fuel aid message e0) as Hr;
  destruct (chat_with_assistant client fuel aid message e0)
    as [o e1] eqn:Hchat;
  simpl in Hk, Hr;
  pose proof (eq_trans (chat_of_same_chats aid _ _ Hk) Hc0) as Hc1;
  destruct o as [resp| |x|]; try done.

Lemma same_chats_noticed l msg e e' :
  same_chats e e' -> same_chats e (noticed l msg e').
Proof. done. Qed.

(** The effect of "Next Phase": the script reruns with the phase appended
    to the state found, or nothing but the thread has changed. *)
Lemma next_phase_effect fuel a msgs names e c r e' :
  chat_of (a_id a) e = Some c ->
  next_phase client fuel a msgs names e = (r, e') ->
  (r = Rerun /\
     exists label reply e1,
       same_chats e e1
       /\ message_index c < length msgs
       /\ names !! message_index c = Some label
       /\ e' = with_chat (a_id a) (advanced label reply c) e1)
  \/ (r <> Rerun /\ same_chats e e').
Proof.
  intros Hc. unfold next_phase.
  rewrite (bind_val _ _ _ _ _ (current_chat_eq _ _ _ Hc)).
  destruct (Nat.ltb_spec (message_index c) (length msgs)) as [Hlt|Hge];
    [|intros [= <- <-]; by right].
  destruct (lookup_lt_is_Some_2 msgs _ Hlt) as [message Hm].
  unfold getitem at 1. rewrite Hm.
  rewrite (bind_val _ _ e message e eq_refl).
  chat_effect fuel (a_id a) message e Hc; [|intros [= <- <-]; by right].
  destruct (if_truthy resp) as [reply|] eqn:Ht;
    [|intros [= <- <-]; by right].
  rewrite (append_and_advance_eq _ _ _ _ _ Hc1).
  destruct (names !! message_index c) as [label|] eqn:Hl;
    intros [= <- <-]; [left|by right].
  split; [done|]. by exists label, reply, e1.
Qed.

Lemma proceed_effect fuel a msgs names e c r e' :
  chat_of (a_id a) e = Some c ->
  proceed_with_selected_slides client str_format fuel a msgs names e
  = (r, e') ->
  (r = Rerun /\
     exists label reply e1,
       same_chats e e1
       /\ message_index c < length msgs
       /\ names !! message_index c = Some label
       /\ e' = with_chat (a_id a) (advanced label reply c) e1)
  \/ (r <> Rerun /\ same_chats e e').
Proof.
  intros Hc. unfold proceed_with_selected_slides.
  rewrite (bind_val _ _ _ _ _ (current_chat_eq _ _ _ Hc)).
  unfold getitem at 1.
  destruct (msgs !! message_index c) as [template|] eqn:Hm;
    [|intros [= <- <-]; by right].
  rewrite (bind_val _ _ e template e eq_refl).
  destruct (selected_slides c) as [slides|];
    [|intros [= <- <-]; by right].
  rewrite (bind_val _ _ e slides e eq_refl).
  destruct (str_format template "selected_slides" slides) as [x|message];
    [intros [= <- <-]; by right|].
  rewrite (bind_val _ _ e message e eq_refl).
  chat_effect fuel (a_id a) message e Hc; [|intros [= <- <-]; by right].
  destruct (if_truthy resp) as [reply|] eqn:Ht;
    [|intros [= <- <-]; by right].
  rewrite (append_and_advance_eq _ _ _ _ _ Hc1).
  destruct (names !! message_index c) as [label|] eqn:Hl;
    intros [= <- <-]; [left|by right].
  split; [done|]. exists label, reply, e1.
  split_and!; try done. by eapply lookup_lt_Some.
Qed.

Lemma draft_effect fuel a msgs names e c r e' :
  chat_of (a_id a) e = Some c ->
  draft_pitchdeck_slides client fuel a msgs names e = (r, e') ->
  (r = Rerun /\
     exists label reply e1,
       same_chats e e1
       /\ message_index c < length msgs
       /\ names !! Nat.min (message_index c) (length names - 1) = Some label
       /\ e' = with_chat (a_id a) (advanced label reply c) e1)
  \/ (r <> Rerun /\ same_chats e e').
Proof.
  intros Hc. unfold draft_pitchdeck_slides.
  rewrite (bind_val _ _ _ _ _ (current_chat_eq _ _ _ Hc)).
  destruct (Nat.ltb_spec (message_index c) (length msgs)) as [Hlt|Hge];
    [|intros [= <- <-]; by right].
  destruct (lookup_lt_is_Some_2 msgs _ Hlt) as [message Hm].
  unfold getitem at 1. rewrite Hm.
  rewrite (bind_val _ _ e message e eq_refl).
  chat_effect fuel (a_id a) message e Hc; [|intros [= <- <-]; by right].
  destruct (if_truthy resp) as [reply|] eqn:Ht;
    [|intros [= <- <-]; by right].
  rewrite (bind_val _ _ _ _ _ (current_chat_eq _ _ _ Hc1)).
  rewrite getitem_int_clamped. unfold getitem.
  destruct (names !! _) as [label|] eqn:Hl; [|intros [= <- <-]; by right].
  rewrite (bind_val _ _ e1 label e1 eq_refl).
  rewrite (bind_val _ _ _ _ _ (update_chat_eq _ _ _ _ Hc1)).
  rewrite (bind_val _ _ _ _ _
             (update_chat_eq _ _ _ _ (chat_of_with_chat _ _ _))).
  rewrite with_chat_twice. intros [= <- <-]. left.
  split; [done|]. by exists label, reply, e1.
Qed.

(** The effect of a regenerating button. *)
Lemma replace_phase_effect b fuel ui a i phase e c r e' :
  chat_of (a_id a) e = Some c ->
  replace_phase client b fuel ui a i phase e = (r, e') ->
  (r = Rerun /\ i < length (conversation_history c) /\
     exists reply e1,
       same_chats e e1
       /\ e' = with_chat (a_id a)
                 (set_conversation_history
                    (<[i := (phase, reply)]> (conversation_history c)) c)
                 e1)
  \/ (r <> Rerun /\ same_chats e e').
Proof.
  intros Hc H.
  destruct (replace_phase_outcome client b fuel ui a i phase e c r e' Hc H)
    as [(-> & Hi & message & reply & e1 & Hchat & _ & ->)|[Hr Hc']].
  - left. split; [done|]. split; [done|]. exists reply, e1. split; [|done].
    pose proof (chat_with_assistant_keeps client fuel (a_id a) message e).
    by rewrite Hchat in *.
  - right. split; [done|].
    assert (Hgen : forall message,
              regenerate client fuel a i phase message e = (r, e') ->
              same_chats e e').
    { intros message. unfold regenerate.
      chat_effect fuel (a_id a) message e Hc; [|by intros [= <- <-]].
      destruct (if_truthy resp) as [reply|]; [|by intros [= <- <-]].
      destruct (decide (i < length (conversation_history c))) as [Hi|Hi].
      - rewrite (bind_val _ _ _ _ _
                   (setitem_conversation_eq _ _ _ _ _ Hc1 Hi)).
        intros [= <- <-]. done.
      - unfold bind at 1.
        rewrite (setitem_conversation_out_of_range _ _ _ _ _ Hc1 Hi).
        by intros [= <- <-]. }
    destruct b; simpl in H;
      unfold submit_additional_slides, uploaded_additional_information,
        submit_answers, submit_additional_information, analyze_new_files in H;
      try (destruct (Py.truthy _); [|by injection H as <- <-]);
      by eapply Hgen.
Qed.

End WellFormed.

Section PageInvariants.

Variable client : Client.
Variables MESSAGES PHASE_NAMES : list string.
Variables PITCH_DECK_MESSAGES PITCH_DECK_PHASE_NAMES : list string.
Variable str_format : string -> string -> string -> exn + string.

Lemma tabs_rel_same_chats n aid e e' : same_chats e e' -> tabs_rel n aid e e'.
Proof.
  intros Hs (Hw & Hn & Hb). split_and!.
  - by eapply all_wf_same_chats.
  - by eapply named_at_same_chats.
  - intros c. rewrite (chat_of_same_chats _ _ _ Hs). apply Hb.
  - intros c Hc. exists c. by rewrite (chat_of_same_chats _ _ _ Hs).
Qed.

(** Storing a well-formed, named state with an index that is not smaller
    and is within the workflow. *)
Lemma tabs_rel_with_chat n aid e e1 c c' :
  same_chats e e1 ->
  chat_of aid e = Some c ->
  (wf_chat c -> Py.truthy_opt (company_name c) = true ->
   message_index c <= n ->
   wf_chat c' /\ Py.truthy_opt (company_name c') = true
   /\ message_index c <= message_index c' <= n) ->
  tabs_rel n aid e (with_chat aid c' e1).
Proof.
  intros Hs Hc Hstep (Hw & (d & Hd & Ht) & Hb).
  assert (d = c) as -> by congruence.
  destruct (Hstep (Hw _ _ Hc) Ht (Hb _ Hc)) as (Hw' & Ht' & Hle).
  split_and!.
  - apply all_wf_with_chat; [done|by eapply all_wf_same_chats].
  - exists c'. by rewrite chat_of_with_chat.
  - intros x. rewrite chat_of_with_chat. intros [= <-]. lia.
  - intros x Hx. exists c'. rewrite chat_of_with_chat. split; [done|].
    assert (x = c) as -> by congruence. lia.
Qed.

Lemma keeps_tabs_update n aid f :
  (forall c, wf_chat c -> Py.truthy_opt (company_name c) = true ->
     wf_chat (f c) /\ Py.truthy_opt (company_name (f c)) = true
     /\ message_index (f c) = message_index c) ->
  keeps (tabs_rel n aid) (update_chat aid f).
Proof.
  intros Hf e. unfold update_chat.
  destruct (chat_of aid e) as [c|] eqn:Hc.
  - rewrite (bind_val _ _ _ _ _ (current_chat_eq _ _ _ Hc)). simpl.
    apply (tabs_rel_with_chat n aid e e c (f c)); [done|done|].
    intros Hw Ht Hb. destruct (Hf c Hw Ht) as (?&?&Hi). rewrite Hi.
    split_and!; try done.
  - unfold current_chat, bind, get_session. unfold chat_of in Hc.
    rewrite Hc. simpl. reflexivity.
Qed.

Lemma keeps_tabs_set_selected_slides n aid v :
  keeps (tabs_rel n aid) (update_chat aid (set_selected_slides v)).
Proof.
  apply keeps_tabs_update. intros c [Hl Hs] Ht. by split_and!.
Qed.

Lemma keeps_tabs_advance n adv fuel ui a msgs names :
  adv <> SubmitCompanyName ->
  length msgs <= n ->
  keeps (tabs_rel n (a_id a))
        (advance client str_format adv fuel ui a msgs names).
Proof.
  intros Hadv Hn e.
  destruct (chat_of (a_id a) e) as [c|] eqn:Hc;
    [|by intros (_ & (d & Hd & _) & _); congruence].
  destruct (advance client str_format adv fuel ui a msgs names e)
    as [r e'] eqn:Hrun.
  assert (Heff :
    (exists label reply e1,
       same_chats e e1 /\ message_index c < length msgs
       /\ e' = with_chat (a_id a) (advanced label reply c) e1)
    \/ same_chats e e').
  { destruct adv; simpl in Hrun; [done| | |].
    - destruct (next_phase_effect client _ _ _ _ _ _ _ _ Hc Hrun)
        as [(_ & l & rp & e1 & ? & ? & _ & ?)|[_ ?]]; [left|by right].
      by exists l, rp, e1.
    - destruct (proceed_effect client str_format _ _ _ _ _ _ _ _ Hc Hrun)
        as [(_ & l & rp & e1 & ? & ? & _ & ?)|[_ ?]]; [left|by right].
      by exists l, rp, e1.
    - destruct (draft_effect client _ _ _ _ _ _ _ _ Hc Hrun)
        as [(_ & l & rp & e1 & ? & ? & _ & ?)|[_ ?]]; [left|by right].
      by exists l, rp, e1. }
  simpl. destruct Heff as [(label & reply & e1 & Hs & Hlt & ->)|Hs];
    [|by apply tabs_rel_same_chats].
  apply (tabs_rel_with_chat n _ e e1 c); [done|done|].
  intros Hw Ht Hb. split_and!; simpl; try lia; [by apply wf_advanced|done].
Qed.

Lemma keeps_tabs_replace n rb fuel ui a i phase :
  keeps (tabs_rel n (a_id a)) (replace_phase client rb fuel ui a i phase).
Proof.
  intros e.
  destruct (chat_of (a_id a) e) as [c|] eqn:Hc;
    [|by intros (_ & (d & Hd & _) & _); congruence].
  destruct (replace_phase client rb fuel ui a i phase e) as [r e'] eqn:Hrun.
  simpl.
  destruct (replace_phase_effect client _ _ _ _ _ _ _ _ _ _ Hc Hrun)
    as [(_ & Hi & reply & e1 & Hs & ->)|[_ Hs]];
    [|by apply tabs_rel_same_chats].
  apply (tabs_rel_with_chat n _ e e1 c); [done|done|].
  intros Hw Ht Hb. split_and!; simpl; try lia; [by apply wf_replaced|done].
Qed.

Lemma keeps_tabs_tab_body n fuel ui a msgs names k i phase content :
  length msgs <= n ->
  keeps (tabs_rel n (a_id a))
        (tab_body client str_format fuel ui a msgs names k i phase content).
Proof.
  intros Hn.
  assert (Hadv : forall adv, adv <> SubmitCompanyName ->
            keeps (tabs_rel n (a_id a))
                  (advance client str_format adv fuel ui a msgs names))
    by (intros; by apply keeps_tabs_advance).
  pose proof (Hadv NextPhase ltac:(done)) as Hnext.
  pose proof (Hadv ProceedWithSelectedSlides ltac:(done)) as Hproceed.
  pose proof (Hadv DraftPitchdeckSlides ltac:(done)) as Hdraft.
  simpl in Hnext, Hproceed, Hdraft.
  pose proof (fun rb => keeps_tabs_replace n rb fuel ui a i phase) as Hrep.
  pose proof (Hrep SubmitAdditionalSlides) as H1.
  pose proof (Hrep UploadedAdditionalInformation) as H2.
  pose proof (Hrep SubmitAnswers) as H3.
  pose proof (Hrep SubmitAdditionalInformation) as H4.
  pose proof (Hrep AnalyzeNewFiles) as H5.
  simpl in H1, H2, H3, H4, H5. clear Hadv Hrep.
  unfold tab_body. destruct (decide _); [|apply keeps_raise; apply _].
  cbv zeta.
  destruct (_ && _).
  { apply keeps_bind; [apply _|apply keeps_current_chat; apply _|intros c].
    destruct (_ =? _)%Z; [|apply keeps_ret; apply _].
    destruct (st_button _ _); [done|apply keeps_ret; apply _]. }
  destruct (_ && _).
  { unfold slide_suggestion_tab, st_success.
    repeat first
      [ assumption
      | apply keeps_tabs_set_selected_slides
      | apply keeps_current_chat; apply _
      | frame_step ]. }
  destruct (_ && _).
  { unfold information_evaluation_tab.
    repeat first [ assumption | frame_step ]. }
  destruct (_ && _); [|apply keeps_ret; apply _].
  unfold draft_slide_generation_tab, st_info.
  repeat first [ assumption | frame_step ].
Qed.

Lemma keeps_tabs_workflow_tabs n fuel ui a msgs names :
  length msgs <= n ->
  keeps (tabs_rel n (a_id a))
        (workflow_tabs client str_format fuel ui a msgs names).
Proof.
  intros Hn. unfold workflow_tabs.
  apply keeps_bind; [apply _|apply keeps_current_chat; apply _|intros c].
  destruct (take _ _); [apply keeps_raise; apply _|].
  apply keeps_for_enumerate; [apply _|]. intros j phase content.
  by apply keeps_tabs_tab_body.
Qed.

#[local] Instance same_progress_preorder : PreOrder same_progress.
Proof.
  split.
  - intros e id c Hc. by exists c.
  - intros e1 e2 e3 H12 H23 id c Hc.
    destruct (H12 id c Hc) as (c2 & Hc2 & ? & ? & ?).
    destruct (H23 id c2 Hc2) as (c3 & Hc3 & ? & ? & ?).
    exists c3. split_and!; congruence.
Qed.

#[local] Instance same_progress_session_only : SessionOnly same_progress.
Proof. intros e cs ns id c Hc. by exists c. Qed.

Lemma same_progress_same_chats e e' : same_chats e e' -> same_progress e e'.
Proof.
  intros Hs id c Hc. exists c. by rewrite (chat_of_same_chats _ _ _ Hs).
Qed.

Lemma keeps_progress_chat_history aid h :
  keeps same_progress (update_chat aid (set_chat_history h)).
Proof.
  intros e. unfold update_chat.
  destruct (chat_of aid e) as [c|] eqn:Hc.
  - rewrite (bind_val _ _ _ _ _ (current_chat_eq _ _ _ Hc)).
    change (same_progress e (with_chat aid (set_chat_history h c) e)).
    intros id d Hd. destruct (decide (aid = id)) as [<-|Hne].
    + eexists. split; [apply chat_of_with_chat|].
      assert (d = c) as -> by congruence. done.
    + exists d. by rewrite chat_of_with_chat_ne.
  - unfold current_chat, bind, get_session. unfold chat_of in Hc.
    rewrite Hc. simpl. reflexivity.
Qed.

Lemma keeps_progress_plain_chat fuel ui a :
  keeps same_progress (plain_chat client fuel ui a).
Proof.
  unfold plain_chat.
  repeat first
    [ apply keeps_progress_chat_history
    | apply keeps_current_chat; apply _
    | eapply keeps_weaken;
        [apply same_progress_same_chats|apply chat_with_assistant_keeps]
    | frame_step ].
Qed.

Lemma page_step_same_progress n aid e e' :
  same_progress e e' ->
  (forall id, chat_of id e = None -> chat_of id e' = None) ->
  all_wf e -> within n aid e -> page_step n aid e e'.
Proof.
  intros Hp Hnone Hw Hb. split_and!.
  - intros id c' Hc'. destruct (chat_of id e) as [c|] eqn:Hc.
    + destruct (Hp id c Hc) as (d & Hd & Hi & Hh & Hco).
      assert (d = c') as -> by congruence.
      destruct (Hw id c Hc) as [Hl Hs]. split; [congruence|].
      intros Hf. rewrite Hco in Hf. rewrite Hi, Hh. by apply Hs.
    + rewrite (Hnone id Hc) in Hc'. done.
  - intros c' Hc'. destruct (chat_of aid e) as [c|] eqn:Hc.
    + destruct (Hp aid c Hc) as (d & Hd & Hi & _).
      assert (d = c') as -> by congruence. rewrite Hi. by apply Hb.
    + rewrite (Hnone aid Hc) in Hc'. done.
  - intros c Hc. destruct (Hp aid c Hc) as (d & Hd & Hi & _).
    exists d. split; [done|lia].
Qed.

(** A state that is never removed. *)
Lemma keeps_no_new_states_plain fuel ui a e id :
  chat_of id e = None ->
  chat_of (a_id a) e <> None ->
  chat_of id (snd (plain_chat client fuel ui a e)) = None.
Proof.
  intros Hnone Hsome.
  assert (Hne : a_id a <> id) by (intros Heq; by rewrite Heq in Hsome).
  pose proof (keeps_plain_chat_other client id fuel ui a Hne e) as [H _].
  by rewrite H.
Qed.

(** The tabs of an assistant that is not a pitch-deck creator have no
    button: the body of the loop does nothing. *)
Lemma tab_body_without_buttons fuel ui a msgs names k i phase content e :
  is_type a "Pitch Deck Creator" = false ->
  tab_body client str_format fuel ui a msgs names k i phase content e
  = if decide (i < k) then (Val tt, e) else (Raise IndexError, e).
Proof.
  intros Hp. unfold tab_body. rewrite Hp. destruct (decide _); [|done].
  cbv zeta. by rewrite !andb_false_r.
Qed.

Lemma for_enumerate_without_buttons fuel ui a msgs names k i entries e :
  is_type a "Pitch Deck Creator" = false ->
  snd (for_enumerate (tab_body client str_format fuel ui a msgs names k)
         i entries e) = e
  /\ (fst (for_enumerate (tab_body client str_format fuel ui a msgs names k)
            i entries e) = Val tt
      \/ fst (for_enumerate (tab_body client str_format fuel ui a msgs names k)
               i entries e) = Raise IndexError).
Proof.
  intros Hp. revert i.
  induction entries as [|[phase content] rest IH]; intros i; simpl;
    [by split; [|left]|].
  unfold bind. rewrite tab_body_without_buttons by done.
  destruct (decide _); [apply IH|by split; [|right]].
Qed.

(** The tabs of such an assistant change nothing and call nothing. *)
Lemma workflow_tabs_without_buttons fuel ui a msgs names e :
  is_type a "Pitch Deck Creator" = false ->
  snd (workflow_tabs client str_format fuel ui a msgs names e) = e.
Proof.
  intros Hp. unfold workflow_tabs, current_chat, bind at 1, bind at 1,
    get_session.
  destruct (assistant_chat_histories (session e) !! a_id a); [|done].
  simpl. destruct (take _ _); [done|].
  by apply for_enumerate_without_buttons.
Qed.

Lemma is_type_exclusive a :
  is_type a "Grant Assistant" = true ->
  is_type a "Pitch Deck Creator" = false.
Proof.
  unfold is_type. intros H. apply bool_decide_eq_true in H.
  apply bool_decide_eq_false. rewrite H. done.
Qed.

Lemma page_step_refl n aid e :
  all_wf e -> within n aid e -> page_step n aid e e.
Proof. intros Hw Hb. split_and!; try done. intros c Hc. by exists c. Qed.

Lemma page_step_noticed n aid l msg e :
  all_wf e -> within n aid e -> page_step n aid e (noticed l msg e).
Proof. intros Hw Hb. split_and!; try done. intros c Hc. by exists c. Qed.

(** The three branches of lines 250-421, from a state that exists. *)
Lemma page_body fuel ui a n e c :
  (is_type a "Pitch Deck Creator" = true ->
   length PITCH_DECK_MESSAGES <= n) ->
  chat_of (a_id a) e = Some c ->
  all_wf e -> within n (a_id a) e ->
  (forall id, a_id a <> id ->
     chat_of id
       (snd ((if is_type a "Grant Assistant" then
                workflow_tabs client str_format fuel ui a MESSAGES PHASE_NAMES
              else if is_type a "Pitch Deck Creator" then
                let* c := current_chat (a_id a) in
                if negb (Py.truthy_opt (company_name c)) then
                  if st_button ui BtnSubmitCompanyName
                  then submit_company_name client str_format fuel ui a
                         PITCH_DECK_MESSAGES PITCH_DECK_PHASE_NAMES
                  else ret tt
                else
                  workflow_tabs client str_format fuel ui a
                    PITCH_DECK_MESSAGES PITCH_DECK_PHASE_NAMES
              else plain_chat client fuel ui a) e))
     = chat_of id e) ->
  page_step n (a_id a) e
    (snd ((if is_type a "Grant Assistant" then
             workflow_tabs client str_format fuel ui a MESSAGES PHASE_NAMES
           else if is_type a "Pitch Deck Creator" then
             let* c := current_chat (a_id a) in
             if negb (Py.truthy_opt (company_name c)) then
               if st_button ui BtnSubmitCompanyName
               then submit_company_name client str_format fuel ui a
                      PITCH_DECK_MESSAGES PITCH_DECK_PHASE_NAMES
               else ret tt
             else
               workflow_tabs client str_format fuel ui a
                 PITCH_DECK_MESSAGES PITCH_DECK_PHASE_NAMES
           else plain_chat client fuel ui a) e)).
Proof.
  intros Hn Hc Hw Hb Hother.
  destruct (is_type a "Grant Assistant") eqn:Hgrant.
  { rewrite workflow_tabs_without_buttons by (by apply is_type_exclusive).
    by apply page_step_refl. }
  destruct (is_type a "Pitch Deck Creator") eqn:Hpitch.
  2:{ apply page_step_same_progress; try done.
      - apply keeps_progress_plain_chat.
      - intros id Hnone. apply keeps_no_new_states_plain; [done|].
        by rewrite Hc. }
  specialize (Hn eq_refl).
  rewrite (bind_val _ _ _ _ _ (current_chat_eq _ _ _ Hc)) in *.
  destruct (Py.truthy_opt (company_name c)) eqn:Ht; simpl negb in *.
  { destruct (keeps_tabs_workflow_tabs n fuel ui a PITCH_DECK_MESSAGES
                PITCH_DECK_PHASE_NAMES Hn e) as (?&?&?&?); [|done].
    split_and!; try done. by exists c. }
  destruct (st_button ui BtnSubmitCompanyName);
    [|by apply page_step_refl].
  destruct (Hw _ _ Hc) as [Hlen Hstart]. destruct (Hstart Ht) as [Hi Hh].
  destruct (submit_company_name client str_format fuel ui a
              PITCH_DECK_MESSAGES PITCH_DECK_PHASE_NAMES e)
    as [r e'] eqn:Hrun.
  simpl in *.
  assert (Hsel : exists c',
            chat_of (a_id a) e' = Some c' /\ wf_chat c'
            /\ message_index c' <= n
            /\ message_index c <= message_index c').
  { destruct (Py.truthy (st_text ui TxtCompanyName)) eqn:Hname.
    - destruct (submit_company_name_outcome client str_format _ _ _ _ _ _
                  _ _ _ Hc Hrun)
        as [(-> & Hlt & reply & label & e1 & _ & _ & ->)
           |(_ & c' & Hc' & Hi' & Hh')].
      + eexists. split; [apply chat_of_with_chat|]. simpl.
        split_and!; try lia.
        split; [simpl; by rewrite Hh|].
        intros Hf. exfalso. revert Hf.
        cbn [company_name set_message_index append_conversation
             set_conversation_history set_company_name Py.truthy_opt].
        by rewrite Hname.
      + exists c'. split_and!; try done; try lia.
        split; [congruence|]. intros _. split; congruence.
    - unfold submit_company_name in Hrun. rewrite Hname in Hrun.
      injection Hrun as <- <-. exists c. split_and!; try done; lia. }
  destruct Hsel as (c' & Hc' & Hw' & Hb' & Hle).
  rewrite Hrun in Hother |- *. cbn [snd] in Hother |- *.
  split_and!.
  - intros id d Hd. destruct (decide (a_id a = id)) as [<-|Hne].
    + assert (d = c') as -> by (unfold chat_of in *; congruence). done.
    + rewrite (Hother id Hne) in Hd. by eapply Hw.
  - intros d Hd.
    assert (d = c') as -> by (unfold chat_of in *; congruence). done.
  - intros d Hd.
    assert (d = c) as -> by (unfold chat_of in *; congruence). by exists c'.
Qed.

(** One run of the chat section: every conversation state stays well
    formed, and the state of the selected assistant stays within the
    workflow and does not go back. *)
Lemma chat_section_page fuel ui e a n :
  (is_type a "Pitch Deck Creator" = true ->
   length PITCH_DECK_MESSAGES <= n) ->
  assistant (session e) = Some a ->
  all_wf e -> within n (a_id a) e ->
  page_step n (a_id a) e
    (snd (chat_section client MESSAGES PHASE_NAMES PITCH_DECK_MESSAGES
            PITCH_DECK_PHASE_NAMES str_format fuel ui e)).
Proof.
  intros Hn Ha Hw Hb.
  pose proof (fun id Hne =>
    proj1 (chat_section_other client MESSAGES PHASE_NAMES PITCH_DECK_MESSAGES
             PITCH_DECK_PHASE_NAMES str_format id fuel ui e a Ha Hne))
    as Hother.
  revert Hother. unfold chat_section.
  rewrite (bind_val get_session _ e _ e eq_refl).
  destruct (assistants (session e)) as [|x rest];
    [intros _; by apply page_step_noticed|].
  rewrite Ha.
  destruct (assistant_chat_histories (session e) !! a_id a) as [c|] eqn:Hc.
  - rewrite (bind_val (ret tt) _ e tt e eq_refl). intros Hother.
    by eapply page_body.
  - rewrite (bind_val
               (modify_session (fun s =>
                  set_histories
                    (<[a_id a := fresh_chat]> (assistant_chat_histories s)) s))
               _ e tt (with_chat (a_id a) fresh_chat e) eq_refl).
    intros Hother.
    assert (Hw0 : all_wf (with_chat (a_id a) fresh_chat e))
      by (apply all_wf_with_chat; [apply wf_fresh_chat|done]).
    assert (Hb0 : within n (a_id a) (with_chat (a_id a) fresh_chat e)).
    { intros d. rewrite chat_of_with_chat. intros [= <-]. simpl. lia. }
    destruct (page_body fuel ui a n (with_chat (a_id a) fresh_chat e)
                fresh_chat Hn (chat_of_with_chat _ _ _) Hw0 Hb0)
      as (Hw' & Hb' & Hg').
    { intros id Hne. rewrite (Hother id Hne).
      by rewrite chat_of_with_chat_ne. }
    split_and!; try done.
    intros d Hd. unfold chat_of in Hd. congruence.
Qed.

End PageInvariants.

Section PageTheorems.

Variable client : Client.
Variables MESSAGES PHASE_NAMES : list string.
Variables PITCH_DECK_MESSAGES PITCH_DECK_PHASE_NAMES : list string.
Variable str_format : string -> string -> string -> exn + string.


Lemma chat_section_without_assistant fuel ui e :
  assistant (session e) = None ->
  session (snd (chat_section client MESSAGES PHASE_NAMES PITCH_DECK_MESSAGES
       PITCH_DECK_PHASE_NAMES str_format fuel ui e)) = session e
  /\ calls (snd (chat_section client MESSAGES PHASE_NAMES PITCH_DECK_MESSAGES
       PITCH_DECK_PHASE_NAMES str_format fuel ui e)) = calls e.
Proof.
  intros Ha. unfold chat_section.
  rewrite (bind_val get_session _ e _ e eq_refl), Ha.
  by destruct (assistants (session e)).
Qed.

Lemma chat_section_keeps_wf fuel ui e :
  all_wf e ->
  all_wf
    (snd (chat_section client MESSAGES PHASE_NAMES PITCH_DECK_MESSAGES
            PITCH_DECK_PHASE_NAMES str_format fuel ui e)).
Proof.
  intros Hw. destruct (assistant (session e)) as [a|] eqn:Ha.
  - destruct (chat_of (a_id a) e) as [c|] eqn:Hc.
    + apply (chat_section_page client MESSAGES PHASE_NAMES PITCH_DECK_MESSAGES
               PITCH_DECK_PHASE_NAMES str_format fuel ui e a
               (Nat.max (length PITCH_DECK_MESSAGES) (message_index c)));
        [lia|done|done|].
      intros d Hd. assert (d = c) as -> by congruence. lia.
    + apply (chat_section_page client MESSAGES PHASE_NAMES PITCH_DECK_MESSAGES
               PITCH_DECK_PHASE_NAMES str_format fuel ui e a
               (length PITCH_DECK_MESSAGES)); [lia|done|done|].
      intros d Hd. congruence.
  - destruct (chat_section_without_assistant fuel ui e Ha) as [Hs _].
    intros id c. unfold chat_of. rewrite Hs. apply Hw.
Qed.

Lemma reset_chat_session e :
  snd (reset_chat e)
  = noticed Success
      "Chat history and thread have been reset for the current assistant."
      (mkEnv
         (set_thread_id None
            (match assistant (session e) with
             | Some a =>
                 match chat_of (a_id a) e with
                 | Some _ => session (with_chat (a_id a) reset_chat_value e)
                 | None => session e
                 end
             | None => session e
             end))
         (calls e) (notices e)).
Proof.
  unfold reset_chat. rewrite (bind_val get_session _ e _ e eq_refl).
  unfold chat_of. destruct (assistant (session e)) as [a|]; [|done].
  by destruct (assistant_chat_histories (session e) !! a_id a).
Qed.

Lemma reset_chat_keeps_wf e : all_wf e -> all_wf (snd (reset_chat e)).
Proof.
  intros Hw. rewrite reset_chat_session.
  destruct (assistant (session e)) as [a|]; [|done].
  destruct (chat_of (a_id a) e) as [c0|]; [|done].
  intros id c. unfold chat_of. simpl. intros Hc.
  apply (all_wf_with_chat (a_id a) reset_chat_value e wf_reset_chat_value Hw
           id c).
  done.
Qed.

(** X1.  The conversation states stay well formed: however the chat section
    is run and reset, the history of every state has as many entries as
    its index says, and a state without a company name is at index 0 with
    an empty history. *)
Theorem operations_keep_states_well_formed ops e :
  all_wf e ->
  all_wf
    (run_operations client MESSAGES PHASE_NAMES PITCH_DECK_MESSAGES
       PITCH_DECK_PHASE_NAMES str_format ops e).
Proof.
  revert e. induction ops as [|op ops IH]; intros e Hw; [done|].
  simpl. apply IH. destruct op; simpl;
    [by apply chat_section_keeps_wf|by apply reset_chat_keeps_wf].
Qed.

(** X2.  The index never passes the end of the workflow: for the selected
    assistant it stays at most the number of prompts of the pitch deck,
    through any run of the chat section. *)
Theorem chat_section_keeps_index_within_workflow fuel ui e a :
  assistant (session e) = Some a ->
  all_wf e ->
  within (length PITCH_DECK_MESSAGES) (a_id a) e ->
  within (length PITCH_DECK_MESSAGES) (a_id a)
         (snd (chat_section client MESSAGES PHASE_NAMES PITCH_DECK_MESSAGES
       PITCH_DECK_PHASE_NAMES str_format fuel ui e)).
Proof.
  intros Ha Hw Hb.
  by apply (chat_section_page client MESSAGES PHASE_NAMES PITCH_DECK_MESSAGES
              PITCH_DECK_PHASE_NAMES str_format fuel ui e a
              (length PITCH_DECK_MESSAGES)).
Qed.

(** X3.  A run of the chat section never takes the selected assistant back: its
    conversation state is still there afterwards, with an index that is
    not smaller. *)
Theorem chat_section_never_goes_back fuel ui e a c :
  assistant (session e) = Some a ->
  all_wf e ->
  chat_of (a_id a) e = Some c ->
  exists c',
    chat_of (a_id a)
      (snd (chat_section client MESSAGES PHASE_NAMES PITCH_DECK_MESSAGES
              PITCH_DECK_PHASE_NAMES str_format fuel ui e))
    = Some c'
    /\ message_index c <= message_index c'
    /\ length (conversation_history c) <= length (conversation_history c').
Proof.
  intros Ha Hw Hc.
  destruct (chat_section_page client MESSAGES PHASE_NAMES PITCH_DECK_MESSAGES
              PITCH_DECK_PHASE_NAMES str_format fuel ui e a
              (Nat.max (length PITCH_DECK_MESSAGES) (message_index c)))
    as (Hw' & _ & Hg); [lia|done|done| |].
  { intros d Hd. assert (d = c) as -> by congruence. lia. }
  destruct (Hg c Hc) as (c' & Hc' & Hle). exists c'.
  split; [done|]. split; [done|].
  destruct (Hw _ _ Hc) as [Hl _]. destruct (Hw' _ _ Hc') as [Hl' _]. lia.
Qed.

(** An assistant of type "Grant Assistant" has tabs without buttons: a run
    of the chat section changes nothing but the page, and makes no call. *)
Lemma chat_section_of_grant_assistant fuel ui e a :
  assistant (session e) = Some a ->
  is_type a "Grant Assistant" = true ->
  calls (snd (chat_section client MESSAGES PHASE_NAMES PITCH_DECK_MESSAGES
       PITCH_DECK_PHASE_NAMES str_format fuel ui e)) = calls e
  /\ assistant
       (session
          (snd (chat_section client MESSAGES PHASE_NAMES PITCH_DECK_MESSAGES
                  PITCH_DECK_PHASE_NAMES str_format fuel ui e)))
     = Some a.
Proof.
  intros Ha Hg. unfold chat_section.
  rewrite (bind_val get_session _ e _ e eq_refl), Ha.
  destruct (assistants (session e)); [done|].
  rewrite Hg.
  destruct (assistant_chat_histories (session e) !! a_id a).
  - rewrite (bind_val (ret tt) _ e tt e eq_refl).
    rewrite workflow_tabs_without_buttons by (by apply is_type_exclusive).
    done.
  - rewrite (bind_val
               (modify_session (fun s =>
                  set_histories
                    (<[a_id a := fresh_chat]> (assistant_chat_histories s)) s))
               _ e tt (with_chat (a_id a) fresh_chat e) eq_refl).
    rewrite workflow_tabs_without_buttons by (by apply is_type_exclusive).
    done.
Qed.

(** X4.  The grant workflow never starts: while an assistant of type "Grant
    Assistant" is selected, no sequence of chat-section runs and resets
    makes a single call to the service, whatever is pressed or typed. *)
Theorem grant_assistant_never_calls_the_service ops e a :
  assistant (session e) = Some a ->
  is_type a "Grant Assistant" = true ->
  calls (run_operations client MESSAGES PHASE_NAMES PITCH_DECK_MESSAGES
       PITCH_DECK_PHASE_NAMES str_format ops e) = calls e.
Proof.
  revert e. induction ops as [|op ops IH]; intros e Ha Hg; [done|].
  simpl. destruct op as [fuel ui|]; simpl.
  - destruct (chat_section_of_grant_assistant fuel ui e a Ha Hg) as [Hc Ha'].
    by rewrite (IH _ Ha' Hg).
  - rewrite (IH (snd (reset_chat e))); [by rewrite reset_chat_session| |done].
    rewrite reset_chat_session. simpl. rewrite Ha.
    by destruct (chat_of (a_id a) e).
Qed.

(** X5.  A pitch-deck conversation whose company is named but whose history is
    empty (the first chat failed) has no button left: a run of the chat
    section changes nothing and calls nothing, until the reset. *)
Theorem named_conversation_without_history_is_stuck fuel ui e a c :
  assistant (session e) = Some a ->
  assistants (session e) <> [] ->
  is_type a "Pitch Deck Creator" = true ->
  chat_of (a_id a) e = Some c ->
  Py.truthy_opt (company_name c) = true ->
  conversation_history c = [] ->
  snd (chat_section client MESSAGES PHASE_NAMES PITCH_DECK_MESSAGES
       PITCH_DECK_PHASE_NAMES str_format fuel ui e) = e.
Proof.
  intros Ha Hreg Hp Hc Ht Hh. unfold chat_section.
  rewrite (bind_val get_session _ e _ e eq_refl), Ha.
  destruct (assistants (session e)); [done|].
  unfold chat_of in Hc. rewrite Hc.
  rewrite (bind_val (ret tt) _ e tt e eq_refl).
  assert (Hg : is_type a "Grant Assistant" = false).
  { destruct (is_type a "Grant Assistant") eqn:Hg; [|done].
    apply is_type_exclusive in Hg. congruence. }
  rewrite Hg, Hp.
  rewrite (bind_val _ _ _ _ _ (current_chat_eq _ _ _ Hc)), Ht. simpl.
  unfold workflow_tabs.
  rewrite (bind_val _ _ _ _ _ (current_chat_eq _ _ _ Hc)), Hh.
  by destruct (take _ _).
Qed.

End PageTheorems.

(** ** Inversion of a run that ends with a value *)

Lemma bind_val_inv {A B} (m : M A) (k : A -> M B) e b e' :
  bind m k e = (Val b, e') ->
  exists a e1, m e = (Val a, e1) /\ k a e1 = (Val b, e').
Proof.
  unfold bind. destruct (m e) as [[a| |x|] e1]; try done. by exists a, e1.
Qed.

Lemma try_except_val_inv {A} (m : M A) (h : exn -> M A) e b e' :
  try_except m h e = (Val b, e') ->
  m e = (Val b, e')
  \/ exists x e1, m e = (Raise x, e1) /\ h x e1 = (Val b, e').
Proof.
  unfold try_except. destruct (m e) as [[a| |x|] e1]; try done.
  - by left.
  - right. by exists x, e1.
Qed.

Lemma request_val_inv client c e r e1 :
  request client c e = (Val r, e1) ->
  client (calls e) c = r
  /\ e1 = mkEnv (session e) (calls e ++ [c]) (notices e).
Proof.
  unfold request. destruct (client (calls e) c); try done;
    by intros [= <- <-].
Qed.

Lemma getitem_val_inv {A} (xs : list A) i e x e1 :
  getitem xs i e = (Val x, e1) -> xs !! i = Some x /\ e1 = e.
Proof.
  unfold getitem. destruct (xs !! i); [|done]. by intros [= <- <-].
Qed.

(** ** The thread of a chat *)

Section ChatThread.

Variable client : Client.

Lemma stays_on_ret {A} t (a : A) : stays_on t (ret a).
Proof. intros e _. split; [done|]. exists []. by rewrite app_nil_r. Qed.

Lemma stays_on_raise {A} t x : stays_on t (@raise A x).
Proof. intros e _. split; [done|]. exists []. by rewrite app_nil_r. Qed.

Lemma stays_on_out_of_fuel {A} t : stays_on t (@out_of_fuel A).
Proof. intros e _. split; [done|]. exists []. by rewrite app_nil_r. Qed.

Lemma stays_on_notice t l msg : stays_on t (st_notice l msg).
Proof. intros e _. split; [done|]. exists []. by rewrite app_nil_r. Qed.

Lemma stays_on_getitem {A} t (xs : list A) i : stays_on t (getitem xs i).
Proof.
  unfold getitem. destruct (xs !! i);
    [apply stays_on_ret|apply stays_on_raise].
Qed.

Lemma stays_on_request t c :
  on_thread t c -> stays_on t (request client c).
Proof.
  intros Hc e _. unfold request.
  destruct (client (calls e) c); (split; [done|]); exists [c];
    (split; [done|]); by constructor.
Qed.

Lemma stays_on_bind {A B} t (m : M A) (k : A -> M B) :
  stays_on t m -> (forall a, stays_on t (k a)) -> stays_on t (bind m k).
Proof.
  intros Hm Hk e Ht. unfold bind.
  destruct (Hm e Ht) as (Hs & new & Hc & Hn).
  destruct (m e) as [[a| |x|] e1]; simpl in *;
    try (split; [done|]; by exists new).
  destruct (Hk a e1) as (Hs' & new' & Hc' & Hn'); [by rewrite Hs|].
  split; [congruence|]. exists (new ++ new').
  rewrite Hc', Hc, app_assoc. split; [done|]. by apply Forall_app.
Qed.

Lemma stays_on_try_except {A} t (m : M A) (h : exn -> M A) :
  stays_on t m -> (forall x, stays_on t (h x)) ->
  stays_on t (try_except m h).
Proof.
  intros Hm Hh e Ht. unfold try_except.
  destruct (Hm e Ht) as (Hs & new & Hc & Hn).
  destruct (m e) as [[a| |x|] e1]; simpl in *;
    try (split; [done|]; by exists new).
  destruct (Hh x e1) as (Hs' & new' & Hc' & Hn'); [by rewrite Hs|].
  split; [congruence|]. exists (new ++ new').
  rewrite Hc', Hc, app_assoc. split; [done|]. by apply Forall_app.
Qed.

Lemma stays_on_get_session {A} t (k : Session -> M A) :
  (forall s, thread_id s = Some t -> stays_on t (k s)) ->
  stays_on t (bind get_session k).
Proof.
  intros Hk e Ht. rewrite (bind_val get_session _ e _ e eq_refl).
  by apply Hk.
Qed.

Lemma stays_on_session_thread_id {A} t (k : string -> M A) :
  stays_on t (k t) -> stays_on t (bind session_thread_id k).
Proof.
  intros Hk e Ht.
  rewrite (bind_val _ _ _ _ _ (session_thread_id_eq e t Ht)). by apply Hk.
Qed.

Lemma stays_on_wait_for_run t fuel run :
  stays_on t (wait_for_run client fuel run).
Proof.
  revert run. induction fuel as [|fuel IH]; intros run; simpl;
    destruct (negb _); try apply stays_on_ret; try apply stays_on_out_of_fuel.
  apply stays_on_session_thread_id. unfold runs_retrieve.
  apply stays_on_bind; [apply stays_on_bind|].
  - by apply stays_on_request.
  - intros []; first [apply stays_on_ret|apply stays_on_raise].
  - intros run'. apply IH.
Qed.

(** X6.  A chat in a session that has a thread stays on it: the session is
    left as it is, no thread is created, and every call of the chat is
    made on the thread of the session. *)
Theorem chat_stays_on_the_thread_of_the_session fuel aid message e t :
  thread_id (session e) = Some t ->
  session (snd (chat_with_assistant client fuel aid message e)) = session e
  /\ exists new,
       calls (snd (chat_with_assistant client fuel aid message e))
       = calls e ++ new
       /\ Forall (on_thread t) new.
Proof.
  revert e. change (stays_on t (chat_with_assistant client fuel aid message)).
  unfold chat_with_assistant. apply stays_on_try_except.
  - apply stays_on_get_session. intros s Hs. rewrite Hs.
    apply stays_on_bind; [apply stays_on_ret|intros _].
    apply stays_on_session_thread_id.
    apply stays_on_bind.
    { unfold messages_create. apply stays_on_bind;
        [by apply stays_on_request|intros _; apply stays_on_ret]. }
    intros _. apply stays_on_session_thread_id.
    apply stays_on_bind.
    { unfold runs_create. apply stays_on_bind; [by apply stays_on_request|].
      intros []; first [apply stays_on_ret|apply stays_on_raise]. }
    intros run. apply stays_on_bind; [apply stays_on_wait_for_run|intros _].
    apply stays_on_session_thread_id.
    apply stays_on_bind.
    { unfold messages_list. apply stays_on_bind; [by apply stays_on_request|].
      intros []; first [apply stays_on_ret|apply stays_on_raise]. }
    intros data. apply stays_on_bind; [apply stays_on_getitem|intros m].
    apply stays_on_bind; [apply stays_on_getitem|intros b].
    destruct b; [apply stays_on_ret|apply stays_on_raise].
  - intros x. apply stays_on_bind; [apply stays_on_notice|intros _].
    apply stays_on_ret.
Qed.

(** How a chat that returns came to its value. *)
Lemma chat_value_inv fuel aid message e o e' :
  chat_with_assistant client fuel aid message e = (Val o, e') ->
  (exists v pre t data first,
      o = Some v
      /\ calls e' = pre ++ [ThreadsMessagesList t]
      /\ client pre (ThreadsMessagesList t) = RMessageList data
      /\ data !! 0 = Some first
      /\ first !! 0 = Some (TextBlock v))
  \/ (exists x e1,
        o = None
        /\ e' = noticed Error
                  ("Error chatting with assistant: " +:+ str_exn x) e1).
Proof.
  unfold chat_with_assistant. intros H.
  apply try_except_val_inv in H as [H|(x & e1 & _ & H)].
  - left.
    apply bind_val_inv in H as (s & e1 & _ & H).
    apply bind_val_inv in H as (? & e2 & _ & H).
    apply bind_val_inv in H as (t1 & e3 & _ & H).
    apply bind_val_inv in H as (? & e4 & _ & H).
    apply bind_val_inv in H as (t2 & e5 & _ & H).
    apply bind_val_inv in H as (run & e6 & _ & H).
    apply bind_val_inv in H as (run' & e7 & _ & H).
    apply bind_val_inv in H as (t3 & e8 & _ & H).
    apply bind_val_inv in H as (data & e9 & Hl & H).
    apply bind_val_inv in H as (first & e10 & Hd & H).
    apply bind_val_inv in H as (block & e11 & Hb & H).
    apply getitem_val_inv in Hd as [Hd ->].
    apply getitem_val_inv in Hb as [Hb ->].
    unfold messages_list in Hl.
    apply bind_val_inv in Hl as (r & e12 & Hr & Hl).
    apply request_val_inv in Hr as [Hr ->].
    destruct r; try done. injection Hl as -> <-.
    destruct block as [v|]; [|done]. injection H as <- <-.
    exists v, (calls e8), t3, data, first. by rewrite Hr.
  - right. exists x, e1. unfold bind, st_error, st_notice, ret in H.
    by injection H as <- <-.
Qed.

(** X7.  The answer of a chat is what the service listed: the chat ends with
    the call that lists the messages of the thread, and returns the text
    of the first block of the first message of that list. *)
Theorem chat_answer_is_the_first_listed_text fuel aid message e v e' :
  chat_with_assistant client fuel aid message e = (Val (Some v), e') ->
  exists pre t data first,
    calls e' = pre ++ [ThreadsMessagesList t]
    /\ client pre (ThreadsMessagesList t) = RMessageList data
    /\ data !! 0 = Some first
    /\ first !! 0 = Some (TextBlock v).
Proof.
  intros H. apply chat_value_inv in H as [H|H].
  - destruct H as (v' & pre & t & data & first & [= <-] & H).
    by exists pre, t, data, first.
  - by destruct H as (x & e1 & [=] & _).
Qed.

(** X8.  A chat returns [None] only from its handler: the last notice on the
    page is then the error of the chat, with the text of the exception. *)
Theorem chat_returns_none_only_with_its_error fuel aid message e e' :
  chat_with_assistant client fuel aid message e = (Val None, e') ->
  exists x,
    last (notices e')
    = Some (Error, "Error chatting with assistant: " +:+ str_exn x).
Proof.
  intros H. apply chat_value_inv in H as [H|H].
  - by destruct H as (v' & pre & t & data & first & [=] & _).
  - destruct H as (x & e1 & _ & ->). exists x. simpl. apply last_snoc.
Qed.

(** X9.  The loop of lines 135-136 ends only on a completed run: the run it
    returns has the status "completed", every call it made polled a run
    on the thread of the session, and there were at most [fuel] of them. *)
Theorem wait_for_run_returns_a_completed_run fuel run e run' e' :
  wait_for_run client fuel run e = (Val run', e') ->
  run_status run' = "completed"
  /\ session e' = session e
  /\ exists polls,
       calls e' = calls e ++ polls
       /\ length polls <= fuel
       /\ forall c, c ∈ polls ->
            exists t r, c = ThreadsRunsRetrieve t r
                        /\ thread_id (session e) = Some t.
Proof.
  revert run e. induction fuel as [|fuel IH]; intros run e; simpl;
    destruct (String.eqb (run_status run) "completed") eqn:Hst; simpl;
    try done;
    try (intros [= <- <-]; apply String.eqb_eq in Hst;
         split; [done|]; split; [done|]; exists [];
         rewrite app_nil_r; split; [done|]; split; [simpl; lia|];
         by intros c ?%elem_of_nil).
  intros H.
  apply bind_val_inv in H as (t & e1 & Ht & H).
  apply bind_val_inv in H as (run1 & e2 & Hr & H).
  unfold session_thread_id in Ht.
  apply bind_val_inv in Ht as (s & e0 & [= <- <-] & Ht).
  destruct (thread_id (session e)) as [t'|] eqn:Hth; [|done].
  injection Ht as <- <-.
  unfold runs_retrieve in Hr.
  apply bind_val_inv in Hr as (r & e3 & Hr & Hm).
  apply request_val_inv in Hr as [_ ->].
  destruct r; try done. injection Hm as <- <-.
  apply IH in H as (Hdone & Hs & polls & Hc & Hl & Hp). simpl in *.
  split; [done|]. split; [done|].
  exists (ThreadsRunsRetrieve t' (run_id run) :: polls).
  rewrite Hc, <- app_assoc. split; [done|]. split; [simpl; lia|].
  intros c [->|Hin]%elem_of_cons; [by exists t', (run_id run)|].
  destruct (Hp c Hin) as (t1 & r1 & -> & Ht1). exists t1, r1.
  split; [done|]. congruence.
Qed.

End ChatThread.

(** ** The gateway operations *)

Lemma voe_ret {A} (a : A) : value_or_exception (ret a).
Proof. intros e. done. Qed.

Lemma voe_raise {A} x : value_or_exception (@raise A x).
Proof. intros e. done. Qed.

Lemma voe_modify_session f : value_or_exception (modify_session f).
Proof. intros e. done. Qed.

Lemma voe_request client c : value_or_exception (request client c).
Proof. intros e. unfold request. by destruct (client (calls e) c). Qed.

Lemma voe_bind {A B} (m : M A) (k : A -> M B) :
  value_or_exception m -> (forall a, value_or_exception (k a)) ->
  value_or_exception (bind m k).
Proof.
  intros Hm Hk e. unfold bind. specialize (Hm e).
  destruct (m e) as [[a| |x|] e1]; simpl in *; try done. apply Hk.
Qed.

Lemma ends_in_value_try_except {A} (m : M A) (h : exn -> M A) :
  value_or_exception m -> (forall x, ends_in_value (h x)) ->
  ends_in_value (try_except m h).
Proof.
  intros Hm Hh e. unfold try_except. specialize (Hm e).
  destruct (m e) as [[a| |x|] e1]; simpl in *; try done.
  - by exists a.
  - apply Hh.
Qed.

Lemma ends_in_value_report {A} msg (a : A) :
  ends_in_value (let* _ := st_error msg in ret a).
Proof. intros e. by exists a. Qed.

Ltac voe :=
  repeat first
    [ apply voe_ret | apply voe_raise | apply voe_modify_session
    | apply voe_request
    | apply voe_bind; [ | intros ? ]
    | match goal with
      | |- value_or_exception (match ?x with _ => _ end) => destruct x
      end ].

Section Gateway.

Variable client : Client.
Variable get_assistant_instructions : string -> exn + string.
Variable temp_dir : string.

Lemma voe_upload_loop vs files acc :
  value_or_exception (upload_loop client temp_dir vs files acc).
Proof.
  revert acc. induction files as [|file files IH]; intros acc; simpl.
  - apply voe_ret.
  - apply voe_bind; [|intros b; apply IH].
    destruct file; simpl; unfold upload_and_poll; voe.
Qed.

(** X10.  The three operations that create things at the service catch every
    exception at their boundary: whatever the service answers, each of
    them ends with a value, never with an exception or a rerun. *)
Theorem gateway_operations_end_in_a_value name assistant_type vs files :
  ends_in_value (create_vector_store client name)
  /\ ends_in_value (upload_files_to_vector_store client temp_dir vs files)
  /\ ends_in_value
       (create_assistant client get_assistant_instructions name
          assistant_type vs).
Proof.
  split_and!.
  - unfold create_vector_store, vector_stores_create.
    apply ends_in_value_try_except; [voe|intros x; apply ends_in_value_report].
  - unfold upload_files_to_vector_store.
    apply ends_in_value_try_except;
      [|intros x; apply ends_in_value_report].
    apply voe_bind; [apply voe_upload_loop|intros b; apply voe_ret].
  - unfold create_assistant, assistants_create, assistants_update.
    apply ends_in_value_try_except; [voe|intros x; apply ends_in_value_report].
Qed.

Lemma upload_loop_session vs files acc e :
  session (snd (upload_loop client temp_dir vs files acc e)) = session e
  /\ notices (snd (upload_loop client temp_dir vs files acc e)) = notices e
  /\ calls_grow e (snd (upload_loop client temp_dir vs files acc e)).
Proof.
  revert acc e. induction files as [|file files IH]; intros acc e; simpl.
  - split_and!; [done|done|unfold calls_grow; reflexivity].
  - unfold bind.
    pose proof (upload_one_calls client temp_dir vs file e) as (Hc & Hs & Hn).
    assert (Hg : calls_grow e (snd (upload_one client temp_dir vs file e)))
      by (unfold calls_grow; rewrite Hc; by eexists).
    destruct (upload_one client temp_dir vs file e) as [[b| |x|] e1];
      simpl in *; try (split_and!; done).
    destruct (IH (acc ++ [b]) e1) as (Hs' & Hn' & Hg').
    split_and!; [congruence|congruence|unfold calls_grow in *; by etrans].
Qed.

(** What an upload of [files] does: the session is left as it is; with
    [Some batches] there is one batch per file, one call per file in the
    order of the list, and no notice; with [None] the error is shown. *)
Lemma upload_files_effect vs files e :
  exists r e1,
    upload_files_to_vector_store client temp_dir vs files e = (Val r, e1)
    /\ session e1 = session e
    /\ calls_grow e e1
    /\ match r with
       | Some batches =>
           length batches = length files
           /\ calls e1 = calls e ++ map (upload_call temp_dir vs) files
           /\ notices e1 = notices e
       | None =>
           exists x,
             notices e1
             = notices e ++ [(Error, "Error uploading files: " +:+ str_exn x)]
       end.
Proof.
  unfold upload_files_to_vector_store, try_except, bind.
  pose proof (upload_loop_session vs files [] e) as (Hs & Hn & Hg).
  pose proof (voe_upload_loop vs files [] e) as Hv.
  destruct (upload_loop client temp_dir vs files [] e) as [[b| |x|] e1] eqn:Hl;
    simpl in *; try done.
  - exists (Some b), e1. split_and!; try done.
    all: by apply upload_loop_calls in Hl as (? & ? & ? & ?).
  - eexists None, _. split; [done|]. split_and!; try done.
    exists x. by rewrite Hn.
Qed.

(** X11.  An upload that returns a list has sent every file: the list holds
    one batch per file, the calls are one upload per file in the order of
    the list and nothing else, and neither the session nor the notices
    have changed. *)
Theorem upload_returns_one_batch_per_file vs files e batches e1 :
  upload_files_to_vector_store client temp_dir vs files e
  = (Val (Some batches), e1) ->
  length batches = length files
  /\ calls e1 = calls e ++ map (upload_call temp_dir vs) files
  /\ session e1 = session e
  /\ notices e1 = notices e.
Proof.
  intros H.
  destruct (upload_files_effect vs files e) as (r & e' & Hu & Hs & _ & Hr).
  rewrite H in Hu. injection Hu as <- <-.
  destruct Hr as (Hl & Hc & Hn). done.
Qed.

End Gateway.

(** ** Paths *)

Lemma basename_from_app acc a s :
  Py.basename_from acc (a +:+ s) = Py.basename_from (Py.basename_from acc a) s.
Proof.
  revert acc. induction a as [|c a IH]; intros acc; [done|].
  change (String c a +:+ s) with (String c (a +:+ s)).
  cbn [Py.basename_from]. destruct (Ascii.eqb c "/"); apply IH.
Qed.

Lemma basename_from_ends_with_slash acc a :
  Py.ends_with_slash a = true -> Py.basename_from acc a = "".
Proof.
  revert acc. induction a as [|c a IH]; intros acc H; [done|].
  cbn [Py.basename_from]. destruct a as [|d a].
  - simpl in H. by rewrite H.
  - change (Py.ends_with_slash (String d a) = true) in H.
    destruct (Ascii.eqb c "/"); by apply IH.
Qed.

Lemma basename_path_join a b :
  Py.basename (Py.path_join a b) = Py.basename b.
Proof.
  unfold Py.basename, Py.path_join.
  destruct (Py.starts_with_slash b); [done|].
  destruct (negb (Py.truthy a)) eqn:Ha; simpl.
  - unfold Py.truthy in Ha. apply negb_true_iff, negb_false_iff in Ha.
    apply String.eqb_eq in Ha as ->. done.
  - destruct (Py.ends_with_slash a) eqn:Hs.
    + by rewrite (basename_from_app "" a b),
        (basename_from_ends_with_slash "" a Hs).
    + by rewrite (basename_from_app "" a ("/" +:+ b)).
Qed.

Section Creation.

Variable client : Client.
Variable get_assistant_instructions : string -> exn + string.
Variable getcwd : string.
Variable path_exists : string -> bool.
Variable read_file : string -> string.
Variable temp_dir : string.

Lemma check_required_files_result required files found e :
  fst (check_required_files getcwd path_exists read_file required files
         found e)
  = Val (files
         ++ map (fun p => RequiredFile "file" (Py.basename p)
                            (read_file (Py.path_join getcwd p)))
              (List.filter (fun p => path_exists (Py.path_join getcwd p))
                 required),
         found && forallb (fun p => path_exists (Py.path_join getcwd p))
                    required).
Proof.
  revert files found e.
  induction required as [|p required IH]; intros files found e; simpl.
  - by rewrite app_nil_r, andb_true_r.
  - destruct (path_exists (Py.path_join getcwd p)) eqn:Hp.
    + rewrite (bind_val (st_success _) _ _ tt _ eq_refl), IH.
      by rewrite basename_path_join, <- app_assoc.
    + rewrite (bind_val (st_error _) _ _ tt _ eq_refl), IH.
      by rewrite andb_false_r.
Qed.

(** X12.  The loop over the required files gathers the documents and calls
    nothing.  The required files are added after the chosen ones, in the
    order of the constant, each under its file name and with the bytes read
    from the working directory; a file that is not there is left out and
    clears the flag.  The session and the calls are as they were. *)
Theorem check_required_files_gathers required files found e :
  let run := check_required_files getcwd path_exists read_file required
               files found e in
  fst run
  = Val (files
         ++ map (fun p => RequiredFile "file" (Py.basename p)
                            (read_file (Py.path_join getcwd p)))
              (List.filter (fun p => path_exists (Py.path_join getcwd p))
                 required),
         found && forallb (fun p => path_exists (Py.path_join getcwd p))
                    required)
  /\ session (snd run) = session e
  /\ calls (snd run) = calls e.
Proof.
  intros run. subst run. split; [apply check_required_files_result|].
  destruct (check_required_files_spec getcwd path_exists read_file required
              files found e) as (files' & ns & -> & _).
  done.
Qed.

Lemma create_vector_store_effect name e :
  exists r ns,
    create_vector_store client name e
    = (Val r, mkEnv (session e) (calls e ++ [VectorStoresCreate name])
                (notices e ++ ns))
    /\ match r with
       | Some vs =>
           client (calls e) (VectorStoresCreate name) = RVectorStore vs
           /\ ns = []
       | None => True
       end.
Proof.
  unfold create_vector_store, try_except, vector_stores_create, bind, request.
  destruct (client (calls e) (VectorStoresCreate name)) eqn:Hr; simpl;
    try (eexists None, [_]; by split).
  exists (Some id), []. by rewrite app_nil_r.
Qed.

Lemma create_assistant_effect name assistant_type vs e :
  exists r e1,
    create_assistant client get_assistant_instructions name assistant_type
      vs e = (Val r, e1)
    /\ calls_grow e e1
    /\ match r with
       | Some a =>
           session e1
           = set_assistants (assistants (session e) ++ [a]) (session e)
           /\ notices e1 = notices e
           /\ exists instructions created,
                get_assistant_instructions assistant_type = inr instructions
                /\ client (calls e)
                     (AssistantsCreate name instructions assistant_type)
                   = RAssistant created
                /\ client
                     (calls e
                      ++ [AssistantsCreate name instructions assistant_type])
                     (AssistantsUpdate (a_id created) vs)
                   = RAssistant a
                /\ calls e1
                   = calls e
                     ++ [AssistantsCreate name instructions assistant_type;
                         AssistantsUpdate (a_id created) vs]
       | None =>
           session e1 = session e
           /\ exists x,
                notices e1
                = notices e
                  ++ [(Error, "Error creating assistant: " +:+ str_exn x)]
       end.
Proof.
  unfold create_assistant, try_except, assistants_create, assistants_update,
    bind, request, modify_session, st_error, st_notice, ret, raise.
  destruct (get_assistant_instructions assistant_type) as [x|instructions]
    eqn:Hi.
  { eexists None, _. split; [reflexivity|]. simpl.
    split_and!; [unfold calls_grow; reflexivity|done|by exists x]. }
  destruct (client (calls e)
              (AssistantsCreate name instructions assistant_type))
    as [msg|id|st cn|created|id| |r|data] eqn:Hc; simpl;
    try (eexists None, _; split; [reflexivity|]; simpl;
         split_and!;
           [unfold calls_grow; by eexists|done
           |first [by exists (ClientException msg)|by exists AttributeError]]).
  destruct (client _ (AssistantsUpdate (a_id created) vs))
    as [msg|id|st cn|a|id| |r|data] eqn:Hu; simpl;
    try (eexists None, _; split; [reflexivity|]; simpl;
         split_and!;
           [unfold calls_grow; eexists; by rewrite <- app_assoc|done
           |first [by exists (ClientException msg)|by exists AttributeError]]).
  eexists (Some a), _. split; [reflexivity|]. simpl.
  split_and!; [unfold calls_grow; eexists; by rewrite <- app_assoc
              |done|done|].
  exists instructions, created. by rewrite <- app_assoc.
Qed.

(** X13.  What [create_assistant] does.  With an assistant returned, the
    service was asked to create and then to update it, in that order, the
    assistant that the update returned is the one appended to the registry
    and returned, and no notice is shown.  With [None] the session is as
    it was and the error is shown. *)
Theorem create_assistant_registers_what_the_update_returns
    name assistant_type vs e :
  exists r e1,
    create_assistant client get_assistant_instructions name assistant_type
      vs e = (Val r, e1)
    /\ calls_grow e e1
    /\ match r with
       | Some a =>
           session e1
           = set_assistants (assistants (session e) ++ [a]) (session e)
           /\ notices e1 = notices e
           /\ exists instructions created,
                get_assistant_instructions assistant_type = inr instructions
                /\ client (calls e)
                     (AssistantsCreate name instructions assistant_type)
                   = RAssistant created
                /\ client
                     (calls e
                      ++ [AssistantsCreate name instructions assistant_type])
                     (AssistantsUpdate (a_id created) vs)
                   = RAssistant a
                /\ calls e1
                   = calls e
                     ++ [AssistantsCreate name instructions assistant_type;
                         AssistantsUpdate (a_id created) vs]
       | None =>
           session e1 = session e
           /\ exists x,
                notices e1
                = notices e
                  ++ [(Error, "Error creating assistant: " +:+ str_exn x)]
       end.
Proof. apply create_assistant_effect. Qed.

(** The documents of a creation: the chosen files, then the required
    files of the type. *)
Lemma filter_all {A} (f : A -> bool) (l : list A) :
  forallb f l = true -> List.filter f l = l.
Proof.
  induction l as [|x l IH]; simpl; [done|].
  intros [Hx Hl]%andb_prop. rewrite Hx. by rewrite IH.
Qed.

Lemma attach_documents_effect ui name ty vs e :
  exists o e',
    attach_documents client get_assistant_instructions getcwd path_exists
      read_file temp_dir ui name ty vs e = (o, e')
    /\ calls_grow e e'
    /\ match o with
       | Rerun =>
           exists a instructions created,
             session e'
             = set_assistant (Some a)
                 (set_assistants (assistants (session e) ++ [a]) (session e))
             /\ calls e'
                = calls e
                  ++ map (upload_call temp_dir vs)
                       (documents getcwd read_file ui ty)
                  ++ [AssistantsCreate name instructions ty;
                      AssistantsUpdate (a_id created) vs]
       | Val _ => session e' = session e
       | _ => False
       end.
Proof.
  unfold attach_documents.
  destruct (check_required_files_spec getcwd path_exists read_file
              (required_files_for ty) (st_file_uploader ui) true e)
    as (files' & ns & Hrun & _).
  pose proof (check_required_files_result (required_files_for ty)
                (st_file_uploader ui) true e) as Hfiles.
  rewrite Hrun in Hfiles. simpl in Hfiles. injection Hfiles as Hfiles.
  rewrite (bind_val _ _ _ _ _ Hrun). cbv beta iota.
  destruct (forallb _ (required_files_for ty)) eqn:Hall; cbn [andb negb].
  2: { eexists _, _. split; [reflexivity|]. simpl.
       split; [unfold calls_grow; reflexivity|done]. }
  rewrite (filter_all _ _ Hall) in Hfiles.
  destruct files' as [|f fs].
  { eexists _, _. split; [reflexivity|]. simpl.
    split; [unfold calls_grow; reflexivity|done]. }
  match goal with
  |- context [bind (upload_files_to_vector_store _ _ _ _) _ ?e0] =>
    destruct (upload_files_effect client temp_dir vs (f :: fs) e0)
      as (r & e1 & Hu & Hs & Hg & Hr) end.
  rewrite (bind_val _ _ _ _ _ Hu).
  destruct r as [[|b bs]|].
  1, 3: eexists _, _; (split; [reflexivity|]); simpl;
          split; [unfold calls_grow in *; by simpl in *|by rewrite Hs].
  rewrite (bind_val (st_success _) _ _ tt _ eq_refl).
  match goal with |- context [bind (create_assistant _ _ _ _ _) _ ?e0] =>
    destruct (create_assistant_effect name ty vs e0)
      as (r2 & e2 & Hc & Hg2 & Hm) end.
  rewrite (bind_val _ _ _ _ _ Hc).
  destruct Hr as (_ & Hcalls & _). rewrite Hfiles in Hcalls.
  change (st_file_uploader ui ++ _)
    with (documents getcwd read_file ui ty) in Hcalls.
  clear Hfiles. simpl in *.
  destruct r2 as [a|].
  - destruct Hm as (Hs2 & _ & instructions & created & _ & _ & _ & Hc2).
    eexists _, _. split; [reflexivity|]. simpl.
    split; [unfold calls_grow in *; by etrans|].
    exists a, instructions, created. rewrite Hs2, Hs. simpl.
    split; [done|]. rewrite Hc2, Hcalls. simpl.
    by rewrite <- app_assoc.
  - destruct Hm as (Hs2 & _).
    eexists _, _. split; [reflexivity|]. simpl.
    split; [unfold calls_grow in *; by etrans|]. by rewrite Hs2, Hs.
Qed.


(** X15.  The calls of a creation that succeeds, in their order: the vector
    store, one upload per document (the chosen files, then the required
    files of the type), the assistant, and its update with the id of the
    vector store that the service returned. *)
Theorem successful_creation_calls ui e e' :
  create_assistant_clicked client get_assistant_instructions getcwd
    path_exists read_file temp_dir ui e = (Rerun, e') ->
  exists ty vs instructions created,
    assistant_type_select ui = Some ty
    /\ client (calls e) (VectorStoresCreate (st_text ui TxtAssistantName))
       = RVectorStore vs
    /\ vector_store (session e') = Some vs
    /\ calls e'
       = calls e
         ++ VectorStoresCreate (st_text ui TxtAssistantName)
            :: map (upload_call temp_dir vs)
                 (documents getcwd read_file ui ty)
         ++ [AssistantsCreate (st_text ui TxtAssistantName) instructions ty;
             AssistantsUpdate (a_id created) vs].
Proof.
  unfold create_assistant_clicked.
  destruct (assistant_type_select ui) as [ty|].
  2: { by destruct (negb (Py.truthy (st_text ui TxtAssistantName))). }
  destruct (Py.truthy (st_text ui TxtAssistantName) && Py.truthy ty).
  2: { by destruct (negb (Py.truthy (st_text ui TxtAssistantName)));
         destruct (negb (Py.truthy ty)). }
  destruct (create_vector_store_effect (st_text ui TxtAssistantName) e)
    as (r & ns & Hv & Hr).
  rewrite (bind_val _ _ _ _ _ Hv).
  destruct r as [vs|]; [|done]. destruct Hr as [Hr ->].
  rewrite (bind_val (modify_session _) _ _ tt _ eq_refl).
  rewrite (bind_val (st_success _) _ _ tt _ eq_refl).
  match goal with |- context [attach_documents _ _ _ _ _ _ _ _ _ _ ?e0] =>
    destruct (attach_documents_effect ui (st_text ui TxtAssistantName) ty vs e0)
      as (o & e1 & Ha & _ & Ho) end.
  rewrite Ha. intros [= -> ->].
  destruct Ho as (a & instructions & created & Hs & Hc).
  exists ty, vs, instructions, created. rewrite Hs, Hc. simpl.
  split_and!; try done. by rewrite <- app_assoc.
Qed.

(** X16.  A required file that is missing stops the creation after the vector
    store: the store is created at the service and kept in the session,
    nothing is uploaded, no assistant is created, and the registry and the
    selection are as they were. *)
Theorem missing_required_file_leaves_a_vector_store ui e ty vs p :
  assistant_type_select ui = Some ty ->
  Py.truthy (st_text ui TxtAssistantName) = true ->
  Py.truthy ty = true ->
  client (calls e) (VectorStoresCreate (st_text ui TxtAssistantName))
  = RVectorStore vs ->
  p ∈ required_files_for ty ->
  path_exists (Py.path_join getcwd p) = false ->
  exists e',
    create_assistant_clicked client get_assistant_instructions getcwd
      path_exists read_file temp_dir ui e = (Val tt, e')
    /\ calls e'
       = calls e ++ [VectorStoresCreate (st_text ui TxtAssistantName)]
    /\ session e' = set_vector_store (Some vs) (session e).
Proof.
  intros Hty Hname Htruthy Hreply Hp Hmiss. unfold create_assistant_clicked.
  rewrite Hty, Hname, Htruthy. simpl.
  destruct (create_vector_store_effect (st_text ui TxtAssistantName) e)
    as (r & ns & Hv & Hr).
  assert (r = Some vs /\ ns = []) as [-> ->].
  { unfold create_vector_store, try_except, vector_stores_create, bind,
      request in Hv. rewrite Hreply in Hv. simpl in Hv.
    injection Hv as <- Hn. split; [done|].
    apply (f_equal length) in Hn. rewrite length_app in Hn.
    destruct ns; [done|simpl in Hn; lia]. }
  rewrite (bind_val _ _ _ _ _ Hv).
  rewrite (bind_val (modify_session _) _ _ tt _ eq_refl).
  rewrite (bind_val (st_success _) _ _ tt _ eq_refl).
  unfold attach_documents.
  match goal with
  |- context [bind (check_required_files _ _ _ _ _ _) _ ?e0] =>
    destruct (check_required_files_spec getcwd path_exists read_file
                (required_files_for ty) (st_file_uploader ui) true e0)
      as (files' & ns & Hrun & _) end.
  rewrite (bind_val _ _ _ _ _ Hrun).
  assert (Hall : forallb (fun p => path_exists (Py.path_join getcwd p))
                   (required_files_for ty) = false).
  { apply not_true_is_false. intros Hall.
    rewrite forallb_forall in Hall.
    apply list_elem_of_In in Hp. apply Hall in Hp. congruence. }
  rewrite Hall. simpl. eexists. split; [reflexivity|]. done.
Qed.

End Creation.

(** ** The sidebar *)

Section SidebarFacts.

Variable client : Client.
Variable temp_dir : string.

(** X17.  The upload of additional files never reaches its rerun.  When every
    file has gone to the service, the success is shown and line 462 then
    asks the list of batches for its [status]: the run ends with an
    [AttributeError] that nothing catches.  Otherwise it ends without an
    exception.  The session is never changed. *)
Theorem additional_upload_never_reruns pressed files vs e :
  exists o e',
    upload_additional_files client temp_dir pressed files vs e = (o, e')
    /\ session e' = session e
    /\ match o with
       | Raise x =>
           x = AttributeError
           /\ pressed = true
           /\ files <> []
           /\ calls e' = calls e ++ map (upload_call temp_dir vs) files
           /\ notices e'
              = notices e
                ++ [(Success, "Additional files uploaded successfully!")]
       | Val _ =>
           pressed = false \/ files = []
           \/ exists x,
                notices e'
                = notices e
                  ++ [(Error, "Error uploading files: " +:+ str_exn x)]
       | Rerun | OutOfFuel => False
       end.
Proof.
  unfold upload_additional_files.
  destruct pressed; [|eexists _, _; split; [reflexivity|]; by split; [|left]].
  destruct files as [|f fs];
    [eexists _, _; split; [reflexivity|]; by split; [|right; left]|].
  destruct (upload_files_effect client temp_dir vs (f :: fs) e)
    as (r & e1 & Hu & Hs & _ & Hr).
  rewrite (bind_val _ _ _ _ _ Hu).
  destruct r as [[|b bs]|].
  - destruct Hr as (Hl & _). done.
  - destruct Hr as (_ & Hc & Hn).
    eexists _, _. split; [reflexivity|]. simpl.
    split; [done|]. split_and!; try done. by rewrite Hn.
  - eexists _, _. split; [reflexivity|]. split; [done|]. right. by right.
Qed.

End SidebarFacts.

(** X18.  The two resets of the file do the same to the session: the reset of
    the grant conversation, given the id of the selected assistant, leaves
    the session that "Reset Conversation" leaves, and like it calls
    nothing. *)
Theorem the_two_resets_agree e a :
  assistant (session e) = Some a ->
  session (snd (reset_grant_assistant_conversation (a_id a) e))
  = session (snd (reset_chat e))
  /\ calls (snd (reset_grant_assistant_conversation (a_id a) e))
     = calls (snd (reset_chat e))
  /\ fst (reset_grant_assistant_conversation (a_id a) e)
     = fst (reset_chat e).
Proof.
  intros Ha. unfold reset_grant_assistant_conversation, reset_chat.
  rewrite !(bind_val get_session _ e _ e eq_refl), Ha.
  by destruct (assistant_chat_histories (session e) !! a_id a).
Qed.

(** X19.  "Reset Conversation" pressed twice leaves the session that one press
    leaves. *)
Theorem reset_chat_twice e :
  session (snd (reset_chat (snd (reset_chat e))))
  = session (snd (reset_chat e)).
Proof.
  unfold reset_chat at 1 3.
  rewrite !(bind_val get_session _ _ _ _ eq_refl).
  destruct (reset_chat e) as [o e1] eqn:He. simpl.
  unfold reset_chat in He.
  rewrite (bind_val get_session _ e _ e eq_refl) in He.
  destruct (assistant (session e)) as [a|] eqn:Ha.
  - destruct (assistant_chat_histories (session e) !! a_id a) as [c|] eqn:Hc;
      injection He as <- <-; simpl; rewrite Ha.
    + rewrite lookup_insert_eq. simpl. unfold set_histories, set_thread_id.
      simpl. by rewrite insert_insert_eq.
    + by rewrite Hc.
  - injection He as <- <-. simpl. by rewrite Ha.
Qed.

(** ** The option of the select box and the assistant it stands for *)

(** X20.  With one assistant per name, the label of an assistant leads back to
    that assistant: line 610 finds its name in the label and line 611
    finds the assistant under that name. *)
Theorem label_of_a_unique_name_selects_its_assistant registry k a e :
  registry !! k = Some a ->
  NoDup (map a_name registry) ->
  Py.has_char "-" (default "Unknown" (a_type a)) = false ->
  selected_assistant_name (option_label a) e = (Val (a_name a), e)
  /\ selected_assistant registry (a_name a) = Some a.
Proof.
  intros Hk Hnd Hty. split.
  - unfold selected_assistant_name, option_label.
    by rewrite (split_once_label _ _ Hty).
  - destruct (find_first (fun x => String.eqb (a_name x) (a_name a))
                registry k a Hk (String.eqb_refl _))
      as (j & first & Hj & Hl & Hx & _ & Hfind).
    apply String.eqb_eq in Hx. unfold selected_assistant. rewrite Hfind.
    assert (j = k) as ->.
    { apply (NoDup_lookup (map a_name registry) j k (a_name a)); [done| |].
      - by rewrite list_lookup_fmap, Hl, <- Hx.
      - by rewrite list_lookup_fmap, Hk. }
    congruence.
Qed.

(** ** What an interaction does with the answer of its chat *)

Section Forward.

Variable client : Client.

Lemma chat_of_after_chat fuel aid b message e :
  chat_of b (snd (chat_with_assistant client fuel aid message e))
  = chat_of b e.
Proof.
  apply chat_of_same_chats, chat_with_assistant_keeps.
Qed.

Lemma next_phase_eq fuel a msgs names e c message resp e1 :
  chat_of (a_id a) e = Some c ->
  msgs !! message_index c = Some message ->
  chat_with_assistant client fuel (a_id a) message e = (Val resp, e1) ->
  next_phase client fuel a msgs names e
  = match if_truthy resp with
    | Some reply =>
        match names !! message_index c with
        | Some label =>
            (Rerun, with_chat (a_id a) (advanced label reply c) e1)
        | None => (Raise IndexError, e1)
        end
    | None => (Val tt, e1)
    end.
Proof.
  intros Hc Hm Hchat. unfold next_phase.
  rewrite (bind_val _ _ _ _ _ (current_chat_eq _ _ _ Hc)).
  pose proof (lookup_lt_Some _ _ _ Hm) as Hlt.
  apply Nat.ltb_lt in Hlt. rewrite Hlt.
  unfold getitem at 1. rewrite Hm.
  rewrite (bind_val _ _ e message e eq_refl).
  rewrite (bind_val _ _ _ _ _ Hchat).
  destruct (if_truthy resp) as [reply|]; [|done].
  pose proof (chat_of_after_chat fuel (a_id a) (a_id a) message e) as Hc1.
  rewrite Hchat, Hc in Hc1. simpl in Hc1.
  by rewrite (append_and_advance_eq _ _ _ _ _ Hc1).
Qed.

Lemma draft_eq fuel a msgs names e c message resp e1 :
  chat_of (a_id a) e = Some c ->
  msgs !! message_index c = Some message ->
  chat_with_assistant client fuel (a_id a) message e = (Val resp, e1) ->
  draft_pitchdeck_slides client fuel a msgs names e
  = match if_truthy resp with
    | Some reply =>
        match names !! Nat.min (message_index c) (length names - 1) with
        | Some label =>
            (Rerun, with_chat (a_id a) (advanced label reply c) e1)
        | None => (Raise IndexError, e1)
        end
    | None =>
        (Val tt,
         noticed Error
           "Failed to get a response from the assistant. Please try again."
           e1)
    end.
Proof.
  intros Hc Hm Hchat. unfold draft_pitchdeck_slides.
  rewrite (bind_val _ _ _ _ _ (current_chat_eq _ _ _ Hc)).
  pose proof (lookup_lt_Some _ _ _ Hm) as Hlt.
  apply Nat.ltb_lt in Hlt. rewrite Hlt.
  unfold getitem at 1. rewrite Hm.
  rewrite (bind_val _ _ e message e eq_refl).
  rewrite (bind_val _ _ _ _ _ Hchat).
  destruct (if_truthy resp) as [reply|]; [|done].
  pose proof (chat_of_after_chat fuel (a_id a) (a_id a) message e) as Hc1.
  rewrite Hchat, Hc in Hc1. simpl in Hc1.
  rewrite (bind_val _ _ _ _ _ (current_chat_eq _ _ _ Hc1)).
  rewrite getitem_int_clamped. unfold getitem.
  destruct (names !! _) as [label|] eqn:Hl; [|done].
  rewrite (bind_val _ _ e1 label e1 eq_refl).
  rewrite (bind_val _ _ _ _ _ (update_chat_eq _ _ _ _ Hc1)).
  rewrite (bind_val _ _ _ _ _
             (update_chat_eq _ _ _ _ (chat_of_with_chat _ _ _))).
  by rewrite with_chat_twice.
Qed.

(** X21.  An answer moves the workflow on.  When the prompt and the label of the
    index are there and the chat returns a text that is not empty, "Next
    Phase" and "Draft Pitchdeck Slides" both store the answer under that
    label, increment the index and rerun the script; nothing else of the
    environment that the chat left is changed. *)
Theorem answered_phase_is_stored_and_rerun
    fuel a msgs names e c message label reply e1 :
  chat_of (a_id a) e = Some c ->
  msgs !! message_index c = Some message ->
  names !! message_index c = Some label ->
  chat_with_assistant client fuel (a_id a) message e
  = (Val (Some reply), e1) ->
  Py.truthy reply = true ->
  next_phase client fuel a msgs names e
  = (Rerun, with_chat (a_id a) (advanced label reply c) e1)
  /\ draft_pitchdeck_slides client fuel a msgs names e
     = (Rerun, with_chat (a_id a) (advanced label reply c) e1).
Proof.
  intros Hc Hm Hl Hchat Ht. split.
  - rewrite (next_phase_eq _ _ _ _ _ _ _ _ _ Hc Hm Hchat). simpl.
    by rewrite Ht, Hl.
  - rewrite (draft_eq _ _ _ _ _ _ _ _ _ Hc Hm Hchat). simpl. rewrite Ht.
    pose proof (lookup_lt_Some _ _ _ Hl).
    replace (Nat.min (message_index c) (length names - 1))
      with (message_index c) by lia.
    by rewrite Hl.
Qed.

(** X22.  The two buttons differ when the table of phase names is shorter than
    the table of prompts.  With a prompt but no name at the index, "Next
    Phase" sends the prompt, gets the answer and then raises [IndexError]
    at line 295: the answer is lost and the state is as the chat left it.
    "Draft Pitchdeck Slides" stores the answer under the last name of the
    table (line 367) and moves on. *)
Theorem answer_past_the_phase_names fuel a msgs names e c message reply e1 :
  chat_of (a_id a) e = Some c ->
  msgs !! message_index c = Some message ->
  length names <= message_index c ->
  names <> [] ->
  chat_with_assistant client fuel (a_id a) message e
  = (Val (Some reply), e1) ->
  Py.truthy reply = true ->
  next_phase client fuel a msgs names e = (Raise IndexError, e1)
  /\ exists label,
       last names = Some label
       /\ draft_pitchdeck_slides client fuel a msgs names e
          = (Rerun, with_chat (a_id a) (advanced label reply c) e1).
Proof.
  intros Hc Hm Hlen Hne Hchat Ht. split.
  - rewrite (next_phase_eq _ _ _ _ _ _ _ _ _ Hc Hm Hchat). simpl.
    rewrite Ht. by rewrite (lookup_ge_None_2 names _ Hlen).
  - destruct (last names) as [label|] eqn:Hlast.
    2: { apply last_None in Hlast. done. }
    exists label. split; [done|].
    rewrite (draft_eq _ _ _ _ _ _ _ _ _ Hc Hm Hchat). simpl. rewrite Ht.
    replace (Nat.min (message_index c) (length names - 1))
      with (Nat.pred (length names)) by lia.
    by rewrite <- last_lookup, Hlast.
Qed.

(** X23.  An empty text is not an answer.  When the chat returns [None] or the
    empty string, the state is as the chat left it and nothing is rerun;
    "Next Phase" says nothing about it, "Draft Pitchdeck Slides" shows an
    error. *)
Theorem empty_answer_is_dropped fuel a msgs names e c message resp e1 :
  chat_of (a_id a) e = Some c ->
  msgs !! message_index c = Some message ->
  chat_with_assistant client fuel (a_id a) message e = (Val resp, e1) ->
  resp = None \/ resp = Some "" ->
  next_phase client fuel a msgs names e = (Val tt, e1)
  /\ draft_pitchdeck_slides client fuel a msgs names e
     = (Val tt,
        noticed Error
          "Failed to get a response from the assistant. Please try again."
          e1)
  /\ chat_of (a_id a) e1 = Some c.
Proof.
  intros Hc Hm Hchat Hr.
  rewrite (next_phase_eq _ _ _ _ _ _ _ _ _ Hc Hm Hchat).
  rewrite (draft_eq _ _ _ _ _ _ _ _ _ Hc Hm Hchat).
  pose proof (chat_of_after_chat fuel (a_id a) (a_id a) message e) as Hc1.
  rewrite Hchat, Hc in Hc1. by destruct Hr as [-> | ->].
Qed.

(** X24.  The plain chat records the question before it asks.  The message of
    the user is appended to the chat history before the chat is called, and
    stays there when the chat fails; the answer is appended after it when
    the chat returns a text that is not empty.  Index, history of phases,
    company name and selected slides are untouched. *)
Theorem plain_chat_records_the_question_first
    fuel ui a e c user_message resp e1 :
  st_chat_input ui = Some user_message ->
  Py.truthy user_message = true ->
  chat_of (a_id a) e = Some c ->
  chat_with_assistant client fuel (a_id a) user_message
    (with_chat (a_id a)
       (set_chat_history (chat_history c ++ [("user", user_message)]) c) e)
  = (Val resp, e1) ->
  exists c',
    fst (plain_chat client fuel ui a e) = Val tt
    /\ chat_of (a_id a) (snd (plain_chat client fuel ui a e)) = Some c'
    /\ chat_history c'
       = chat_history c
         ++ ("user", user_message)
            :: match if_truthy resp with
               | Some reply => [("assistant", reply)]
               | None => []
               end
    /\ conversation_history c' = conversation_history c
    /\ message_index c' = message_index c
    /\ company_name c' = company_name c
    /\ selected_slides c' = selected_slides c.
Proof.
  intros Hui Ht Hc Hchat. unfold plain_chat. rewrite Hui, Ht.
  rewrite (bind_val _ _ _ _ _ (current_chat_eq _ _ _ Hc)).
  rewrite (bind_val _ _ _ _ _ (update_chat_eq _ _ _ _ Hc)).
  rewrite (bind_val _ _ _ _ _ Hchat).
  pose proof (chat_of_after_chat fuel (a_id a) (a_id a) user_message
                (with_chat (a_id a)
                   (set_chat_history
                      (chat_history c ++ [("user", user_message)]) c) e))
    as Hc1.
  rewrite Hchat, chat_of_with_chat in Hc1. simpl in Hc1.
  destruct (if_truthy resp) as [reply|].
  - rewrite (bind_val _ _ _ _ _ (current_chat_eq _ _ _ Hc1)).
    rewrite (update_chat_eq _ _ _ _ Hc1). simpl.
    eexists. split; [done|]. split; [apply chat_of_with_chat|]. simpl.
    by rewrite <- app_assoc.
  - eexists. split; [done|]. split; [exact Hc1|]. done.
Qed.

End Forward.

(** ** Equivalent states stay equivalent *)

Lemma rel_reset_chat : rel eq reset_chat reset_chat.
Proof.
  unfold reset_chat, st_success.
  eapply rel_bind; [apply rel_get_session|].
  intros s1 s2 Hs. pose proof Hs as (_ & Ha & _ & _ & Hh). rewrite Ha.
  eapply (rel_bind eq).
  { destruct (assistant s2) as [a|]; [|by apply (rel_ret eq)].
    specialize (Hh (a_id a)).
    destruct (assistant_chat_histories s1 !! a_id a),
      (assistant_chat_histories s2 !! a_id a); inversion Hh.
    - apply rel_modify_session. intros t1 t2 Ht.
      apply session_equiv_insert; [apply chat_equiv_refl|done].
    - by apply (rel_ret eq). }
  intros _ _ _. eapply (rel_bind eq); [|intros _ _ _; apply rel_notice].
  apply rel_modify_session. intros t1 t2 (?&?&?&?&?). by repeat split.
Qed.

Section Equivalent.

Variable client : Client.
Variables MESSAGES PHASE_NAMES : list string.
Variables PITCH_DECK_MESSAGES PITCH_DECK_PHASE_NAMES : list string.
Variable str_format : string -> string -> string -> exn + string.

(** X25.  The keys that a reset leaves out never show.  From two environments
    that differ only in a key ['company_name'] or ['selected_slides'] being
    absent in one and [''] in the other, any sequence of chat-section runs
    and resets makes the same calls, shows the same notices and ends in
    environments that differ only in that way again. *)
Theorem operations_keep_states_equivalent ops e1 e2 :
  env_equiv e1 e2 ->
  env_equiv
    (run_operations client MESSAGES PHASE_NAMES PITCH_DECK_MESSAGES
       PITCH_DECK_PHASE_NAMES str_format ops e1)
    (run_operations client MESSAGES PHASE_NAMES PITCH_DECK_MESSAGES
       PITCH_DECK_PHASE_NAMES str_format ops e2).
Proof.
  revert e1 e2. induction ops as [|op ops IH]; intros e1 e2 He; [done|].
  simpl. apply IH. destruct op as [fuel ui|]; simpl.
  - by apply rel_chat_section.
  - by apply rel_reset_chat.
Qed.

End Equivalent.

(** ** The bound on the polls *)

Section Fuel.

Variable client : Client.

Lemma bind_ext_on {A B} (m : M A) (k1 k2 : A -> M B) e :
  (forall a e1, m e = (Val a, e1) -> k1 a e1 = k2 a e1) ->
  bind m k1 e = bind m k2 e.
Proof.
  intros H. unfold bind. destruct (m e) as [[a| |x|] e1]; try done.
  by apply H.
Qed.

Lemma wait_for_run_more_fuel fuel k run e :
  fst (wait_for_run client fuel run e) <> OutOfFuel ->
  wait_for_run client (fuel + k) run e = wait_for_run client fuel run e.
Proof.
  revert run e. induction fuel as [|fuel IH]; intros run e; simpl.
  - destruct (negb _) eqn:Hs; [done|]. intros _.
    destruct k; simpl; by rewrite Hs.
  - destruct (negb _); [|done]. intros H.
    apply bind_ext_on. intros t e1 Ht.
    apply bind_ext_on. intros run' e2 Hr.
    apply IH. unfold bind in H. rewrite Ht in H. by rewrite Hr in H.
Qed.

(** X26.  The bound on the polls is only a bound: a chat that ends within [fuel]
    polls ends the same way, in the same environment, under any larger
    bound. *)
Theorem chat_does_not_depend_on_the_bound fuel k aid message e :
  fst (chat_with_assistant client fuel aid message e) <> OutOfFuel ->
  chat_with_assistant client (fuel + k) aid message e
  = chat_with_assistant client fuel aid message e.
Proof.
  unfold chat_with_assistant, try_except. intros H.
  match goal with |- (let (_, _) := ?m1 e in _) = (let (_, _) := ?m2 e in _) =>
    assert (Heq : m1 e = m2 e); [|by rewrite Heq] end.
  apply bind_ext_on. intros s e1 Hs.
  apply bind_ext_on. intros ? e2 H2.
  apply bind_ext_on. intros t1 e3 H3.
  apply bind_ext_on. intros ? e4 H4.
  apply bind_ext_on. intros t2 e5 H5.
  apply bind_ext_on. intros run e6 H6.
  assert (Hw : wait_for_run client (fuel + k) run e6
               = wait_for_run client fuel run e6).
  { apply wait_for_run_more_fuel. intros Hw. apply H.
    unfold bind at 1. rewrite Hs.
    unfold bind at 1. rewrite H2.
    unfold bind at 1. rewrite H3.
    unfold bind at 1. rewrite H4.
    unfold bind at 1. rewrite H5.
    unfold bind at 1. rewrite H6.
    unfold bind at 1.
    destruct (wait_for_run client fuel run e6) as [[]] eqn:Hq; done. }
  unfold bind at 1 3. by rewrite Hw.
Qed.

End Fuel.

(** ** A run in which nothing is pressed *)

#[local] Instance silent_preorder : PreOrder silent.
Proof.
  split.
  - intros e. by split.
  - intros e1 e2 e3 [? ?] [? ?]. split; congruence.
Qed.

Lemma silent_notice l msg : keeps silent (st_notice l msg).
Proof. intros e. by split. Qed.

Lemma silent_update_chat aid f : keeps silent (update_chat aid f).
Proof.
  intros e. unfold update_chat, current_chat, bind, get_session.
  by destruct (assistant_chat_histories (session e) !! aid).
Qed.

Lemma no_rerun_current_chat aid : no_rerun (current_chat aid).
Proof. unfold current_chat. frame. Qed.

Lemma no_rerun_update_chat aid f : no_rerun (update_chat aid f).
Proof. unfold update_chat. frame; apply no_rerun_current_chat. Qed.

Lemma no_rerun_getkey v : no_rerun (getkey v).
Proof. unfold getkey. frame. Qed.

Lemma no_rerun_for_enumerate body i entries :
  (forall j phase content, no_rerun (body j phase content)) ->
  no_rerun (for_enumerate body i entries).
Proof.
  intros Hbody. revert i.
  induction entries as [|[phase content] rest IH]; intros i; simpl; frame.
  - apply Hbody.
  - apply IH.
Qed.

Section Idle.

Variable client : Client.
Variables MESSAGES PHASE_NAMES : list string.
Variables PITCH_DECK_MESSAGES PITCH_DECK_PHASE_NAMES : list string.
Variable str_format : string -> string -> string -> exn + string.

Variable ui : UI.
Hypothesis no_button : forall b, st_button ui b = false.
Hypothesis no_chat_input : st_chat_input ui = None.

Ltac idle_step :=
  first
    [ apply silent_notice | apply silent_update_chat
    | apply keeps_current_chat; apply _
    | apply no_rerun_current_chat | apply no_rerun_update_chat
    | apply no_rerun_getkey
    | frame_step ].

Ltac idle := repeat idle_step.

Lemma tab_body_idle fuel a msgs names n i phase content :
  keeps silent (tab_body client str_format fuel ui a msgs names n i phase
                  content)
  /\ no_rerun (tab_body client str_format fuel ui a msgs names n i phase
                 content).
Proof.
  unfold tab_body, slide_suggestion_tab, information_evaluation_tab,
    draft_slide_generation_tab, st_success, st_info.
  rewrite !no_button.
  split; destruct (decide (i < n)); idle.
Qed.

Lemma workflow_tabs_idle fuel a msgs names :
  keeps silent (workflow_tabs client str_format fuel ui a msgs names)
  /\ no_rerun (workflow_tabs client str_format fuel ui a msgs names).
Proof.
  unfold workflow_tabs. split; idle.
  - apply keeps_for_enumerate; [apply _|]. intros. apply tab_body_idle.
  - apply no_rerun_for_enumerate. intros. apply tab_body_idle.
Qed.

(** X27.  A run of the script in which no button is pressed and nothing is
    typed into the chat makes no call, keeps the thread and does not rerun
    itself: showing the page again costs nothing at the service. *)
Theorem run_without_a_button_calls_nothing fuel e :
  let run := chat_section client MESSAGES PHASE_NAMES PITCH_DECK_MESSAGES
               PITCH_DECK_PHASE_NAMES str_format fuel ui e in
  calls (snd run) = calls e
  /\ thread_id (session (snd run)) = thread_id (session e)
  /\ fst run <> Rerun.
Proof.
  assert (Hk : keeps silent
                 (chat_section client MESSAGES PHASE_NAMES
                    PITCH_DECK_MESSAGES PITCH_DECK_PHASE_NAMES str_format
                    fuel ui)
               /\ no_rerun
                    (chat_section client MESSAGES PHASE_NAMES
                       PITCH_DECK_MESSAGES PITCH_DECK_PHASE_NAMES str_format
                       fuel ui)).
  { unfold chat_section, plain_chat, st_warning, st_info.
    rewrite no_button, no_chat_input.
    split;
      repeat first
        [ apply (proj1 (workflow_tabs_idle _ _ _ _))
        | apply (proj2 (workflow_tabs_idle _ _ _ _))
        | idle_step ];
      intros e0; by split. }
  destruct Hk as [Hs Hn]. specialize (Hs e) as [Hc Ht].
  intros run. split; [done|]. split; [done|]. apply Hn.
Qed.

End Idle.

(** * The theorems on the demo workflow *)




(** The statement of C6 fails on the thread: [globex] has talked on the
    thread of the session; a reset made while [acme] is selected leaves the
    conversation state of [globex] alone but drops the thread that the next
    message of [globex] would have gone to. *)
Lemma reset_by_one_assistant_drops_the_thread_of_another :
  assistant (session Demo.acme_after_globex) = Some Demo.acme
  /\ conversation_view "asst_globex" Demo.acme_after_globex
     = (chat_of "asst_globex" Demo.acme_after_globex, Some "thread")
  /\ conversation_view "asst_globex"
       (Demo.run Demo.echo_client [OpResetChat] Demo.acme_after_globex)
     <> conversation_view "asst_globex" Demo.acme_after_globex.
Proof.
  split; [vm_compute; reflexivity|]. split; [vm_compute; reflexivity|].
  intros H. vm_compute in H. discriminate.
Qed.

Lemma operations_keep_other_conversation_states_witness :
  chat_of "asst_globex"
    (run_operations Demo.echo_client [] [] Demo.PROMPTS Demo.PHASES
       Demo.format
       [ OpResetChat;
         OpChatSection 5 (Demo.click BtnSubmitCompanyName "company" "Acme") ]
       Demo.acme_after_globex)
  = chat_of "asst_globex" Demo.acme_after_globex.
Proof.
  apply (operations_keep_other_conversation_states Demo.echo_client [] []
           Demo.PROMPTS Demo.PHASES Demo.format _ Demo.acme_after_globex
           Demo.acme "asst_globex").
  - vm_compute. reflexivity.
  - discriminate.
Defined.

Lemma failed_upload_aborts_batch_and_returns_none_witness :
  let e1 := snd (upload_loop Demo.second_upload_fails Demo.tmp "vs_acme"
                   [Demo.file_a] [] Demo.blank) in
  let e2 := snd (upload_one Demo.second_upload_fails Demo.tmp "vs_acme"
                   Demo.file_b e1) in
  upload_files_to_vector_store Demo.second_upload_fails Demo.tmp "vs_acme"
    ([Demo.file_a] ++ Demo.file_b :: [Demo.file_a]) Demo.blank
  = (Val None,
     noticed Error
       ("Error uploading files: " +:+ str_exn (ClientException "Upload failed."))
       e2)
  /\ calls e2
     = calls Demo.blank
       ++ map (upload_call Demo.tmp "vs_acme") ([Demo.file_a] ++ [Demo.file_b])
  /\ session e2 = session Demo.blank.
Proof.
  apply (failed_upload_aborts_batch_and_returns_none
           Demo.second_upload_fails Demo.tmp "vs_acme" [Demo.file_a]
           Demo.file_b [Demo.file_a] Demo.blank [("completed", "1")]
           (snd (upload_loop Demo.second_upload_fails Demo.tmp "vs_acme"
                   [Demo.file_a] [] Demo.blank))
           (ClientException "Upload failed.")).
  - vm_compute. reflexivity.
  - vm_compute. reflexivity.
Defined.

Lemma missing_required_file_stops_before_upload_witness :
  exists ns,
    attach_documents Demo.echo_client Demo.instructions Demo.cwd Demo.on_disk
      Demo.file_bytes Demo.tmp Demo.no_ui "Acme" "Pitch Deck Creator"
      "vs_acme" Demo.blank
    = (Val tt,
       mkEnv (session Demo.blank) (calls Demo.blank)
             (notices Demo.blank ++ ns))
    /\ not_found_notice Demo.cwd "required_files/Pitchdeck Questions.pdf" ∈ ns
    /\ last ns
       = Some (Error,
               "Some required files are missing. Please ensure all required files are in the correct directory.").
Proof.
  apply (missing_required_file_stops_before_upload Demo.echo_client
           Demo.instructions Demo.cwd Demo.on_disk Demo.file_bytes Demo.tmp
           Demo.no_ui "Acme" "Pitch Deck Creator" "vs_acme" Demo.blank
           "required_files/Pitchdeck Questions.pdf").
  - apply list_elem_of_here.
  - vm_compute. reflexivity.
Defined.

Lemma reset_chat_returns_to_start_witness :
  let e' := snd (reset_chat Demo.complete) in
  let run := chat_section Demo.echo_client [] [] Demo.PROMPTS Demo.PHASES
               Demo.format 5
               (Demo.click BtnSubmitCompanyName "company" "Acme") in
  chat_of (a_id Demo.acme) e' = Some reset_chat_value
  /\ message_index reset_chat_value = 0
  /\ conversation_history reset_chat_value = []
  /\ thread_id (session e') = None
  /\ (forall aid message,
        exists rest,
          calls (snd (chat_with_assistant Demo.echo_client 5 aid message e'))
          = calls e' ++ ThreadsCreate :: rest)
  /\ fst (run e') = fst (run (with_chat (a_id Demo.acme) fresh_chat e'))
  /\ env_equiv (snd (run e'))
               (snd (run (with_chat (a_id Demo.acme) fresh_chat e'))).
Proof.
  apply (reset_chat_returns_to_start Demo.echo_client [] [] Demo.PROMPTS
           Demo.PHASES Demo.format 5
           (Demo.click BtnSubmitCompanyName "company" "Acme") Demo.complete
           Demo.acme Demo.complete_chat).
  - vm_compute. reflexivity.
  - vm_compute. reflexivity.
Defined.


(** * The further properties on the demo workflow *)

Lemma all_wf_without_chats e :
  assistant_chat_histories (session e) = ∅ -> all_wf e.
Proof. intros H id c. unfold chat_of. by rewrite H, lookup_empty. Qed.

Lemma wf_chat_named c :
  length (conversation_history c) = message_index c ->
  Py.truthy_opt (company_name c) = true ->
  wf_chat c.
Proof. intros Hl Ht. split; [done|]. intros H. congruence. Qed.

Lemma all_wf_talking a thread c : wf_chat c -> all_wf (Demo.talking a thread c).
Proof.
  intros H. apply all_wf_with_chat; [done|]. by apply all_wf_without_chats.
Qed.

Lemma operations_keep_states_well_formed_witness :
  all_wf
    (run_operations Demo.echo_client [] [] Demo.PROMPTS Demo.PHASES
       Demo.format
       [ OpChatSection 5 (Demo.click (BtnNextPhase 0) "" "");
         OpResetChat;
         OpChatSection 5 (Demo.click BtnSubmitCompanyName "company" "Acme") ]
       (Demo.talking Demo.acme (Some "thread") Demo.named_chat)).
Proof.
  apply (operations_keep_states_well_formed Demo.echo_client [] []
           Demo.PROMPTS Demo.PHASES Demo.format).
  apply all_wf_talking, wf_chat_named; reflexivity.
Defined.

Lemma chat_section_keeps_index_within_workflow_witness :
  within (length Demo.PROMPTS) (a_id Demo.acme)
    (snd (chat_section Demo.echo_client [] [] Demo.PROMPTS Demo.PHASES
            Demo.format 5 (Demo.click BtnDraftSlides "" "")
            (Demo.talking Demo.acme (Some "thread") Demo.complete_chat))).
Proof.
  apply (chat_section_keeps_index_within_workflow Demo.echo_client [] []
           Demo.PROMPTS Demo.PHASES Demo.format 5 _ _ Demo.acme).
  - reflexivity.
  - apply all_wf_talking, wf_chat_named; reflexivity.
  - intros c H. vm_compute in H. injection H as <-. simpl. lia.
Defined.

Lemma chat_section_never_goes_back_witness :
  exists c',
    chat_of (a_id Demo.acme)
      (snd (chat_section Demo.echo_client [] [] Demo.PROMPTS Demo.PHASES
              Demo.format 5 (Demo.click (BtnNextPhase 0) "" "")
              (Demo.talking Demo.acme (Some "thread") Demo.named_chat)))
    = Some c'
    /\ message_index Demo.named_chat <= message_index c'
    /\ length (conversation_history Demo.named_chat)
       <= length (conversation_history c').
Proof.
  apply (chat_section_never_goes_back Demo.echo_client [] [] Demo.PROMPTS
           Demo.PHASES Demo.format 5 _ _ Demo.acme Demo.named_chat).
  - reflexivity.
  - apply all_wf_talking, wf_chat_named; reflexivity.
  - vm_compute. reflexivity.
Defined.

Lemma grant_assistant_never_calls_the_service_witness :
  calls
    (run_operations Demo.echo_client Demo.PROMPTS Demo.PHASES Demo.PROMPTS
       Demo.PHASES Demo.format
       [ OpChatSection 5 (Demo.click BtnSubmitCompanyName "company" "Acme");
         OpChatSection 5 (Demo.click (BtnNextPhase 0) "" "");
         OpResetChat;
         OpChatSection 5 (Demo.ask "Hello") ]
       (Demo.talking Demo.acme_again None Demo.named_chat))
  = calls (Demo.talking Demo.acme_again None Demo.named_chat).
Proof.
  apply (grant_assistant_never_calls_the_service Demo.echo_client
           Demo.PROMPTS Demo.PHASES Demo.PROMPTS Demo.PHASES Demo.format _ _
           Demo.acme_again).
  - reflexivity.
  - vm_compute. reflexivity.
Defined.

Lemma named_conversation_without_history_is_stuck_witness :
  snd (chat_section Demo.echo_client [] [] Demo.PROMPTS Demo.PHASES
         Demo.format 5 (Demo.click BtnSubmitCompanyName "company" "Acme")
         (Demo.talking Demo.acme None Demo.unanswered_chat))
  = Demo.talking Demo.acme None Demo.unanswered_chat.
Proof.
  apply (named_conversation_without_history_is_stuck Demo.echo_client [] []
           Demo.PROMPTS Demo.PHASES Demo.format 5 _ _ Demo.acme
           Demo.unanswered_chat).
  - reflexivity.
  - discriminate.
  - vm_compute. reflexivity.
  - vm_compute. reflexivity.
  - reflexivity.
  - reflexivity.
Defined.

Lemma chat_stays_on_the_thread_of_the_session_witness :
  let e := Demo.talking Demo.acme (Some "thread") Demo.named_chat in
  session (snd (chat_with_assistant Demo.echo_client 5 "asst_acme"
                  "Suggest slides" e))
  = session e
  /\ exists new,
       calls (snd (chat_with_assistant Demo.echo_client 5 "asst_acme"
                     "Suggest slides" e))
       = calls e ++ new
       /\ Forall (on_thread "thread") new.
Proof.
  apply (chat_stays_on_the_thread_of_the_session Demo.echo_client 5
           "asst_acme" "Suggest slides"
           (Demo.talking Demo.acme (Some "thread") Demo.named_chat)
           "thread").
  reflexivity.
Defined.

Lemma chat_answer_is_the_first_listed_text_witness :
  exists pre t data first,
    calls (snd (chat_with_assistant Demo.echo_client 5 "asst_acme"
                  "Suggest slides" Demo.start))
    = pre ++ [ThreadsMessagesList t]
    /\ Demo.echo_client pre (ThreadsMessagesList t) = RMessageList data
    /\ data !! 0 = Some first
    /\ first !! 0 = Some (TextBlock "Re: Suggest slides").
Proof.
  apply (chat_answer_is_the_first_listed_text Demo.echo_client 5 "asst_acme"
           "Suggest slides" Demo.start).
  vm_compute. reflexivity.
Defined.

Lemma chat_returns_none_only_with_its_error_witness :
  exists x,
    last (notices (snd (chat_with_assistant Demo.offline_client 5 "asst_acme"
                          "Suggest slides" Demo.start)))
    = Some (Error, "Error chatting with assistant: " +:+ str_exn x).
Proof.
  apply (chat_returns_none_only_with_its_error Demo.offline_client 5
           "asst_acme" "Suggest slides" Demo.start).
  vm_compute. reflexivity.
Defined.

Lemma wait_for_run_returns_a_completed_run_witness :
  let e := Demo.talking Demo.acme (Some "thread") Demo.named_chat in
  let r := wait_for_run Demo.echo_client 5 (mkRun "run" "queued") e in
  run_status (mkRun "run" "completed") = "completed"
  /\ session (snd r) = session e
  /\ exists polls,
       calls (snd r) = calls e ++ polls
       /\ length polls <= 5
       /\ forall c, c ∈ polls ->
            exists t r', c = ThreadsRunsRetrieve t r'
                         /\ thread_id (session e) = Some t.
Proof.
  apply (wait_for_run_returns_a_completed_run Demo.echo_client 5
           (mkRun "run" "queued")
           (Demo.talking Demo.acme (Some "thread") Demo.named_chat)).
  vm_compute. reflexivity.
Defined.

Lemma upload_returns_one_batch_per_file_witness :
  let r := upload_files_to_vector_store Demo.echo_client Demo.tmp "vs_acme"
             [Demo.file_a; Demo.file_b] Demo.blank in
  length [("completed", "1"); ("completed", "1")]
  = length [Demo.file_a; Demo.file_b]
  /\ calls (snd r)
     = calls Demo.blank
       ++ map (upload_call Demo.tmp "vs_acme") [Demo.file_a; Demo.file_b]
  /\ session (snd r) = session Demo.blank
  /\ notices (snd r) = notices Demo.blank.
Proof.
  apply (upload_returns_one_batch_per_file Demo.echo_client Demo.tmp
           "vs_acme" [Demo.file_a; Demo.file_b] Demo.blank).
  vm_compute. reflexivity.
Defined.

Lemma successful_creation_calls_witness :
  let ui := Demo.create_form "Pitch Deck Creator" in
  let e' := snd (create_assistant_clicked Demo.echo_client Demo.instructions
                   Demo.cwd Demo.all_on_disk Demo.file_bytes Demo.tmp ui
                   Demo.blank) in
  exists ty vs instructions created,
    assistant_type_select ui = Some ty
    /\ Demo.echo_client (calls Demo.blank)
         (VectorStoresCreate (st_text ui TxtAssistantName))
       = RVectorStore vs
    /\ vector_store (session e') = Some vs
    /\ calls e'
       = calls Demo.blank
         ++ VectorStoresCreate (st_text ui TxtAssistantName)
            :: map (upload_call Demo.tmp vs)
                 (documents Demo.cwd Demo.file_bytes ui ty)
         ++ [AssistantsCreate (st_text ui TxtAssistantName) instructions ty;
             AssistantsUpdate (a_id created) vs].
Proof.
  apply (successful_creation_calls Demo.echo_client Demo.instructions
           Demo.cwd Demo.all_on_disk Demo.file_bytes Demo.tmp
           (Demo.create_form "Pitch Deck Creator") Demo.blank).
  vm_compute. reflexivity.
Defined.

Lemma missing_required_file_leaves_a_vector_store_witness :
  let ui := Demo.create_form "Pitch Deck Creator" in
  exists e',
    create_assistant_clicked Demo.echo_client Demo.instructions Demo.cwd
      Demo.on_disk Demo.file_bytes Demo.tmp ui Demo.blank = (Val tt, e')
    /\ calls e'
       = calls Demo.blank ++ [VectorStoresCreate (st_text ui TxtAssistantName)]
    /\ session e' = set_vector_store (Some "vs_Acme") (session Demo.blank).
Proof.
  apply (missing_required_file_leaves_a_vector_store Demo.echo_client
           Demo.instructions Demo.cwd Demo.on_disk Demo.file_bytes Demo.tmp
           (Demo.create_form "Pitch Deck Creator") Demo.blank
           "Pitch Deck Creator" "vs_Acme"
           "required_files/Pitchdeck Questions.pdf").
  - reflexivity.
  - reflexivity.
  - reflexivity.
  - reflexivity.
  - vm_compute. apply list_elem_of_here.
  - vm_compute. reflexivity.
Defined.

Lemma the_two_resets_agree_witness :
  let e := Demo.talking Demo.acme (Some "thread") Demo.named_chat in
  session (snd (reset_grant_assistant_conversation (a_id Demo.acme) e))
  = session (snd (reset_chat e))
  /\ calls (snd (reset_grant_assistant_conversation (a_id Demo.acme) e))
     = calls (snd (reset_chat e))
  /\ fst (reset_grant_assistant_conversation (a_id Demo.acme) e)
     = fst (reset_chat e).
Proof.
  apply (the_two_resets_agree
           (Demo.talking Demo.acme (Some "thread") Demo.named_chat)
           Demo.acme).
  reflexivity.
Defined.

Lemma label_of_a_unique_name_selects_its_assistant_witness :
  selected_assistant_name (option_label Demo.globex) Demo.blank
  = (Val (a_name Demo.globex), Demo.blank)
  /\ selected_assistant [Demo.acme; Demo.globex; Demo.helper]
       (a_name Demo.globex)
     = Some Demo.globex.
Proof.
  apply (label_of_a_unique_name_selects_its_assistant
           [Demo.acme; Demo.globex; Demo.helper] 1 Demo.globex Demo.blank).
  - reflexivity.
  - apply (bool_decide_unpack _). vm_compute. exact I.
  - vm_compute. reflexivity.
Defined.

Lemma answered_phase_is_stored_and_rerun_witness :
  let e := Demo.talking Demo.acme None Demo.named_chat in
  let e1 := snd (chat_with_assistant Demo.echo_client 5 "asst_acme"
                   "Suggest slides" e) in
  let c' := advanced "2. Slide Suggestion" "Re: Suggest slides"
              Demo.named_chat in
  next_phase Demo.echo_client 5 Demo.acme Demo.PROMPTS Demo.PHASES e
  = (Rerun, with_chat (a_id Demo.acme) c' e1)
  /\ draft_pitchdeck_slides Demo.echo_client 5 Demo.acme Demo.PROMPTS
       Demo.PHASES e
     = (Rerun, with_chat (a_id Demo.acme) c' e1).
Proof.
  apply (answered_phase_is_stored_and_rerun Demo.echo_client 5 Demo.acme
           Demo.PROMPTS Demo.PHASES
           (Demo.talking Demo.acme None Demo.named_chat) Demo.named_chat
           "Suggest slides" "2. Slide Suggestion" "Re: Suggest slides").
  - vm_compute. reflexivity.
  - reflexivity.
  - reflexivity.
  - vm_compute. reflexivity.
  - reflexivity.
Defined.

Lemma answer_past_the_phase_names_witness :
  let e := Demo.talking Demo.acme None Demo.named_chat in
  let e1 := snd (chat_with_assistant Demo.echo_client 5 "asst_acme"
                   "Suggest slides" e) in
  next_phase Demo.echo_client 5 Demo.acme Demo.PROMPTS Demo.SHORT_PHASES e
  = (Raise IndexError, e1)
  /\ exists label,
       last Demo.SHORT_PHASES = Some label
       /\ draft_pitchdeck_slides Demo.echo_client 5 Demo.acme Demo.PROMPTS
            Demo.SHORT_PHASES e
          = (Rerun,
             with_chat (a_id Demo.acme)
               (advanced label "Re: Suggest slides" Demo.named_chat) e1).
Proof.
  apply (answer_past_the_phase_names Demo.echo_client 5 Demo.acme
           Demo.PROMPTS Demo.SHORT_PHASES
           (Demo.talking Demo.acme None Demo.named_chat) Demo.named_chat
           "Suggest slides" "Re: Suggest slides").
  - vm_compute. reflexivity.
  - reflexivity.
  - simpl. lia.
  - discriminate.
  - vm_compute. reflexivity.
  - reflexivity.
Defined.

Lemma empty_answer_is_dropped_witness :
  let e := Demo.talking Demo.acme None Demo.named_chat in
  let e1 := snd (chat_with_assistant Demo.offline_client 5 "asst_acme"
                   "Suggest slides" e) in
  next_phase Demo.offline_client 5 Demo.acme Demo.PROMPTS Demo.PHASES e
  = (Val tt, e1)
  /\ draft_pitchdeck_slides Demo.offline_client 5 Demo.acme Demo.PROMPTS
       Demo.PHASES e
     = (Val tt,
        noticed Error
          "Failed to get a response from the assistant. Please try again."
          e1)
  /\ chat_of (a_id Demo.acme) e1 = Some Demo.named_chat.
Proof.
  apply (empty_answer_is_dropped Demo.offline_client 5 Demo.acme
           Demo.PROMPTS Demo.PHASES
           (Demo.talking Demo.acme None Demo.named_chat) Demo.named_chat
           "Suggest slides" None).
  - vm_compute. reflexivity.
  - reflexivity.
  - vm_compute. reflexivity.
  - by left.
Defined.

Lemma plain_chat_records_the_question_first_witness :
  let e := Demo.talking Demo.helper None fresh_chat in
  let run := plain_chat Demo.offline_client 5 (Demo.ask "Hello") Demo.helper
               e in
  exists c',
    fst run = Val tt
    /\ chat_of (a_id Demo.helper) (snd run) = Some c'
    /\ chat_history c'
       = chat_history fresh_chat
         ++ ("user", "Hello")
            :: match if_truthy None with
               | Some reply => [("assistant", reply)]
               | None => []
               end
    /\ conversation_history c' = conversation_history fresh_chat
    /\ message_index c' = message_index fresh_chat
    /\ company_name c' = company_name fresh_chat
    /\ selected_slides c' = selected_slides fresh_chat.
Proof.
  eapply (plain_chat_records_the_question_first Demo.offline_client 5
            (Demo.ask "Hello") Demo.helper
            (Demo.talking Demo.helper None fresh_chat) fresh_chat "Hello"
            None).
  - reflexivity.
  - reflexivity.
  - vm_compute. reflexivity.
  - vm_compute. reflexivity.
Defined.

Lemma operations_keep_states_equivalent_witness :
  let ops := [ OpChatSection 5
                 (Demo.click BtnSubmitCompanyName "company" "Acme");
               OpChatSection 5 (Demo.click (BtnNextPhase 0) "" "") ] in
  env_equiv
    (Demo.run Demo.echo_client ops
       (with_chat "asst_acme" reset_chat_value Demo.start))
    (Demo.run Demo.echo_client ops
       (with_chat "asst_acme" fresh_chat Demo.start)).
Proof.
  apply (operations_keep_states_equivalent Demo.echo_client [] []
           Demo.PROMPTS Demo.PHASES Demo.format).
  apply env_equiv_with_chat. vm_compute. by repeat split.
Defined.

Lemma chat_does_not_depend_on_the_bound_witness :
  chat_with_assistant Demo.echo_client (1 + 7) "asst_acme" "Suggest slides"
    Demo.start
  = chat_with_assistant Demo.echo_client 1 "asst_acme" "Suggest slides"
      Demo.start.
Proof.
  apply (chat_does_not_depend_on_the_bound Demo.echo_client 1 7 "asst_acme"
           "Suggest slides" Demo.start).
  vm_compute. discriminate.
Defined.

Lemma run_without_a_button_calls_nothing_witness :
  let run := chat_section Demo.echo_client [] [] Demo.PROMPTS Demo.PHASES
               Demo.format 5 Demo.no_ui
               (Demo.talking Demo.acme (Some "thread") Demo.complete_chat) in
  calls (snd run)
  = calls (Demo.talking Demo.acme (Some "thread") Demo.complete_chat)
  /\ thread_id (session (snd run))
     = thread_id
         (session (Demo.talking Demo.acme (Some "thread") Demo.complete_chat))
  /\ fst run <> Rerun.
Proof.
  apply (run_without_a_button_calls_nothing Demo.echo_client [] []
           Demo.PROMPTS Demo.PHASES Demo.format Demo.no_ui).
  - intros b. reflexivity.
  - reflexivity.
Defined.
